(** * Rollforward MVP: table detection, header matching and status tracking

    A shallow embedding of the core of the rollforward tool
    ([table_finder.py], [header_matcher.py] and the status-tracking part of
    [file_updater.py]) together with the properties its specification states
    about it.

    Conventions of the embedding.
    - A Python [str] is a [string]; characters are identified with their
      codes ([ord]), so the development speaks about strings whose
      characters have codes below 256.
    - A Python call that may raise is a value of [result]; a [try/except]
      is a [match] on it.
    - Python floats only occur as confidence scores and ratios of small
      counters; they are rendered as exact rationals ([Q]).
    - The spreadsheet library is represented by the observations the code
      makes of it: sheet names, cell values, row reads, the declared filter
      range and the occupied dimension. *)

From Stdlib Require Import String Ascii List ZArith QArith Qminmax Lia Bool Arith.
From Stdlib Require Import DecimalString.
From Stdlib Require DecimalZ Permutation Sorted.
Import ListNotations.

Local Open Scope string_scope.
Local Open Scope Z_scope.

(** ** Python values the code relies on *)

Module Py.

(** The only exception class the addressing code raises itself. *)
Inductive exn : Type :=
| ValueError (msg : string).

Inductive result (A : Type) : Type :=
| Returned (a : A)
| Raised (e : exn).
Arguments Returned {A} a.
Arguments Raised {A} e.

Definition bind {A B} (r : result A) (k : A -> result B) : result B :=
  match r with
  | Returned a => k a
  | Raised e => Raised e
  end.

(** [raises r]: the call ended in an exception. *)
Definition raises {A} (r : result A) : Prop := exists e, r = Raised e.

Definition ord (c : ascii) : Z := Z.of_N (N_of_ascii c).

Definition is_upper (c : ascii) : bool := (65 <=? ord c) && (ord c <=? 90).
Definition is_lower (c : ascii) : bool := (97 <=? ord c) && (ord c <=? 122).
Definition is_alpha (c : ascii) : bool := is_upper c || is_lower c.
Definition is_digit (c : ascii) : bool := (48 <=? ord c) && (ord c <=? 57).

(** [str.isspace]: tab to carriage return, the four separators, the
    space, next-line and the no-break space. *)
Definition is_space (c : ascii) : bool :=
  ((9 <=? ord c) && (ord c <=? 13)) || ((28 <=? ord c) && (ord c <=? 32))
  || (ord c =? 133) || (ord c =? 160).

Fixpoint string_forallb (p : ascii -> bool) (s : string) : bool :=
  match s with
  | EmptyString => true
  | String c rest => p c && string_forallb p rest
  end.

(** [c in s] for a one-character [c]. *)
Fixpoint contains (c : ascii) (s : string) : bool :=
  match s with
  | EmptyString => false
  | String d rest => Ascii.eqb d c || contains c rest
  end.

(** [s.split(sep)] for a one-character separator. *)
Fixpoint split (sep : ascii) (s : string) : list string :=
  match s with
  | EmptyString => [EmptyString]
  | String c rest =>
      if Ascii.eqb c sep then EmptyString :: split sep rest
      else match split sep rest with
           | piece :: pieces => String c piece :: pieces
           | [] => [String c EmptyString]
           end
  end.

(** The longest prefix of [s] whose characters satisfy [p], and the rest:
    what a greedy character class [[...]*] consumes. *)
Fixpoint span (p : ascii -> bool) (s : string) : string * string :=
  match s with
  | EmptyString => (EmptyString, EmptyString)
  | String c rest =>
      if p c then let (taken, left) := span p rest in (String c taken, left)
      else (EmptyString, s)
  end.

(** [int(s)] on a string of decimal digits. *)
Fixpoint int_loop (acc : Z) (s : string) : Z :=
  match s with
  | EmptyString => acc
  | String c rest => int_loop (acc * 10 + (ord c - 48)) rest
  end.
Definition int (s : string) : Z := int_loop 0 s.

(** [str(n)] for an integer. *)
Definition str_of_Z (n : Z) : string := NilZero.string_of_int (Z.to_int n).

(** [s.strip()]: whitespace removed at both ends. *)
Fixpoint lstrip (s : string) : string :=
  match s with
  | EmptyString => EmptyString
  | String c rest => if is_space c then lstrip rest else s
  end.

Fixpoint rstrip (s : string) : string :=
  match s with
  | EmptyString => EmptyString
  | String c rest =>
      match rstrip rest with
      | EmptyString => if is_space c then EmptyString else String c EmptyString
      | kept => String c kept
      end
  end.

Definition strip (s : string) : string := rstrip (lstrip s).

(** Truth value of a string: non-empty. *)
Definition truthy (s : string) : bool :=
  match s with EmptyString => false | String _ _ => true end.

End Py.

Import Py.

Declare Scope py_scope.
Notation "x <- c1 ;; c2" := (Py.bind c1 (fun x => c2))
  (at level 61, c1 at next level, right associativity) : py_scope.
Notation "' pat <- c1 ;; c2" := (Py.bind c1 (fun x => match x with pat => c2 end))
  (at level 61, pat pattern, c1 at next level, right associativity) : py_scope.
Local Open Scope py_scope.

(** ** RangeAddressing ([table_finder.py]) *)

Module RangeAddressing.

Fixpoint column_loop (result : Z) (col_str : string) : Z :=
  match col_str with
  | EmptyString => result
  | String char rest => column_loop (result * 26 + (ord char - ord "A" + 1)) rest
  end.

(** [column_string_to_number]: the body has no [raise]; every call returns. *)
Definition column_string_to_number (col_str : string) : result Z :=
  Returned (column_loop 0 col_str).

(** [re.match(r'([A-Z]+)(\d+)', cell_ref)]: the two groups, when the
    string starts with at least one capital followed by at least one digit.
    Whatever follows the digits is ignored, as [re.match] only anchors the
    start. *)
Definition re_match_cell (cell_ref : string) : option (string * string) :=
  let (col_str, rest) := span is_upper cell_ref in
  let (row_str, _) := span is_digit rest in
  if truthy col_str && truthy row_str then Some (col_str, row_str) else None.

Definition parse_cell_reference (cell_ref : string) : result (Z * Z) :=
  match re_match_cell cell_ref with
  | None => Raised (ValueError ("Invalid cell reference: " ++ cell_ref))
  | Some (col_str, row_str) =>
      col <- column_string_to_number col_str ;;
      Returned (int row_str, col)
  end.

Record range_info : Type := mk_range_info
  { start_row : Z; end_row : Z; start_col : Z; end_col : Z }.

Definition parse_excel_range (range_str : string) : result range_info :=
  if negb (contains ":" range_str) then
    Raised (ValueError ("Invalid range format: " ++ range_str))
  else
    match split ":" range_str with
    | [start_cell; end_cell] =>
        '(start_row, start_col) <- parse_cell_reference start_cell ;;
        '(end_row, end_col) <- parse_cell_reference end_cell ;;
        Returned (mk_range_info start_row end_row start_col end_col)
    | _ => Raised (ValueError "too many values to unpack (expected 2)")
    end.

End RangeAddressing.

(** ** Worksheets as the code observes them *)

Module Sheet.

(** A cell value as read with [data_only=True]. [VOther] stands for the
    remaining scalar types (floats, dates), given by their [str] rendering
    and by whether they compare equal to [0]. *)
Inductive value : Type :=
| VNone
| VStr (s : string)
| VInt (n : Z)
| VBool (b : bool)
| VOther (shown : string) (is_zero : bool).

(** [str(v)] *)
Definition py_str (v : value) : string :=
  match v with
  | VNone => "None"
  | VStr s => s
  | VInt n => str_of_Z n
  | VBool true => "True"
  | VBool false => "False"
  | VOther shown _ => shown
  end.

(** [v is not None and str(v).strip()] *)
Definition has_data (v : value) : bool :=
  match v with
  | VNone => false
  | _ => truthy (strip (py_str v))
  end.

(** [isinstance(v, str) and v.strip()] *)
Definition is_text (v : value) : bool :=
  match v with
  | VStr s => truthy (strip s)
  | _ => false
  end.

(** [v not in (None, "", 0)]; membership compares with [==], under which
    [False] and a zero float equal [0]. *)
Definition non_empty (v : value) : bool :=
  match v with
  | VNone => false
  | VStr s => truthy s
  | VInt n => negb (n =? 0)
  | VBool b => b
  | VOther _ is_zero => negb is_zero
  end.

(** What reading one row with [next(ws.iter_rows(...))] can do. *)
Inductive row_read : Type :=
| RowValues (values : list value)
| RowStop                       (* StopIteration *)
| RowError.                     (* any other exception *)

Record worksheet : Type := mk_worksheet
  { title : string;
    (** [sheet.cell(row, col).value] *)
    cell : Z -> Z -> result value;
    (** [next(ws.iter_rows(min_row=r, max_row=r, min_col=c1, max_col=c2,
        values_only=True))] as [iter_row r c1 c2] *)
    iter_row : Z -> Z -> Z -> row_read;
    (** [sheet.auto_filter.ref] when a filter with a non-empty range is set *)
    auto_filter_ref : option string;
    (** [ws.calculate_dimension()] *)
    calculate_dimension : result string }.

(** [range(a, b)] *)
Definition py_range (a b : Z) : list Z :=
  map (fun i => a + Z.of_nat i) (seq 0 (Z.to_nat (b - a))).

Definition len {A} (l : list A) : Z := Z.of_nat (length l).

End Sheet.

Import Sheet.

(** ** Table records shared by detection, matching and tracking *)

Inductive table_type : Type := autofilter_range | heuristic.

(** The dictionaries built by [find_tables]. The keys [start_col] and
    [end_col] only exist for filter ranges; the display-only keys [name] and
    [ref] are left out. *)
Record table : Type := mk_table
  { sheet : string;
    type : table_type;
    start_row : Z;
    end_row : Z;
    start_col : option Z;
    end_col : option Z;
    confidence : Q;
    file_path : string;
    headers : list string }.

(** ** TableDimensionCalculator ([file_updater.py]) *)

Module Dimension.

(** The inner [for col_num] loop: does the row hold data in the table's
    columns? A failing cell access is skipped. *)
Fixpoint row_has_data (ws : worksheet) (row_num : Z) (cols : list Z) : bool :=
  match cols with
  | [] => false
  | col_num :: rest =>
      match cell ws row_num col_num with
      | Returned cell_value =>
          if has_data cell_value then true else row_has_data ws row_num rest
      | Raised _ => row_has_data ws row_num rest
      end
  end.

(** The [for row_num] loop with its [break]. *)
Fixpoint scan_rows (ws : worksheet) (cols : list Z) (empty_streak_limit : Z)
         (rows : list Z) (actual_max_row empty_streak : Z) : Z :=
  match rows with
  | [] => actual_max_row
  | row_num :: rest =>
      if row_has_data ws row_num cols then
        scan_rows ws cols empty_streak_limit rest row_num 0
      else
        let empty_streak := empty_streak + 1 in
        if empty_streak_limit <=? empty_streak then actual_max_row
        else scan_rows ws cols empty_streak_limit rest actual_max_row empty_streak
  end.

Definition max_scan_rows : Z := 1000.

Definition calculate_table_dimension (ws : worksheet) (table_info : table)
           (empty_streak_limit : Z) : Z * Z :=
  let empty_streak_limit :=
    if (1 <=? empty_streak_limit) && (empty_streak_limit <=? 10)
    then empty_streak_limit else 2 in
  let header_row := start_row table_info in
  let headers := headers table_info in
  let data_start_row := header_row + 1 in
  let min_col := 1 in
  let max_col := len headers in
  let actual_max_row :=
    scan_rows ws (py_range min_col (max_col + 1)) empty_streak_limit
              (py_range data_start_row (data_start_row + max_scan_rows))
              header_row 0 in
  (actual_max_row, max_col).

(** A row is non-blank in columns [1..n] when some cell there reads as
    data, and blank when none does. *)
Definition row_nonblank (ws : worksheet) (row_num n : Z) : Prop :=
  exists col_num v, 1 <= col_num <= n /\
    cell ws row_num col_num = Returned v /\ has_data v = true.

Definition row_blank (ws : worksheet) (row_num n : Z) : Prop :=
  forall col_num v, 1 <= col_num <= n ->
    cell ws row_num col_num = Returned v -> has_data v = false.

End Dimension.

(** ** HeaderExtractor and TableDetector ([table_finder.py]) *)

Module Detection.

(** A header-row cell as [extract_headers_from_range] collects it:
    [None] when the cell access failed, otherwise the cell's value. *)
Definition header_cell : Type := option value.

(** [c is None or c.value is None or not str(c.value).strip()] *)
Definition cell_is_blank (c : header_cell) : bool :=
  match c with
  | None => true
  | Some v => negb (has_data v)
  end.

(** [c and c.value is not None and str(c.value).strip()] *)
Definition cell_is_valid (c : header_cell) : bool :=
  match c with
  | None => false
  | Some v => has_data v
  end.

Definition _is_likely_merged_cell (header_cells : list header_cell)
           (current_index : nat) : bool :=
  match nth_error header_cells (current_index + 1) with
  | Some next_cell => cell_is_blank next_cell
  | None => false
  end.

(** One turn of the [for back_step] loop: does it return [True]? *)
Definition back_step_decides (header_cells : list header_cell)
           (current_index back_step : nat) : bool :=
  match nth_error header_cells (current_index - back_step) with
  | Some back_cell =>
      cell_is_valid back_cell &&
      forallb (fun check_idx =>
                 match nth_error header_cells check_idx with
                 | Some check_cell => negb (cell_is_valid check_cell)
                 | None => true
                 end)
              (seq (current_index - back_step + 1) (back_step - 1))
  | None => false
  end.

Definition _is_likely_merged_continuation (header_cells : list header_cell)
           (current_index : nat) : bool :=
  (if (0 <? current_index)%nat then
     match nth_error header_cells (current_index - 1) with
     | Some prev_cell => cell_is_valid prev_cell
     | None => false
     end
   else false)
  || existsb (back_step_decides header_cells current_index)
             (seq 2 (Nat.min 4 (current_index + 1) - 2)).

(** [cell is not None and cell.value is not None], with the value. *)
Definition present_value (c : header_cell) : option value :=
  match c with
  | Some VNone => None
  | Some v => Some v
  | None => None
  end.

(** [last_valid_header if last_valid_header and merged else ""] *)
Definition reuse_header (last_valid_header : option string) (merged : bool) : string :=
  match last_valid_header with
  | Some h => if truthy h && merged then h else ""
  | None => ""
  end.

(** The [for i, cell in enumerate(header_cells)] loop. *)
Fixpoint collect_headers (header_cells : list header_cell) (i : nat)
         (todo : list header_cell) (last_valid_header : option string)
  : list string :=
  match todo with
  | [] => []
  | c :: rest =>
      match present_value c with
      | Some v =>
          let header_value := strip (py_str v) in
          if truthy header_value then
            header_value
              :: collect_headers header_cells (S i) rest (Some header_value)
          else
            reuse_header last_valid_header (_is_likely_merged_cell header_cells i)
              :: collect_headers header_cells (S i) rest last_valid_header
      | None =>
          reuse_header last_valid_header (_is_likely_merged_continuation header_cells i)
            :: collect_headers header_cells (S i) rest last_valid_header
      end
  end.

(** [[str(v).strip() for v in row if v is not None and str(v).strip()]] *)
Definition stripped_values (row : list value) : list string :=
  map (fun v => strip (py_str v)) (filter has_data row).

Section WithRangeBoundaries.

(** [openpyxl.utils.range_boundaries]: a range string to
    [(min_col, min_row, max_col, max_row)], or an exception. *)
Variable range_boundaries : string -> result (Z * Z * Z * Z).

Definition extract_headers_from_range (ws : worksheet) (range_ref : string)
  : list string :=
  match range_boundaries range_ref with
  | Raised _ => []
  | Returned (min_col, min_row, max_col, max_row) =>
      let header_cells :=
        map (fun col => match cell ws min_row col with
                        | Returned v => Some v
                        | Raised _ => None
                        end)
            (py_range min_col (max_col + 1)) in
      let headers := collect_headers header_cells 0 header_cells None in
      let valid_headers := filter (fun h => truthy (strip h)) headers in
      match valid_headers with
      | _ :: _ => valid_headers
      | [] =>
          (* "No valid headers found": the positional fallback *)
          match iter_row ws min_row min_col max_col with
          | RowValues header_row => stripped_values header_row
          | _ => []
          end
      end
  end.

(** A heuristic candidate before [find_tables] adds the sheet name and
    the file path. *)
Record candidate : Type := mk_candidate
  { c_start_row : Z;
    c_end_row : Z;
    c_confidence : Q;
    c_headers : list string }.

Definition count_if {A} (p : A -> bool) (l : list A) : Z :=
  len (filter p l).

(** [text_count / total_cells if total_cells > 0 else 0] *)
Definition text_ratio_of (text_count total_cells : Z) : Q :=
  if 0 <? total_cells then inject_Z text_count / inject_Z total_cells else 0.

Definition Qltb (x y : Q) : bool := negb (Qle_bool y x).

(** The inner [for r] loop counting the data rows under a header. *)
Fixpoint count_data_rows (ws : worksheet) (min_col scan_max_cols total_cells : Z)
         (rows : list Z) (continuous_data_count : Z) : Z :=
  match rows with
  | [] => continuous_data_count
  | r :: rest =>
      match iter_row ws r min_col scan_max_cols with
      | RowValues data_row =>
          let non_empty := count_if Sheet.non_empty data_row in
          if Qle_bool 0.3 (inject_Z non_empty / inject_Z total_cells) then
            count_data_rows ws min_col scan_max_cols total_cells rest
                            (continuous_data_count + 1)
          else continuous_data_count
      | RowStop => continuous_data_count
      | RowError =>
          count_data_rows ws min_col scan_max_cols total_cells rest
                          continuous_data_count
      end
  end.

(** [min(0.95, text_ratio + (continuous_data_count * 0.1))]. The ratio is a
    quotient of two cell counts of one row and the count is at most 15, so
    the float comparisons of the source (with 0.9, 0.3 and 0.95) agree with
    the exact ones made here. *)
Definition heuristic_confidence (text_ratio : Q) (continuous_data_count : Z) : Q :=
  Qmin 0.95 (text_ratio + inject_Z continuous_data_count * 0.1).

(** One turn of the [for start_row] loop on a row that was read: the
    candidate it appends, if any. *)
Definition header_candidate (ws : worksheet) (min_col scan_max_rows scan_max_cols : Z)
           (start_row : Z) (row_data : list value) : list candidate :=
  let total_cells := len row_data in
  let text_count := count_if is_text row_data in
  if text_count <? 3 then []
  else
    let text_ratio := text_ratio_of text_count total_cells in
    if Qltb text_ratio 0.9 then []
    else
      let continuous_data_count :=
        count_data_rows ws min_col scan_max_cols total_cells
          (py_range (start_row + 1) (Z.min (start_row + 16) (scan_max_rows + 1))) 0 in
      if 2 <=? continuous_data_count then
        [ {| c_start_row := start_row;
             c_end_row := start_row + continuous_data_count;
             c_confidence := heuristic_confidence text_ratio continuous_data_count;
             c_headers := stripped_values row_data |} ]
      else [].

(** The [for start_row] loop. *)
Fixpoint scan_header_rows (ws : worksheet) (min_col scan_max_rows scan_max_cols : Z)
         (rows : list Z) : list candidate :=
  match rows with
  | [] => []
  | start_row :: rest =>
      match iter_row ws start_row min_col scan_max_cols with
      | RowValues row_data =>
          (header_candidate ws min_col scan_max_rows scan_max_cols start_row row_data
             ++ scan_header_rows ws min_col scan_max_rows scan_max_cols rest)%list
      | RowStop => []
      | RowError => scan_header_rows ws min_col scan_max_rows scan_max_cols rest
      end
  end.

Definition scan_window (ws : worksheet) (min_row scan_max_rows min_col scan_max_cols : Z)
  : list candidate :=
  scan_header_rows ws min_col scan_max_rows scan_max_cols
                   (py_range min_row (scan_max_rows + 1)).

Definition find_tabular_ranges_by_heuristics_optimized (ws : worksheet)
  : list candidate :=
  match calculate_dimension ws with
  | Raised _ => scan_window ws 1 1001 1 51
  | Returned dimension =>
      if negb (truthy dimension) then []
      else
        match range_boundaries dimension with
        | Raised _ => scan_window ws 1 1001 1 51
        | Returned (min_col, min_row, max_col, max_row) =>
            let scan_max_rows := Z.min max_row (min_row + 1000) in
            let scan_max_cols := Z.min max_col (min_col + 50) in
            scan_window ws min_row scan_max_rows min_col scan_max_cols
        end
  end.

(** What a path can hold. *)
Inductive file : Type :=
| NoFile                              (* [os.path.exists] is false *)
| Unreadable                          (* [load_workbook] raises *)
| Book (worksheets : list worksheet).

Definition filesystem : Type := string -> file.

(** Step 1 of [find_tables] on one sheet; a range that does not parse
    is reported and skipped. *)
Definition autofilter_table (file_path : string) (ws : worksheet) : list table :=
  match auto_filter_ref ws with
  | None => []
  | Some ref =>
      match RangeAddressing.parse_excel_range ref with
      | Raised _ => []
      | Returned range_info =>
          [ {| sheet := title ws;
               type := autofilter_range;
               start_row := RangeAddressing.start_row range_info;
               end_row := RangeAddressing.end_row range_info;
               start_col := Some (RangeAddressing.start_col range_info);
               end_col := Some (RangeAddressing.end_col range_info);
               confidence := 0.8;
               file_path := file_path;
               headers := extract_headers_from_range ws ref |} ]
      end
  end.

(** Step 2 of [find_tables] on one sheet. *)
Definition heuristic_tables (file_path : string) (ws : worksheet) : list table :=
  map (fun c => {| sheet := title ws;
                   type := heuristic;
                   start_row := c_start_row c;
                   end_row := c_end_row c;
                   start_col := None;
                   end_col := None;
                   confidence := c_confidence c;
                   file_path := file_path;
                   headers := c_headers c |})
      (find_tabular_ranges_by_heuristics_optimized ws).

(** [tables.sort(key=confidence, reverse=True)]: a stable sort. *)
Fixpoint insert_by_confidence (t : table) (sorted : list table) : list table :=
  match sorted with
  | [] => [t]
  | u :: rest =>
      if Qle_bool (confidence u) (confidence t) then t :: u :: rest
      else u :: insert_by_confidence t rest
  end.

Definition sort_by_confidence (tables : list table) : list table :=
  fold_right insert_by_confidence [] tables.

Definition find_tables (fs : filesystem) (file_path : string) : list table :=
  match fs file_path with
  | NoFile => []
  | Unreadable => []
  | Book worksheets =>
      let tables := flat_map (autofilter_table file_path) worksheets in
      let tables := (tables ++ flat_map (heuristic_tables file_path) worksheets)%list in
      sort_by_confidence tables
  end.

End WithRangeBoundaries.

End Detection.

(** ** HeaderMatcher ([header_matcher.py]) *)

(** The match dictionaries. [match_headers] fills the first five keys; the
    status tracker also looks, with [.get], for explicit provenance
    coordinates, which are [None] when the key is absent. *)
Record header_match : Type := mk_header_match
  { from_table : option table;
    to_table : table;
    from_header : string;
    to_header : string;
    match_confidence : Q;
    from_sheet : option string;
    from_row : option Z;
    from_col : option Z }.

Module Matching.

Import Detection.

(** [header in headers] *)
Definition header_in (header : string) (headers : list string) : bool :=
  existsb (String.eqb header) headers.

Definition exact_match (prev_table curr_table : table) (curr_header : string)
  : header_match :=
  let prev_header := curr_header in
  {| from_table := Some curr_table;
     to_table := prev_table;
     from_header := curr_header;
     to_header := prev_header;
     match_confidence := 1.0;
     from_sheet := None;
     from_row := None;
     from_col := None |}.

(** The [for curr_header] loop for one pair of tables. *)
Definition match_pair (prev_table curr_table : table) : list header_match :=
  flat_map (fun curr_header =>
              if header_in curr_header (headers prev_table)
              then [exact_match prev_table curr_table curr_header]
              else [])
           (headers curr_table).

(** The two outer loops over the tables. *)
Definition match_tables (previous_tables current_tables : list table)
  : list header_match :=
  flat_map (fun prev_table =>
              flat_map (fun curr_table => match_pair prev_table curr_table)
                       current_tables)
           previous_tables.

Definition match_headers (range_boundaries : string -> result (Z * Z * Z * Z))
           (fs : filesystem) (previous_tables : list table)
           (current_file_path : string) : list header_match :=
  let current_tables := find_tables range_boundaries fs current_file_path in
  match_tables previous_tables current_tables.

(** How often [x] occurs in [l]. *)
Definition occurrences (x : string) (l : list string) : nat :=
  count_occ string_dec l x.

Definition Q_eq_dec (a b : Q) : {a = b} + {a <> b}.
Proof. decide equality; [apply Pos.eq_dec | apply Z.eq_dec]. Defined.

Definition table_eq_dec (a b : table) : {a = b} + {a <> b}.
Proof.
  decide equality;
    try apply string_dec; try apply Z.eq_dec; try apply Q_eq_dec;
    try (apply list_eq_dec; apply string_dec);
    decide equality; apply Z.eq_dec.
Defined.

(** Is [m] a match from source table [s] to destination table [d] for the
    header [h]? *)
Definition is_match_for (d s : table) (h : string) (m : header_match) : bool :=
  (if table_eq_dec (to_table m) d then true else false)
  && match from_table m with
     | Some t => if table_eq_dec t s then true else false
     | None => false
     end
  && String.eqb (from_header m) h.

(** How many matches of a list are from [s] to [d] for the header [h]. *)
Definition matches_for (d s : table) (h : string) (matches : list header_match) : nat :=
  length (filter (is_match_for d s h) matches).

End Matching.

(** ** RollforwardStatusTracker ([file_updater.py]) *)

Module Tracker.

Import Detection.

Inductive status : Type := pending | completed | failed.

Record cell_info : Type := mk_cell_info
  { row : Z;
    col : Z;
    value : Sheet.value;
    cell_status : status }.

(** [red_cells_info]: sheet name to tracked cells, in insertion order. *)
Definition red_cells : Type := list (string * list cell_info).

Definition Z_eq_opt (o : option Z) (n : Z) : bool :=
  match o with Some m => m =? n | None => false end.

Definition string_eq_opt (o : option string) (s : string) : bool :=
  match o with Some t => String.eqb t s | None => false end.

(** First loop: explicit provenance coordinates. *)
Definition provenance_hit (c : cell_info) (sheet_name : string) (m : header_match)
  : bool :=
  string_eq_opt (from_sheet m) sheet_name
  && Z_eq_opt (from_row m) (row c)
  && Z_eq_opt (from_col m) (col c).

(** Second loop: the column lies within the headers of a matched table
    of the sheet. *)
Definition column_covered (c : cell_info) (sheet_name : string) (m : header_match)
  : bool :=
  match from_table m with
  | Some t => String.eqb (sheet t) sheet_name && (col c <=? len (headers t))
  | None => false
  end.

Definition _check_if_cell_was_updated (c : cell_info)
           (successful_matches : list header_match) (sheet_name : string) : bool :=
  if existsb (provenance_hit c sheet_name) successful_matches then true
  else if existsb (column_covered c sheet_name) successful_matches then true
  else false.

(** [openpyxl.utils.get_column_letter] *)
Definition letter (n : Z) : string :=
  String (ascii_of_N (Z.to_N (64 + n))) EmptyString.

Definition get_column_letter (idx : Z) : result string :=
  if (1 <=? idx) && (idx <=? 26) then Returned (letter idx)
  else if (27 <=? idx) && (idx <=? 702) then
    let hi := (idx - 1) / 26 in
    Returned (letter hi ++ letter (idx - 26 * hi))
  else if (703 <=? idx) && (idx <=? 18278) then
    let hi := (idx - 27) / 676 in
    let rest := idx - 676 * hi in
    let mid := (rest - 1) / 26 in
    Returned (letter hi ++ letter mid ++ letter (rest - 26 * mid))
  else Raised (ValueError ("Invalid column index " ++ str_of_Z idx)).

(** [cell.coordinate] of the cell at [(row, col)] *)
Definition coordinate (row col : Z) : result string :=
  column <- get_column_letter col ;;
  Returned (column ++ str_of_Z row).

Definition find_sheet (worksheets : list worksheet) (sheet_name : string)
  : option worksheet :=
  find (fun ws => String.eqb (title ws) sheet_name) worksheets.

(** An entry of the manual-adjustment list. *)
Record adjustment : Type := mk_adjustment
  { adj_sheet : string;
    adj_row : Z;
    adj_col : Z;
    cell_address : string;
    adj_value : Sheet.value }.

(** The running state of [update_rollforward_status]:
    counters, the manual-adjustment list and the cells filled green. *)
Record tally : Type := mk_tally
  { green_cells : Z;
    red_cells_left : Z;
    manual_adjustment_needed : list adjustment;
    filled_green : list (string * Z * Z) }.

Definition empty_tally : tally := mk_tally 0 0 [] [].

Definition set_status (c : cell_info) (s : status) : cell_info :=
  {| row := row c; col := col c; value := value c; cell_status := s |}.

(** One turn of the [for cell_info in cells_list] loop. *)
Definition update_cell (ws : worksheet) (sheet_name : string)
           (successful_matches : list header_match)
           (acc : tally) (c : cell_info) : tally * cell_info :=
  match cell ws (row c) (col c) with
  | Raised _ => (acc, c)
  | Returned cell_value =>
      if _check_if_cell_was_updated c successful_matches sheet_name then
        (mk_tally (green_cells acc + 1) (red_cells_left acc)
                  (manual_adjustment_needed acc)
                  (filled_green acc ++ [(sheet_name, row c, col c)])%list,
         set_status c completed)
      else
        let acc := mk_tally (green_cells acc) (red_cells_left acc + 1)
                            (manual_adjustment_needed acc) (filled_green acc) in
        match coordinate (row c) (col c) with
        | Raised _ => (acc, set_status c failed)
        | Returned coord =>
            (mk_tally (green_cells acc) (red_cells_left acc)
                      (manual_adjustment_needed acc ++
                         [ {| adj_sheet := sheet_name;
                              adj_row := row c;
                              adj_col := col c;
                              cell_address := sheet_name ++ "!" ++ coord;
                              adj_value := cell_value |} ])%list
                      (filled_green acc),
             set_status c failed)
        end
  end.

(** The tracked cell as one turn of the loop leaves it. *)
Definition settled_cell (ws : worksheet) (sheet_name : string)
           (successful_matches : list header_match) (c : cell_info) : cell_info :=
  snd (update_cell ws sheet_name successful_matches empty_tally c).

Fixpoint update_cells (ws : worksheet) (sheet_name : string)
         (successful_matches : list header_match)
         (acc : tally) (cells_list : list cell_info) : tally * list cell_info :=
  match cells_list with
  | [] => (acc, [])
  | c :: rest =>
      let (acc, c) := update_cell ws sheet_name successful_matches acc c in
      let (acc, rest) := update_cells ws sheet_name successful_matches acc rest in
      (acc, c :: rest)
  end.

(** The [for sheet_name, cells_list in red_cells_info.items()] loop. *)
Fixpoint update_sheets (worksheets : list worksheet)
         (successful_matches : list header_match)
         (acc : tally) (red_cells_info : red_cells) : tally * red_cells :=
  match red_cells_info with
  | [] => (acc, [])
  | (sheet_name, cells_list) :: rest =>
      match find_sheet worksheets sheet_name with
      | None =>
          let (acc, rest) := update_sheets worksheets successful_matches acc rest in
          (acc, (sheet_name, cells_list) :: rest)
      | Some ws =>
          let (acc, cells_list) :=
            update_cells ws sheet_name successful_matches acc cells_list in
          let (acc, rest) := update_sheets worksheets successful_matches acc rest in
          (acc, (sheet_name, cells_list) :: rest)
      end
  end.

(** The tracked cells of one sheet as the loop over the sheets leaves them. *)
Definition settled_sheet (worksheets : list worksheet)
           (successful_matches : list header_match)
           (entry : string * list cell_info) : string * list cell_info :=
  match find_sheet worksheets (fst entry) with
  | None => entry
  | Some ws =>
      (fst entry, map (settled_cell ws (fst entry) successful_matches) (snd entry))
  end.

(** [update_rollforward_status]: the report and the tracked cells as the
    call leaves them. Saving the workbook changes fills only, which no
    later read of the code depends on. *)
Definition update_rollforward_status (fs : filesystem) (file_path : string)
           (red_cells_info : red_cells) (successful_matches : list header_match)
  : tally * red_cells :=
  match red_cells_info with
  | [] => (empty_tally, red_cells_info)
  | _ =>
      match fs file_path with
      | Book worksheets =>
          update_sheets worksheets successful_matches empty_tally red_cells_info
      | _ => (empty_tally, red_cells_info)
      end
  end.

Definition status_is_failed (c : cell_info) : bool :=
  match cell_status c with failed => true | _ => false end.

(** The cell loop of [generate_manual_adjustment_report]. The whole
    extraction sits in one [try]: an exception ends it, keeping what was
    collected so far; [false] in the result reports that. *)
Fixpoint collect_cells (ws : worksheet) (sheet_name : string)
         (successful_matches : list header_match)
         (acc : list adjustment) (cells_list : list cell_info)
  : list adjustment * bool :=
  match cells_list with
  | [] => (acc, true)
  | c :: rest =>
      if status_is_failed c
         || negb (_check_if_cell_was_updated c successful_matches sheet_name)
      then
        match cell ws (row c) (col c), coordinate (row c) (col c) with
        | Returned _, Returned coord =>
            collect_cells ws sheet_name successful_matches
              (acc ++ [ {| adj_sheet := sheet_name;
                           adj_row := row c;
                           adj_col := col c;
                           cell_address := sheet_name ++ "!" ++ coord;
                           adj_value := value c |} ])%list
              rest
        | _, _ => (acc, false)
        end
      else collect_cells ws sheet_name successful_matches acc rest
  end.

Fixpoint collect_sheets (worksheets : list worksheet)
         (successful_matches : list header_match)
         (acc : list adjustment) (red_cells_info : red_cells) : list adjustment :=
  match red_cells_info with
  | [] => acc
  | (sheet_name, cells_list) :: rest =>
      match find_sheet worksheets sheet_name with
      | None => collect_sheets worksheets successful_matches acc rest
      | Some ws =>
          match collect_cells ws sheet_name successful_matches acc cells_list with
          | (acc, true) => collect_sheets worksheets successful_matches acc rest
          | (acc, false) => acc
          end
      end
  end.

(** Grouping by sheet, in the order in which sheets first appear. *)
Fixpoint group_insert (a : adjustment) (by_sheet : list (string * list adjustment))
  : list (string * list adjustment) :=
  match by_sheet with
  | [] => [(adj_sheet a, [a])]
  | (s, cells) :: rest =>
      if String.eqb s (adj_sheet a) then (s, cells ++ [a])%list :: rest
      else (s, cells) :: group_insert a rest
  end.

Definition group_by_sheet (cells : list adjustment) : list (string * list adjustment) :=
  fold_left (fun by_sheet a => group_insert a by_sheet) cells [].

Definition newline : string := String (ascii_of_nat 10) EmptyString.

Definition all_succeeded_message : string :=
  "🎉 모든 백데이터가 성공적으로 롤포워딩되었습니다!".

Definition cell_line (a : adjustment) : string :=
  "   • " ++ cell_address a ++ ": " ++ py_str (adj_value a).

Definition sheet_lines (group : string * list adjustment) : list string :=
  (newline ++ "🔶 워크시트: " ++ fst group) :: map cell_line (snd group).

Definition heading_lines (manual_adjustment_cells : list adjustment) : list string :=
  [ "⚠️ 수기조정이 필요한 항목이 있습니다.";
    "📊 총 " ++ str_of_Z (len manual_adjustment_cells)
      ++ "개의 셀이 자동 롤포워딩되지 않았습니다.";
    "";
    "📍 수기조정 필요 위치:" ].

(** The fixed remediation checklist. *)
Definition checklist_lines : list string :=
  [ "";
    "💡 해결 방법:";
    "1. Excel 파일을 열어서 빨간색으로 표시된 셀들을 확인하세요";
    "2. 당기 PBC 파일에서 해당하는 값을 찾아 수동으로 복사하세요";
    "3. 또는 헤더 이름을 정확히 일치시켜 다시 롤포워딩을 시도하세요" ].

Definition report_lines (manual_adjustment_cells : list adjustment) : list string :=
  (heading_lines manual_adjustment_cells
   ++ flat_map sheet_lines (group_by_sheet manual_adjustment_cells)
   ++ checklist_lines)%list.

(** The cells the report is about. *)
Definition manual_adjustment_cells (fs : filesystem) (previous_file : option string)
           (red_cells_info : red_cells) (successful_matches : list header_match)
  : list adjustment :=
  match red_cells_info, successful_matches with
  | _ :: _, _ :: _ =>
      match previous_file with
      | Some path =>
          if truthy path then
            match fs path with
            | Book worksheets =>
                collect_sheets worksheets successful_matches [] red_cells_info
            | _ => []
            end
          else []
      | None => []
      end
  | _, _ => []
  end.

Definition generate_manual_adjustment_report (fs : filesystem)
           (previous_file : option string)
           (red_cells_info : red_cells) (successful_matches : list header_match)
  : string :=
  match manual_adjustment_cells fs previous_file red_cells_info successful_matches with
  | [] => all_succeeded_message
  | cells => String.concat newline (report_lines cells)
  end.

(** The addresses a report is built from. *)
Definition reported_addresses (fs : filesystem) (previous_file : option string)
           (red_cells_info : red_cells) (successful_matches : list header_match)
  : list string :=
  map cell_address
      (manual_adjustment_cells fs previous_file red_cells_info successful_matches).

End Tracker.

(** ** Concrete workbooks used to exercise the definitions *)

Module Examples.

Import Detection Matching Tracker.

(** A worksheet given by its rows of values, the way a freshly loaded
    workbook reads: coordinates below 1 are refused, cells outside the
    grid are empty. *)
Definition grid_cell (grid : list (list Sheet.value)) (r c : Z) : result Sheet.value :=
  if (r <? 1) || (c <? 1) then
    Raised (ValueError "Row or column values must be at least 1")
  else
    Returned (nth (Z.to_nat (c - 1)) (nth (Z.to_nat (r - 1)) grid []) VNone).

Definition grid_value (grid : list (list Sheet.value)) (r c : Z) : Sheet.value :=
  match grid_cell grid r c with
  | Returned v => v
  | Raised _ => VNone
  end.

Definition sheet_of_grid (name : string) (grid : list (list Sheet.value))
           (filter_ref : option string) (dimension : string) : worksheet :=
  {| title := name;
     cell := grid_cell grid;
     iter_row := fun r c1 c2 =>
                   RowValues (map (grid_value grid r) (py_range c1 (c2 + 1)));
     auto_filter_ref := filter_ref;
     calculate_dimension := Returned dimension |}.

(** [range_boundaries] on plain ["A1:C10"] ranges. *)
Definition plain_range_boundaries (range_ref : string) : result (Z * Z * Z * Z) :=
  info <- RangeAddressing.parse_excel_range range_ref ;;
  Returned (RangeAddressing.start_col info, RangeAddressing.start_row info,
            RangeAddressing.end_col info, RangeAddressing.end_row info).

Definition text_row (cells : list string) : list Sheet.value := map VStr cells.
Definition number_row (cells : list Z) : list Sheet.value := map VInt cells.

(** A header row at row 1 with two data rows below. *)
Definition small_grid : list (list Sheet.value) :=
  [ text_row ["ID"; "Name"; "Amount"];
    [VInt 1; VStr "a"; VInt 10];
    [VInt 2; VStr "b"; VInt 20] ].

Definition small_sheet : worksheet :=
  sheet_of_grid "Sheet1" small_grid None "A1:C3".

Definition small_table : table :=
  {| sheet := "Sheet1"; type := heuristic; start_row := 1; end_row := 3;
     start_col := None; end_col := None; confidence := 0.95;
     file_path := "prev.xlsx"; headers := ["ID"; "Name"; "Amount"] |}.

(** A sheet whose rows 2 to 1002 all hold data in the first column. *)
Definition long_sheet : worksheet :=
  {| title := "Long";
     cell := fun r c => Returned (if (2 <=? r) && (r <=? 1002) && (c =? 1)
                                  then VInt 7 else VNone);
     iter_row := fun _ _ _ => RowStop;
     auto_filter_ref := None;
     calculate_dimension := Returned "A1:C1002" |}.

(** The same small table, with a filter declared on it. *)
Definition filtered_sheet : worksheet :=
  sheet_of_grid "Sheet1" small_grid (Some "A1:C3") "A1:C3".

Definition filtered_fs : filesystem :=
  fun path => if String.eqb path "curr.xlsx" then Book [filtered_sheet] else NoFile.

(** Column names repeated in the header row. *)
Definition repeated_grid : list (list Sheet.value) :=
  [ text_row ["Q1"; "Q1"; "Q2"];
    number_row [1; 2; 3];
    number_row [4; 5; 6] ].

Definition repeated_sheet : worksheet :=
  sheet_of_grid "Data" repeated_grid None "A1:C3".

Definition repeated_fs : filesystem :=
  fun path => if String.eqb path "curr.xlsx" then Book [repeated_sheet] else NoFile.

Definition quarter_table : table :=
  {| sheet := "Back"; type := heuristic; start_row := 1; end_row := 3;
     start_col := None; end_col := None; confidence := 0.95;
     file_path := "prev.xlsx"; headers := ["Q1"; "Q2"] |}.

(** One source and one destination table sharing "Revenue". *)
Definition revenue_grid : list (list Sheet.value) :=
  [ text_row ["Account"; "Revenue"; "Cost"];
    [VStr "x"; VInt 1; VInt 2];
    [VStr "y"; VInt 3; VInt 4] ].

Definition revenue_fs : filesystem :=
  fun path =>
    if String.eqb path "curr.xlsx"
    then Book [sheet_of_grid "PBC" revenue_grid None "A1:C3"]
    else NoFile.

Definition revenue_table : table :=
  {| sheet := "Back"; type := heuristic; start_row := 1; end_row := 3;
     start_col := None; end_col := None; confidence := 0.95;
     file_path := "prev.xlsx"; headers := ["Name"; "Revenue"] |}.

(** Tracked cells of one sheet and the workbook they live in. *)
Definition sheet1_grid : list (list Sheet.value) :=
  [ text_row ["H1"; "H2"];
    [VInt 1; VInt 2]; [VInt 1; VInt 2]; [VInt 1; VInt 2];
    [VInt 11; VInt 22] ].

Definition prev_fs : filesystem :=
  fun path =>
    if String.eqb path "prev.xlsx"
    then Book [sheet_of_grid "Sheet1" sheet1_grid None "A1:B5"]
    else NoFile.

Definition cell_A5 (s : status) : cell_info :=
  {| row := 5; col := 1; value := VInt 11; cell_status := s |}.

Definition cell_B5 (s : status) : cell_info :=
  {| row := 5; col := 2; value := VInt 22; cell_status := s |}.

(** A successful match whose source table has one header on "Sheet1". *)
Definition one_column_table : table :=
  {| sheet := "Sheet1"; type := heuristic; start_row := 1; end_row := 3;
     start_col := None; end_col := None; confidence := 0.95;
     file_path := "curr.xlsx"; headers := ["H1"] |}.

Definition one_column_match : header_match :=
  exact_match one_column_table one_column_table "H1".

End Examples.

(** ** Similarity matching ([header_matcher.py]) *)

Module Similarity.

Import Detection.

(** [c.lower()] for a character: the capitals A to Z and the accented
    capitals (codes 192 to 222, the multiplication sign apart) move up by
    32. *)
Definition lower_char (c : ascii) : ascii :=
  if is_upper c
     || ((192 <=? ord c) && (ord c <=? 222) && negb (ord c =? 215))
  then ascii_of_N (Z.to_N (ord c + 32))
  else c.

Fixpoint lower (s : string) : string :=
  match s with
  | EmptyString => EmptyString
  | String c rest => String (lower_char c) (lower rest)
  end.

Fixpoint is_prefix (p s : string) : bool :=
  match p, s with
  | EmptyString, _ => true
  | String a p', String b s' => Ascii.eqb a b && is_prefix p' s'
  | String _ _, EmptyString => false
  end.

(** [p in s] *)
Fixpoint is_substring (p s : string) : bool :=
  is_prefix p s
  || match s with
     | EmptyString => false
     | String _ rest => is_substring p rest
     end.

Definition cons_word (w : string) (ws : list string) : list string :=
  if truthy w then w :: ws else ws.

(** The word that starts at the head of [s], cut at the first whitespace,
    and the words after it. *)
Fixpoint split_words (s : string) : string * list string :=
  match s with
  | EmptyString => (EmptyString, [])
  | String c rest =>
      let (w, ws) := split_words rest in
      if is_space c then (EmptyString, cons_word w ws) else (String c w, ws)
  end.

(** [s.split()]: the maximal runs of non-whitespace characters. *)
Definition py_split (s : string) : list string :=
  let (w, ws) := split_words s in cons_word w ws.

(** [set(words)], as a list without repetition. *)
Definition word_set (words : list string) : list string := nodup string_dec words.

Definition word_in (w : string) (ws : list string) : bool :=
  if in_dec string_dec w ws then true else false.

(** [words1.intersection(words2)] *)
Definition intersection (words1 words2 : list string) : list string :=
  filter (fun w => word_in w words2) words1.

Definition simple_similarity_match (header1 header2 : string) : Q :=
  let h1 := strip (lower header1) in
  let h2 := strip (lower header2) in
  if String.eqb h1 h2 then 1.0
  else if is_substring h1 h2 || is_substring h2 h1 then 0.8
  else
    let words1 := word_set (py_split h1) in
    let words2 := word_set (py_split h2) in
    let common_words := intersection words1 words2 in
    match common_words with
    | _ :: _ =>
        inject_Z (len common_words) / inject_Z (Z.max (len words1) (len words2))
    | [] => 0.0
    end.

(** The [for curr_header] loop: the best candidate so far and its score. *)
Fixpoint best_candidate (threshold : Q) (prev_header : string)
         (curr_headers : list string) (best_match : option string) (best_score : Q)
  : option string * Q :=
  match curr_headers with
  | [] => (best_match, best_score)
  | curr_header :: rest =>
      let score := simple_similarity_match prev_header curr_header in
      if Qle_bool threshold score && Qltb best_score score
      then best_candidate threshold prev_header rest (Some curr_header) score
      else best_candidate threshold prev_header rest best_match best_score
  end.

(** One turn of the [for prev_header] loop: the match appended, if any. An
    empty best match is falsy and appends nothing. *)
Definition enhanced_match (threshold : Q) (prev_table curr_table : table)
           (prev_header : string) : list header_match :=
  match best_candidate threshold prev_header (headers curr_table) None 0.0 with
  | (Some best_match, best_score) =>
      if truthy best_match then
        [ {| from_table := Some prev_table;
             to_table := curr_table;
             from_header := prev_header;
             to_header := best_match;
             match_confidence := best_score;
             from_sheet := None;
             from_row := None;
             from_col := None |} ]
      else []
  | (None, _) => []
  end.

Definition enhanced_match_tables (threshold : Q)
           (previous_tables current_tables : list table) : list header_match :=
  flat_map (fun prev_table =>
              flat_map (fun curr_table =>
                          flat_map (enhanced_match threshold prev_table curr_table)
                                   (headers prev_table))
                       current_tables)
           previous_tables.

Definition enhanced_match_headers (range_boundaries : string -> result (Z * Z * Z * Z))
           (fs : filesystem) (previous_tables : list table)
           (current_file_path : string) (threshold : Q) : list header_match :=
  let current_tables := find_tables range_boundaries fs current_file_path in
  enhanced_match_tables threshold previous_tables current_tables.

End Similarity.

(** ** Reading and clearing table data ([file_updater.py]) *)

Module DataAccess.

Import Detection Dimension.

(** [workbook[sheet_name]] after the test [sheet_name in workbook.sheetnames] *)
Definition sheet_named (worksheets : list worksheet) (sheet_name : string)
  : option worksheet :=
  find (fun ws => String.eqb (title ws) sheet_name) worksheets.



(** The [for col] loop of [get_actual_data_from_table]: the row as it is
    stored, blanks and unreadable cells as [""], and the number of those. *)
Fixpoint read_row (ws : worksheet) (row : Z) (cols : list Z) : list value * Z :=
  match cols with
  | [] => ([], 0)
  | col :: rest =>
      let (row_data, empty_count) := read_row ws row rest in
      match cell ws row col with
      | Returned cell_value =>
          if has_data cell_value then (cell_value :: row_data, empty_count)
          else (VStr "" :: row_data, empty_count + 1)
      | Raised _ => (VStr "" :: row_data, empty_count + 1)
      end
  end.

(** [empty_count < len(headers) / 2], a true division. *)
Definition mostly_filled (empty_count header_count : Z) : bool :=
  Qltb (inject_Z empty_count) (inject_Z header_count / 2).

Definition get_actual_data_from_table (fs : filesystem) (table_info : table)
           (source_file : string) (empty_streak_limit : Z) : list (list value) :=
  match fs source_file with
  | Book worksheets =>
      match sheet_named worksheets (sheet table_info) with
      | None => []
      | Some ws =>
          let '(actual_max_row, table_col_count) :=
            calculate_table_dimension ws table_info empty_streak_limit in
          let start_row := start_row table_info + 1 in
          flat_map (fun row =>
                      let (row_data, empty_count) :=
                        read_row ws row (py_range 1 (table_col_count + 1)) in
                      if mostly_filled empty_count (len (headers table_info))
                      then [row_data] else [])
                   (py_range start_row (actual_max_row + 1))
      end
  | _ => []
  end.

(** [values[i] = v] on a row that was read *)
Fixpoint replace_nth (i : nat) (v : value) (values : list value) : list value :=
  match values, i with
  | [], _ => []
  | _ :: rest, O => v :: rest
  | x :: rest, S j => x :: replace_nth j v rest
  end.

(** The sheet after [sheet.cell(row, col).value = v] went through: the cell
    reads as [v], alone and within its row. *)
Definition with_cell (ws : worksheet) (row col : Z) (v : value) : worksheet :=
  {| title := title ws;
     cell := fun r c => if (r =? row) && (c =? col) then Returned v else cell ws r c;
     iter_row := fun r c1 c2 =>
       match iter_row ws r c1 c2 with
       | RowValues values =>
           if (r =? row) && (c1 <=? col) && (col <=? c2)
           then RowValues (replace_nth (Z.to_nat (col - c1)) v values)
           else RowValues values
       | other => other
       end;
     auto_filter_ref := auto_filter_ref ws;
     calculate_dimension := calculate_dimension ws |}.

(** [sheet.cell(row, col).value = v]: refused where the cell cannot be
    reached. *)
Definition write_cell (ws : worksheet) (row col : Z) (v : value) : result worksheet :=
  match cell ws row col with
  | Returned _ => Returned (with_cell ws row col v)
  | Raised e => Raised e
  end.

(** One turn of the inner loop of [clear_table_data_area_dynamic]; a cell
    that cannot be reached is reported and skipped. *)
Definition clear_cell (ws : worksheet) (row_num col_num : Z) : worksheet :=
  match write_cell ws row_num col_num VNone with
  | Returned ws' => ws'
  | Raised _ => ws
  end.

Definition clear_row (ws : worksheet) (row_num : Z) (cols : list Z) : worksheet :=
  fold_left (fun sheet col_num => clear_cell sheet row_num col_num) cols ws.

Definition clear_rows (ws : worksheet) (rows cols : list Z) : worksheet :=
  fold_left (fun sheet row_num => clear_row sheet row_num cols) rows ws.

(** [clear_table_data_area_dynamic]: the success flag and the sheet as the
    call leaves it. *)
Definition clear_table_data_area_dynamic (ws : worksheet) (table_info : table)
           (empty_streak_limit : Z) : bool * worksheet :=
  let '(actual_max_row, table_col_count) :=
    calculate_table_dimension ws table_info empty_streak_limit in
  let header_row := start_row table_info in
  let data_start_row := header_row + 1 in
  let rows_to_clear := actual_max_row - data_start_row + 1 in
  if rows_to_clear <=? 0 then (true, ws)
  else
    (true,
     clear_rows ws (py_range data_start_row (actual_max_row + 1))
                (py_range 1 (table_col_count + 1))).

End DataAccess.

(** ** Marking the cells to roll forward ([file_updater.py]) *)

Module Marking.

Import Detection Tracker.

(** The attributes [empty_count_<sheet>] kept on the function object: one
    counter per sheet name, 0 when the attribute is not set. *)
Definition counters : Type := string -> Z.

Definition no_counters : counters := fun _ => 0.

Definition set_counter (k : counters) (sheet_name : string) (n : Z) : counters :=
  fun name => if String.eqb name sheet_name then n else k name.

(** The [for col] loop of one row: the cells appended, the number of blank
    cells and whether the row held data. *)
Fixpoint mark_row (ws : worksheet) (row : Z) (cols : list Z)
  : list cell_info * Z * bool :=
  match cols with
  | [] => ([], 0, false)
  | col :: rest =>
      let '(cells, empty_count, row_has_data) := mark_row ws row rest in
      match cell ws row col with
      | Returned v =>
          if has_data v
          then (mk_cell_info row col v pending :: cells, empty_count, true)
          else (cells, empty_count + 1, row_has_data)
      | Raised _ => (cells, empty_count, row_has_data)
      end
  end.

(** The [for row] loop of one table, with its [break] after five
    consecutive empty rows counted on the sheet's counter. *)
Fixpoint mark_rows (ws : worksheet) (header_count : Z) (cols : list Z)
         (rows : list Z) (consecutive_empty : Z) : list cell_info * Z :=
  match rows with
  | [] => ([], consecutive_empty)
  | row :: rest =>
      let '(cells, empty_count, row_has_data) := mark_row ws row cols in
      if (header_count <=? empty_count) || negb row_has_data then
        let consecutive_empty := consecutive_empty + 1 in
        if 5 <=? consecutive_empty then (cells, consecutive_empty)
        else
          let (more, final) := mark_rows ws header_count cols rest consecutive_empty in
          ((cells ++ more)%list, final)
      else
        let (more, final) := mark_rows ws header_count cols rest 0 in
        ((cells ++ more)%list, final)
  end.

Definition mark_table (ws : worksheet) (t : table) (consecutive_empty : Z)
  : list cell_info * Z :=
  let start_row := start_row t in
  let headers := headers t in
  let data_start_row := start_row + 1 in
  mark_rows ws (len headers) (py_range 1 (len headers + 1))
            (py_range data_start_row (data_start_row + 1000)) consecutive_empty.

(** The [for table in sheet_tables] loop. *)
Fixpoint mark_tables (ws : worksheet) (sheet_tables : list table)
         (consecutive_empty : Z) : list cell_info * Z :=
  match sheet_tables with
  | [] => ([], consecutive_empty)
  | t :: rest =>
      let (cells, consecutive_empty) := mark_table ws t consecutive_empty in
      let (more, final) := mark_tables ws rest consecutive_empty in
      ((cells ++ more)%list, final)
  end.

(** [red_cells_info[sheet_name] = cells]: an existing key keeps its place. *)
Fixpoint dict_set (d : red_cells) (sheet_name : string) (cells : list cell_info)
  : red_cells :=
  match d with
  | [] => [(sheet_name, cells)]
  | (name, old) :: rest =>
      if String.eqb name sheet_name then (name, cells) :: rest
      else (name, old) :: dict_set rest sheet_name cells
  end.

(** The [for sheet_name in back_data_worksheets] loop. *)
Fixpoint mark_sheets (worksheets : list worksheet) (tables_info : list table)
         (back_data_worksheets : list string) (red_cells_info : red_cells)
         (k : counters) : red_cells * counters :=
  match back_data_worksheets with
  | [] => (red_cells_info, k)
  | sheet_name :: rest =>
      match find_sheet worksheets sheet_name with
      | None => mark_sheets worksheets tables_info rest red_cells_info k
      | Some ws =>
          let sheet_tables :=
            filter (fun t => String.eqb (sheet t) sheet_name) tables_info in
          let (cells, final) := mark_tables ws sheet_tables (k sheet_name) in
          mark_sheets worksheets tables_info rest
                      (dict_set red_cells_info sheet_name cells)
                      (match sheet_tables with
                       | [] => k
                       | _ :: _ => set_counter k sheet_name final
                       end)
      end
  end.

(** [mark_back_data_red]: the tracked cells and the counters left on the
    function object. Saving the workbook at the end changes fills only and
    is taken to go through; when it does not, the call returns the empty
    dictionary instead. *)
Definition mark_back_data_red (fs : filesystem) (k : counters) (file_path : string)
           (back_data_worksheets : list string) (tables_info : list table)
  : red_cells * counters :=
  match back_data_worksheets with
  | [] => ([], k)
  | _ :: _ =>
      match fs file_path with
      | Book worksheets =>
          mark_sheets worksheets tables_info back_data_worksheets [] k
      | _ => ([], k)
      end
  end.


End Marking.

(** ** Vocabulary of the statements *)

Module Vocabulary.

(** Does the first character of [s] satisfy [p]? *)
Definition starts_with (p : ascii -> bool) (s : string) : bool :=
  match s with
  | EmptyString => false
  | String c _ => p c
  end.

(** Strings made of capital letters only: the column part of an address. *)
Definition capitals (s : string) : bool := string_forallb is_upper s.

Definition digits (s : string) : bool := string_forallb is_digit s.

(** Does the column name printed for [idx] read back as [idx]? *)
Definition column_reads_back (idx : Z) : bool :=
  match Tracker.get_column_letter idx with
  | Returned letters =>
      truthy letters && capitals letters
      && (RangeAddressing.column_loop 0 letters =? idx)
  | Raised _ => false
  end.

(** A header that is the stripped text of a cell holding data, among the
    cells collected from a header row. *)
Definition read_from (header_cells : list Detection.header_cell) (h : string) : Prop :=
  exists v, In (Some v) header_cells /\ has_data v = true /\ h = strip (py_str v).

(** The limit [calculate_table_dimension] works with: the given one when
    it lies between 1 and 10, otherwise 2. *)
Definition effective_limit (empty_streak_limit : Z) : Z :=
  if (1 <=? empty_streak_limit) && (empty_streak_limit <=? 10)
  then empty_streak_limit else 2.

(** A cell after clearing: empty where it could be reached. *)
Definition blanked (r : result value) : result value :=
  match r with
  | Returned _ => Returned VNone
  | Raised e => Raised e
  end.

Definition Z_in (x : Z) (l : list Z) : bool := existsb (Z.eqb x) l.











(** One turn of the loop of [column_string_to_number]. *)
Definition column_step (value : Z) (c : ascii) : Z :=
  value * 26 + (ord c - ord "A" + 1).

End Vocabulary.

(** * Properties *)

Example column_V : RangeAddressing.column_string_to_number "V" = Returned 22.
Proof. reflexivity. Qed.

Example parse_V339 : RangeAddressing.parse_cell_reference "V339" = Returned (339, 22).
Proof. reflexivity. Qed.

(** The header row Q1, empty, empty, Q2 reads as Q1, Q1, Q1, Q2. *)
Example merged_header_inference :
  Detection.extract_headers_from_range
    Examples.plain_range_boundaries
    (Examples.sheet_of_grid "M" [[VStr "Q1"; VNone; VNone; VStr "Q2"]] None "A1:D1")
    "A1:D1" = ["Q1"; "Q1"; "Q1"; "Q2"].
Proof. reflexivity. Qed.

Example get_column_letter_V : Tracker.get_column_letter 22 = Returned "V".
Proof. reflexivity. Qed.

(** ** Facts about the Python helpers *)

Lemma In_py_range (a b x : Z) : In x (py_range a b) <-> a <= x < b.
Proof.
  unfold py_range. rewrite in_map_iff. split.
  - intros [i [<- Hi]]. apply in_seq in Hi. lia.
  - intros H. exists (Z.to_nat (x - a)). split; [lia | apply in_seq; lia].
Qed.

Lemma py_range_nil (a b : Z) : b <= a -> py_range a b = [].
Proof.
  intros H. unfold py_range. replace (Z.to_nat (b - a)) with 0%nat by lia.
  reflexivity.
Qed.

Lemma py_range_cons (a b : Z) : a < b -> py_range a b = a :: py_range (a + 1) b.
Proof.
  intros H. unfold py_range.
  replace (Z.to_nat (b - a)) with (S (Z.to_nat (b - (a + 1)))) by lia.
  simpl. f_equal; [lia |].
  rewrite <- seq_shift, map_map. apply map_ext. intros i. lia.
Qed.

(** ** TableDimensionCalculator *)

Section DimensionFacts.

Import Dimension.
Variable ws : worksheet.

Lemma row_has_data_true (row_num : Z) (cols : list Z) :
  row_has_data ws row_num cols = true <->
  exists col_num v, In col_num cols /\
    cell ws row_num col_num = Returned v /\ has_data v = true.
Proof.
  induction cols as [|c cols IH]; simpl.
  - split; [discriminate | intros (? & ? & [] & _)].
  - destruct (cell ws row_num c) as [v|e] eqn:Hc.
    + destruct (has_data v) eqn:Hv.
      * split; [intros _; exists c, v; auto | reflexivity].
      * rewrite IH. split.
        -- intros (c' & v' & Hin & H1 & H2). exists c', v'. auto.
        -- intros (c' & v' & [<-|Hin] & H1 & H2).
           ++ congruence.
           ++ exists c', v'. auto.
    + rewrite IH. split.
      * intros (c' & v' & Hin & H1 & H2). exists c', v'. auto.
      * intros (c' & v' & [<-|Hin] & H1 & H2).
        -- congruence.
        -- exists c', v'. auto.
Qed.

Lemma row_nonblank_scan (row_num n : Z) :
  row_nonblank ws row_num n ->
  row_has_data ws row_num (py_range 1 (n + 1)) = true.
Proof.
  intros (c & v & Hc & H1 & H2). apply row_has_data_true.
  exists c, v. rewrite In_py_range. repeat split; auto; lia.
Qed.

Lemma row_blank_scan (row_num n : Z) :
  row_blank ws row_num n ->
  row_has_data ws row_num (py_range 1 (n + 1)) = false.
Proof.
  intros Hb. destruct (row_has_data _ _ _) eqn:E; [|reflexivity].
  apply row_has_data_true in E. destruct E as (c & v & Hin & H1 & H2).
  apply In_py_range in Hin. rewrite (Hb c v) in H2; [discriminate | lia | auto].
Qed.

Lemma scan_rows_cons (cols : list Z) (limit row_num : Z) (rest : list Z)
      (amr streak : Z) :
  scan_rows ws cols limit (row_num :: rest) amr streak =
  if row_has_data ws row_num cols then scan_rows ws cols limit rest row_num 0
  else if limit <=? streak + 1 then amr
       else scan_rows ws cols limit rest amr (streak + 1).
Proof. reflexivity. Qed.

(** Scanning through [k] rows of data moves the last data row along. *)
Lemma scan_rows_data (n limit : Z) (k : nat) :
  forall a b amr streak,
    a + Z.of_nat k <= b ->
    (forall r, a <= r < a + Z.of_nat k -> row_nonblank ws r n) ->
    (0 < k)%nat ->
    scan_rows ws (py_range 1 (n + 1)) limit (py_range a b) amr streak =
    scan_rows ws (py_range 1 (n + 1)) limit (py_range (a + Z.of_nat k) b)
              (a + Z.of_nat k - 1) 0.
Proof.
  induction k as [|k IH]; intros a b amr streak Hb Hrows Hk; [lia|].
  rewrite (py_range_cons a b) by lia. rewrite scan_rows_cons.
  rewrite row_nonblank_scan by (apply Hrows; lia).
  destruct (Nat.eq_dec k 0) as [->|Hk0].
  - replace (a + Z.of_nat 1) with (a + 1) by lia.
    replace (a + 1 - 1) with a by lia. reflexivity.
  - rewrite (IH (a + 1) b a 0); try lia.
    + replace (a + 1 + Z.of_nat k) with (a + Z.of_nat (S k)) by lia.
      reflexivity.
    + intros r Hr. apply Hrows. lia.
Qed.

(** A run of blank rows that reaches the limit, or the end of the scan
    window, leaves the last data row as it is. *)
Lemma scan_rows_blank (n limit : Z) (m : nat) :
  forall a b amr streak,
    Z.of_nat m = limit - streak -> 0 < limit - streak ->
    (forall r, a <= r < a + Z.of_nat m -> r < b -> row_blank ws r n) ->
    scan_rows ws (py_range 1 (n + 1)) limit (py_range a b) amr streak = amr.
Proof.
  induction m as [|m IH]; intros a b amr streak Hm Hpos Hrows; [lia|].
  destruct (Z_lt_le_dec a b) as [Hab|Hab].
  - rewrite (py_range_cons a b) by lia. rewrite scan_rows_cons.
    rewrite row_blank_scan by (apply Hrows; lia).
    destruct (limit <=? streak + 1) eqn:E; [reflexivity|].
    apply Z.leb_gt in E.
    apply (IH (a + 1) b amr (streak + 1)); try lia.
    intros r Hr Hrb. apply Hrows; lia.
  - rewrite (py_range_nil a b) by lia. reflexivity.
Qed.

End DimensionFacts.

Import Examples.

(** C2, as amended. Within the scan cap of 1000 rows and for a limit of at
    least 1: when the [k] rows below the header hold data in the table's
    columns and the [empty_streak_limit] rows after them are blank there,
    [calculate_table_dimension] returns [header_row + k] and
    [len(headers)], whatever lies further down; for [k = 0] it returns the
    header row. *)
Theorem calculate_table_dimension_blank_streak
        (ws : worksheet) (t : table) (empty_streak_limit k : Z) :
  headers t <> [] ->
  1 <= empty_streak_limit ->
  0 <= k <= Dimension.max_scan_rows ->
  (forall i, 1 <= i <= k ->
             Dimension.row_nonblank ws (start_row t + i) (len (headers t))) ->
  (forall j, 1 <= j <= empty_streak_limit ->
             Dimension.row_blank ws (start_row t + k + j) (len (headers t))) ->
  Dimension.calculate_table_dimension ws t empty_streak_limit =
  (start_row t + k, len (headers t)).
Proof.
  intros _ Hlimit Hk Hdata Hblank.
  unfold Dimension.calculate_table_dimension, Dimension.max_scan_rows in *.
  set (limit := if (1 <=? empty_streak_limit) && (empty_streak_limit <=? 10)
                then empty_streak_limit else 2).
  assert (Hl : 1 <= limit <= empty_streak_limit).
  { subst limit.
    destruct (1 <=? empty_streak_limit) eqn:E1;
      destruct (empty_streak_limit <=? 10) eqn:E2; simpl; lia. }
  f_equal.
  assert (Hrest :
    Dimension.scan_rows ws (py_range 1 (len (headers t) + 1)) limit
      (py_range (start_row t + 1 + k) (start_row t + 1 + 1000))
      (start_row t + k) 0 = start_row t + k).
  { apply (scan_rows_blank ws (len (headers t)) limit (Z.to_nat limit)); try lia.
    intros r Hr _.
    replace r with (start_row t + k + (r - start_row t - k)) by lia.
    apply Hblank. lia. }
  destruct (Z.eq_dec k 0) as [->|Hk0].
  - replace (start_row t + 1 + 0) with (start_row t + 1) in Hrest by lia.
    replace (start_row t + 0) with (start_row t) in Hrest |- * by lia.
    exact Hrest.
  - rewrite (scan_rows_data ws (len (headers t)) limit (Z.to_nat k)); try lia.
    + replace (start_row t + 1 + Z.of_nat (Z.to_nat k)) with (start_row t + 1 + k) by lia.
      replace (start_row t + 1 + k - 1) with (start_row t + k) by lia.
      exact Hrest.
    + intros r Hr.
      replace r with (start_row t + (r - start_row t)) by lia.
      apply Hdata. lia.
Qed.

Lemma calculate_table_dimension_blank_streak_witness :
  Dimension.calculate_table_dimension small_sheet small_table 2 = (3, 3).
Proof.
  apply (calculate_table_dimension_blank_streak small_sheet small_table 2 2).
  - discriminate.
  - lia.
  - unfold Dimension.max_scan_rows. lia.
  - intros i Hi. exists 1, (VInt i).
    assert (i = 1 \/ i = 2) as [-> | ->] by lia;
      repeat split; try reflexivity; vm_compute; discriminate.
  - intros j Hj c v Hc. change (len (headers small_table)) with 3 in Hc.
    assert (j = 1 \/ j = 2) as [-> | ->] by lia;
      assert (c = 1 \/ c = 2 \/ c = 3) as [-> | [-> | ->]] by lia;
      simpl; intros [= <-]; reflexivity.
Defined.

(** C2 as stated fails beyond the scan cap: 1001 rows of data followed by
    blank rows are reported as ending at row [header_row + 1000]. It also
    fails for a limit below 1, which promises no blank row at all while the
    function falls back to a limit of 2: with data in rows 2 and 3 and
    [k = 1] the result is row 3, not row 2. *)
Lemma calculate_table_dimension_cap_counterexample :
  (headers small_table <> [] /\
   (forall i, 1 <= i <= 1001 ->
              Dimension.row_nonblank long_sheet (start_row small_table + i)
                                     (len (headers small_table))) /\
   (forall j, 1 <= j <= 2 ->
              Dimension.row_blank long_sheet (start_row small_table + 1001 + j)
                                  (len (headers small_table))) /\
   Dimension.calculate_table_dimension long_sheet small_table 2 = (1001, 3) /\
   Dimension.calculate_table_dimension long_sheet small_table 2 <>
   (start_row small_table + 1001, len (headers small_table))) /\
  ((forall i, 1 <= i <= 1 ->
              Dimension.row_nonblank small_sheet (start_row small_table + i)
                                     (len (headers small_table))) /\
   (forall j, 1 <= j <= 0 ->
              Dimension.row_blank small_sheet (start_row small_table + 1 + j)
                                  (len (headers small_table))) /\
   Dimension.calculate_table_dimension small_sheet small_table 0 = (3, 3) /\
   Dimension.calculate_table_dimension small_sheet small_table 0 <>
   (start_row small_table + 1, len (headers small_table))).
Proof.
  assert (E : Dimension.calculate_table_dimension long_sheet small_table 2 = (1001, 3))
    by (vm_compute; reflexivity).
  assert (E0 : Dimension.calculate_table_dimension small_sheet small_table 0 = (3, 3))
    by (vm_compute; reflexivity).
  change (len (headers small_table)) with 3.
  change (start_row small_table) with 1.
  split; [split; [discriminate|]; split; [|split; [|split]] | split; [|split; [|split]]].
  - intros i Hi. exists 1, (VInt 7). split; [lia|]. split; [|reflexivity].
    unfold long_sheet, cell. f_equal.
    replace ((2 <=? 1 + i) && (1 + i <=? 1002)) with true; [reflexivity|].
    symmetry. apply andb_true_iff. split; apply Z.leb_le; lia.
  - intros j Hj c v Hc. unfold long_sheet, cell.
    replace (1 + 1001 + j <=? 1002) with false by (symmetry; apply Z.leb_gt; lia).
    rewrite andb_false_r. simpl. intros [= <-]. reflexivity.
  - exact E.
  - rewrite E. intros [= H].
  - intros i Hi. assert (i = 1) as -> by lia.
    exists 1, (VInt 1). repeat split; try reflexivity; lia.
  - intros j Hj. lia.
  - exact E0.
  - rewrite E0. intros [= H].
Qed.

(** ** RangeAddressing *)

Section SplitFacts.

Variable sep : ascii.

Lemma split_not_nil (s : string) : split sep s <> [].
Proof.
  destruct s as [|c s]; simpl; [discriminate|].
  destruct (Ascii.eqb c sep); [discriminate|].
  destruct (split sep s); discriminate.
Qed.

Lemma split_without_sep (s : string) :
  contains sep s = false -> split sep s = [s].
Proof.
  induction s as [|c s IH]; simpl; [reflexivity|].
  intros H. apply orb_false_iff in H. destruct H as [Hc Hs].
  rewrite Hc, (IH Hs). reflexivity.
Qed.

Lemma split_with_sep (s : string) :
  contains sep s = true -> exists x y l, split sep s = x :: y :: l.
Proof.
  induction s as [|c s IH]; simpl; [discriminate|].
  destruct (Ascii.eqb c sep) eqn:Hc; simpl.
  - intros _. destruct (split sep s) as [|y l] eqn:E.
    + exfalso. exact (split_not_nil s E).
    + exists EmptyString, y, l. reflexivity.
  - intros H. destruct (IH H) as (x & y & l & ->).
    exists (String c x), y, l. reflexivity.
Qed.

Lemma split_app (a b : string) :
  split sep (a ++ String sep b) = (split sep a ++ split sep b)%list.
Proof.
  induction a as [|c a IH]; simpl.
  - rewrite Ascii.eqb_refl. reflexivity.
  - destruct (Ascii.eqb c sep); rewrite IH; [reflexivity|].
    destruct (split sep a) as [|p ps] eqn:E; [|reflexivity].
    exfalso. exact (split_not_nil a E).
Qed.

Lemma contains_app (a b : string) :
  contains sep (a ++ String sep b) = true.
Proof.
  induction a as [|c a IH]; simpl.
  - rewrite Ascii.eqb_refl. reflexivity.
  - rewrite IH. apply orb_true_r.
Qed.

End SplitFacts.

Lemma column_loop_snoc (s : string) (c : ascii) :
  forall acc,
    RangeAddressing.column_loop acc (s ++ String c EmptyString) =
    RangeAddressing.column_loop acc s * 26 + (ord c - ord "A" + 1).
Proof.
  induction s as [|d s IH]; intros acc; simpl; [reflexivity|].
  apply IH.
Qed.

(** C9, as amended. [column_string_to_number] is the base-26 conversion
    ('A' is 1, 'Z' is 26, 'AA' is 27; a further character [c] turns the
    value [n] into [26 n + ord(c) - 64]) and it fails on no input: every
    string, column letters or not, yields a number. *)
Theorem column_string_to_number_base26_total :
  RangeAddressing.column_string_to_number "A" = Returned 1 /\
  RangeAddressing.column_string_to_number "Z" = Returned 26 /\
  RangeAddressing.column_string_to_number "AA" = Returned 27 /\
  RangeAddressing.column_string_to_number "" = Returned 0 /\
  forall (s : string) (c : ascii),
  exists n : Z,
    RangeAddressing.column_string_to_number s = Returned n /\
    RangeAddressing.column_string_to_number (s ++ String c EmptyString) =
    Returned (n * 26 + (ord c - 64)).
Proof.
  repeat split; try reflexivity.
  intros s c. exists (RangeAddressing.column_loop 0 s). split; [reflexivity|].
  unfold RangeAddressing.column_string_to_number.
  rewrite column_loop_snoc. change (ord "A") with 65. f_equal. lia.
Qed.

(** C9 as stated fails: the digit string "1" is not alphabetic, and the
    conversion returns -15 for it instead of raising. *)
Lemma column_string_to_number_digit_counterexample :
  string_forallb is_alpha "1" = false /\
  RangeAddressing.column_string_to_number "1" = Returned (-15) /\
  ~ raises (RangeAddressing.column_string_to_number "1").
Proof.
  split; [reflexivity|]. split; [reflexivity|].
  intros [e H]. discriminate H.
Qed.

Lemma parse_excel_range_two_sides (a b : string) :
  contains ":" a = false -> contains ":" b = false ->
  RangeAddressing.parse_excel_range (a ++ String ":" b) =
  ('(start_row, start_col) <- RangeAddressing.parse_cell_reference a ;;
   '(end_row, end_col) <- RangeAddressing.parse_cell_reference b ;;
   Returned (RangeAddressing.mk_range_info start_row end_row start_col end_col)).
Proof.
  intros Ha Hb. unfold RangeAddressing.parse_excel_range.
  rewrite contains_app, split_app.
  rewrite (split_without_sep _ a Ha), (split_without_sep _ b Hb).
  reflexivity.
Qed.

(** C10. [parse_excel_range] splits on the colon and parses both sides as
    cell references: "A6:V339" gives rows 6 to 339 and columns 1 to 22; it
    raises its [ValueError] when there is no colon, and raises when either
    side of the colon is refused by [parse_cell_reference]. *)
Theorem parse_excel_range_spec :
  RangeAddressing.parse_excel_range "A6:V339" =
  Returned (RangeAddressing.mk_range_info 6 339 1 22) /\
  (forall a b r1 c1 r2 c2,
      contains ":" a = false -> contains ":" b = false ->
      RangeAddressing.parse_cell_reference a = Returned (r1, c1) ->
      RangeAddressing.parse_cell_reference b = Returned (r2, c2) ->
      RangeAddressing.parse_excel_range (a ++ String ":" b) =
      Returned (RangeAddressing.mk_range_info r1 r2 c1 c2)) /\
  (forall s,
      contains ":" s = false ->
      RangeAddressing.parse_excel_range s =
      Raised (ValueError ("Invalid range format: " ++ s))) /\
  (forall a b,
      raises (RangeAddressing.parse_cell_reference a) \/
      raises (RangeAddressing.parse_cell_reference b) ->
      raises (RangeAddressing.parse_excel_range (a ++ String ":" b))).
Proof.
  split; [reflexivity|]. split; [|split].
  - intros a b r1 c1 r2 c2 Ha Hb H1 H2.
    rewrite (parse_excel_range_two_sides a b Ha Hb), H1. simpl.
    rewrite H2. reflexivity.
  - intros s Hs. unfold RangeAddressing.parse_excel_range. rewrite Hs.
    reflexivity.
  - intros a b Hfail.
    destruct (contains ":" a) eqn:Ha.
    + unfold RangeAddressing.parse_excel_range.
      rewrite contains_app, split_app. simpl negb. cbv iota.
      destruct (split_with_sep _ a Ha) as (x & y & l & ->).
      destruct (split ":" b) as [|z l'] eqn:Eb;
        [exfalso; exact (split_not_nil _ b Eb)|].
      simpl. destruct l; eexists; reflexivity.
    + destruct (contains ":" b) eqn:Hb.
      * unfold RangeAddressing.parse_excel_range.
        rewrite contains_app, split_app, (split_without_sep _ a Ha).
        simpl negb. cbv iota.
        destruct (split_with_sep _ b Hb) as (x & y & l & ->).
        simpl. eexists; reflexivity.
      * rewrite (parse_excel_range_two_sides a b Ha Hb).
        destruct Hfail as [[e He] | [e He]].
        -- rewrite He. exists e. reflexivity.
        -- rewrite He.
           destruct (RangeAddressing.parse_cell_reference a) as [[r c]|e'];
             simpl; eexists; reflexivity.
Qed.

Lemma parse_excel_range_spec_witness :
  RangeAddressing.parse_excel_range "B2:D9" =
  Returned (RangeAddressing.mk_range_info 2 9 2 4) /\
  RangeAddressing.parse_excel_range "A6" =
  Raised (ValueError "Invalid range format: A6") /\
  raises (RangeAddressing.parse_excel_range "A6:339").
Proof.
  destruct parse_excel_range_spec as (_ & Hok & Hcolon & Hside).
  split; [|split].
  - apply (Hok "B2" "D9" 2 2 9 4); reflexivity.
  - apply (Hcolon "A6"). reflexivity.
  - apply (Hside "A6" "339"). right. eexists. reflexivity.
Defined.

(** ** TableDetector *)

Section DetectionFacts.

Import Detection.
Local Open Scope Q_scope.

Variable range_boundaries : string -> result (Z * Z * Z * Z).

Lemma Qmin_cap (y : Q) : 0.95 <= y -> Qmin 0.95 y = 0.95.
Proof.
  intros H. unfold Qmin, GenericMinMax.gmin.
  destruct (0.95 ?= y) eqn:E; try reflexivity.
  exfalso. apply Qgt_alt in E. exact (Qlt_not_le _ _ E H).
Qed.

(** Under the emission conditions the sum fed to the cap is at least 1.1. *)
Lemma emission_sum_bound (text_ratio : Q) (count : Z) :
  Qltb text_ratio 0.9 = false -> (2 <=? count)%Z = true ->
  1.1 <= text_ratio + inject_Z count * 0.1.
Proof.
  unfold Qltb. intros Hr Hc.
  apply negb_false_iff, Qle_bool_iff in Hr.
  apply Z.leb_le in Hc. rewrite Zle_Qle in Hc.
  assert (H2 : inject_Z 2 * 0.1 <= inject_Z count * 0.1)
    by (apply Qmult_le_compat_r; [exact Hc | discriminate]).
  apply Qle_trans with (0.9 + inject_Z 2 * 0.1); [discriminate|].
  apply Qplus_le_compat; assumption.
Qed.

(** What every candidate appended for a header row looks like. *)
Lemma header_candidate_inv (ws : worksheet) (min_col scan_max_rows scan_max_cols : Z)
      (start_row : Z) (row_data : list value) (c : candidate) :
  In c (header_candidate ws min_col scan_max_rows scan_max_cols start_row row_data) ->
  exists text_ratio count,
    text_ratio = text_ratio_of (count_if is_text row_data) (len row_data) /\
    Qltb text_ratio 0.9 = false /\ (2 <=? count)%Z = true /\
    c_start_row c = start_row /\
    c_end_row c = (start_row + count)%Z /\
    c_confidence c = heuristic_confidence text_ratio count.
Proof.
  unfold header_candidate.
  destruct (count_if is_text row_data <? 3)%Z; [intros []|].
  destruct (Qltb _ 0.9) eqn:Hr; [intros []|].
  match goal with |- context [(2 <=? ?n)%Z] => set (count := n) end.
  destruct (2 <=? count)%Z eqn:Hc; [|intros []].
  intros [<-|[]]. exists (text_ratio_of (count_if is_text row_data) (len row_data)), count.
  simpl. repeat split; auto.
Qed.

Lemma scan_header_rows_inv (ws : worksheet) (min_col scan_max_rows scan_max_cols : Z)
      (rows : list Z) (c : candidate) :
  In c (scan_header_rows ws min_col scan_max_rows scan_max_cols rows) ->
  exists start_row row_data,
    iter_row ws start_row min_col scan_max_cols = RowValues row_data /\
    In c (header_candidate ws min_col scan_max_rows scan_max_cols start_row row_data).
Proof.
  induction rows as [|r rows IH]; simpl; [intros []|].
  destruct (iter_row ws r min_col scan_max_cols) as [row_data| |] eqn:E.
  - intros H. apply in_app_or in H. destruct H as [H|H]; [|exact (IH H)].
    exists r, row_data. auto.
  - intros [].
  - exact IH.
Qed.

(** Every heuristic candidate of a sheet comes from a header row that was
    read, with the confidence formula applied to its text ratio and to
    the number of data rows counted below it. *)
Lemma heuristic_candidate_inv (ws : worksheet) (c : candidate) :
  In c (find_tabular_ranges_by_heuristics_optimized range_boundaries ws) ->
  exists min_col scan_max_cols row_data text_ratio count,
    iter_row ws (c_start_row c) min_col scan_max_cols = RowValues row_data /\
    text_ratio = text_ratio_of (count_if is_text row_data) (len row_data) /\
    Qltb text_ratio 0.9 = false /\ (2 <=? count)%Z = true /\
    c_end_row c = (c_start_row c + count)%Z /\
    c_confidence c = heuristic_confidence text_ratio count.
Proof.
  unfold find_tabular_ranges_by_heuristics_optimized, scan_window.
  intros H.
  assert (Hscan : exists min_col scan_max_rows scan_max_cols rows,
             In c (scan_header_rows ws min_col scan_max_rows scan_max_cols rows)).
  { destruct (calculate_dimension ws) as [dimension|e]; [|eauto].
    destruct (negb (truthy dimension)); [destruct H|].
    destruct (range_boundaries dimension) as [[[[a b] d] e']|e']; eauto. }
  destruct Hscan as (min_col & scan_max_rows & scan_max_cols & rows & Hin).
  apply scan_header_rows_inv in Hin.
  destruct Hin as (start_row & row_data & Hrow & Hc).
  apply header_candidate_inv in Hc.
  destruct Hc as (text_ratio & count & H1 & H2 & H3 & H4 & H5 & H6).
  subst start_row.
  exists min_col, scan_max_cols, row_data, text_ratio, count.
  repeat split; auto.
Qed.

Lemma In_insert_by_confidence (t u : table) (l : list table) :
  In u (insert_by_confidence t l) <-> u = t \/ In u l.
Proof.
  induction l as [|v l IH]; simpl.
  - split; [intros [H|[]]; auto | intros [H|[]]; auto].
  - destruct (Qle_bool (confidence v) (confidence t)); simpl.
    + split; intros [H|[H|H]]; auto.
    + rewrite IH. split; [intros [H|[H|H]] | intros [H|[H|H]]]; auto.
Qed.

Lemma In_sort_by_confidence (u : table) (l : list table) :
  In u (sort_by_confidence l) <-> In u l.
Proof.
  induction l as [|t l IH]; simpl; [reflexivity|].
  rewrite In_insert_by_confidence, IH. split; intros [H|H]; auto.
Qed.

(** The tables of a file are the filter ranges and the heuristic
    candidates of its sheets. *)
Lemma find_tables_inv (fs : filesystem) (path : string) (t : table) :
  In t (find_tables range_boundaries fs path) ->
  exists ws,
    (In t (autofilter_table range_boundaries path ws) \/
     In t (heuristic_tables range_boundaries path ws)).
Proof.
  unfold find_tables. destruct (fs path) as [| |worksheets]; try intros [].
  rewrite In_sort_by_confidence. intros H. apply in_app_or in H.
  destruct H as [H|H]; apply in_flat_map in H; destruct H as (ws & _ & H);
    exists ws; auto.
Qed.

Lemma autofilter_table_inv (path : string) (ws : worksheet) (t : table) :
  In t (autofilter_table range_boundaries path ws) ->
  type t = autofilter_range /\ confidence t = 0.8 /\ sheet t = title ws.
Proof.
  unfold autofilter_table. destruct (auto_filter_ref ws) as [ref|]; [|intros []].
  destruct (RangeAddressing.parse_excel_range ref); [|intros []].
  intros [<-|[]]. auto.
Qed.

Lemma heuristic_tables_inv (path : string) (ws : worksheet) (t : table) :
  In t (heuristic_tables range_boundaries path ws) ->
  type t = heuristic /\ sheet t = title ws /\
  exists c, In c (find_tabular_ranges_by_heuristics_optimized range_boundaries ws) /\
            start_row t = c_start_row c /\ end_row t = c_end_row c /\
            confidence t = c_confidence c.
Proof.
  unfold heuristic_tables. intros H. apply in_map_iff in H.
  destruct H as (c & <- & Hc). simpl. eauto 10.
Qed.

End DetectionFacts.

Section ConfidenceFacts.

Variable range_boundaries : string -> result (Z * Z * Z * Z).
Variable fs : Detection.filesystem.
Variable path : string.

Lemma autofilter_confidence (t : table) :
  In t (Detection.find_tables range_boundaries fs path) ->
  type t = autofilter_range -> confidence t = 0.8%Q.
Proof.
  intros H Hty. apply find_tables_inv in H. destruct H as (ws & [H|H]).
  - apply autofilter_table_inv in H. tauto.
  - apply heuristic_tables_inv in H. destruct H as (H & _). congruence.
Qed.

(** A heuristic table carries the confidence formula of its header row,
    and the formula evaluates to the cap. *)
Lemma heuristic_confidence_formula (t : table) :
  In t (Detection.find_tables range_boundaries fs path) ->
  type t = heuristic ->
  exists ws min_col scan_max_cols row_data text_ratio count,
    sheet t = title ws /\
    iter_row ws (start_row t) min_col scan_max_cols = RowValues row_data /\
    text_ratio = Detection.text_ratio_of
                   (Detection.count_if is_text row_data) (len row_data) /\
    Detection.Qltb text_ratio 0.9 = false /\ (2 <=? count) = true /\
    end_row t = start_row t + count /\
    confidence t = Detection.heuristic_confidence text_ratio count /\
    confidence t = 0.95%Q.
Proof.
  intros H Hty. apply find_tables_inv in H. destruct H as (ws & [H|H]).
  - apply autofilter_table_inv in H. destruct H as (H & _). congruence.
  - apply heuristic_tables_inv in H.
    destruct H as (_ & Hsheet & c & Hc & Hs & He & Hconf).
    apply heuristic_candidate_inv in Hc.
    destruct Hc as (min_col & scan_max_cols & row_data & text_ratio & count
                    & Hrow & Hratio & Hr & Hcount & Hend & Hcc).
    exists ws, min_col, scan_max_cols, row_data, text_ratio, count.
    rewrite Hs, He, Hconf, Hcc. repeat split; auto.
    unfold Detection.heuristic_confidence.
    apply Qmin_cap. apply Qle_trans with 1.1%Q; [discriminate|].
    apply emission_sum_bound; assumption.
Qed.

End ConfidenceFacts.



(** C6. Every table from heuristic detection has confidence exactly 0.95:
    a candidate is only emitted for a text ratio of at least 0.9 and at
    least 2 data rows, which makes the capped sum at least 1.1, so the cap
    always applies and any two heuristic tables have the same confidence. *)
Theorem heuristic_confidence_saturates
        (range_boundaries : string -> result (Z * Z * Z * Z))
        (fs : Detection.filesystem) (path : string) (t : table) :
  In t (Detection.find_tables range_boundaries fs path) ->
  type t = heuristic ->
  confidence t = 0.95%Q /\
  (exists text_ratio data_row_count,
      (0.9 <= text_ratio)%Q /\ 2 <= data_row_count /\
      (1.1 <= text_ratio + inject_Z data_row_count * 0.1)%Q /\
      confidence t = Detection.heuristic_confidence text_ratio data_row_count) /\
  (forall u, In u (Detection.find_tables range_boundaries fs path) ->
             type u = heuristic -> confidence u = confidence t).
Proof.
  intros Ht Hty.
  destruct (heuristic_confidence_formula range_boundaries fs path t Ht Hty)
    as (_ & _ & _ & _ & text_ratio & count & _ & _ & _ & Hr & Hcount & _
        & Hformula & H95).
  split; [exact H95|]. split.
  - exists text_ratio, count. repeat split.
    + unfold Detection.Qltb in Hr. apply negb_false_iff, Qle_bool_iff in Hr. exact Hr.
    + apply Z.leb_le. exact Hcount.
    + apply emission_sum_bound; assumption.
    + exact Hformula.
  - intros u Hu Huty.
    destruct (heuristic_confidence_formula range_boundaries fs path u Hu Huty)
      as (_ & _ & _ & _ & _ & _ & _ & _ & _ & _ & _ & _ & _ & Hu95).
    congruence.
Qed.

Lemma heuristic_confidence_saturates_witness :
  confidence (mk_table "Sheet1" heuristic 1 3 None None 0.95 "curr.xlsx"
                       ["ID"; "Name"; "Amount"]) = 0.95%Q.
Proof.
  apply (heuristic_confidence_saturates plain_range_boundaries filtered_fs "curr.xlsx").
  - vm_compute. left. reflexivity.
  - reflexivity.
Defined.

(** C5, as amended. Of two tables returned by one detection pass, one from
    a declared filter range and one from heuristic detection, the filter
    range's confidence (fixed at 0.8) is strictly lower than the heuristic
    one's (which is 0.95). *)
Theorem autofilter_confidence_below_heuristic
        (range_boundaries : string -> result (Z * Z * Z * Z))
        (fs : Detection.filesystem) (path : string) (a h : table) :
  In a (Detection.find_tables range_boundaries fs path) ->
  In h (Detection.find_tables range_boundaries fs path) ->
  type a = autofilter_range ->
  type h = heuristic ->
  confidence a = 0.8%Q /\ confidence h = 0.95%Q /\
  (confidence a < confidence h)%Q.
Proof.
  intros Ha Hh Hta Hth.
  pose proof (autofilter_confidence range_boundaries fs path a Ha Hta) as Hca.
  destruct (heuristic_confidence_formula range_boundaries fs path h Hh Hth)
    as (_ & _ & _ & _ & _ & _ & _ & _ & _ & _ & _ & _ & _ & Hch).
  rewrite Hca, Hch. repeat split; reflexivity.
Qed.

Lemma autofilter_confidence_below_heuristic_witness :
  (0.8 < 0.95)%Q.
Proof.
  apply (autofilter_confidence_below_heuristic
           plain_range_boundaries filtered_fs "curr.xlsx"
           (mk_table "Sheet1" autofilter_range 1 3 (Some 1) (Some 3) 0.8 "curr.xlsx"
                     ["ID"; "Name"; "Amount"])
           (mk_table "Sheet1" heuristic 1 3 None None 0.95 "curr.xlsx"
                     ["ID"; "Name"; "Amount"])).
  - vm_compute. right. left. reflexivity.
  - vm_compute. left. reflexivity.
  - reflexivity.
  - reflexivity.
Defined.

(** C5 as stated fails: on a sheet whose table carries a filter, the same
    pass returns the filter range with confidence 0.8 and the heuristic
    candidate with confidence 0.95, so the filter range is not the higher. *)
Lemma autofilter_not_above_heuristic_counterexample :
  exists a h,
    In a (Detection.find_tables plain_range_boundaries filtered_fs "curr.xlsx") /\
    In h (Detection.find_tables plain_range_boundaries filtered_fs "curr.xlsx") /\
    type a = autofilter_range /\ type h = heuristic /\
    confidence a = 0.8%Q /\ confidence h = 0.95%Q /\
    ~ (confidence h < confidence a)%Q.
Proof.
  exists (mk_table "Sheet1" autofilter_range 1 3 (Some 1) (Some 3) 0.8 "curr.xlsx"
                   ["ID"; "Name"; "Amount"]),
         (mk_table "Sheet1" heuristic 1 3 None None 0.95 "curr.xlsx"
                   ["ID"; "Name"; "Amount"]).
  split; [vm_compute; right; left; reflexivity|].
  split; [vm_compute; left; reflexivity|].
  repeat split. simpl. intros H. discriminate H.
Qed.

(** ** HeaderMatcher *)

Section MatchingFacts.

Import Matching.

Lemma header_in_In (h : string) (l : list string) :
  header_in h l = true <-> In h l.
Proof.
  unfold header_in. rewrite existsb_exists. split.
  - intros (x & Hx & E). apply String.eqb_eq in E. subst. exact Hx.
  - intros H. exists h. split; [exact H | apply String.eqb_refl].
Qed.

Lemma match_pair_inv (d s : table) (m : header_match) :
  In m (match_pair d s) ->
  exists h, In h (headers s) /\ In h (headers d) /\ m = exact_match d s h.
Proof.
  unfold match_pair. intros H. apply in_flat_map in H.
  destruct H as (h & Hs & Hm).
  destruct (header_in h (headers d)) eqn:E; [|destruct Hm].
  destruct Hm as [<-|[]]. exists h.
  split; [exact Hs|]. split; [apply header_in_In; exact E | reflexivity].
Qed.

Lemma match_tables_inv (prev curr : list table) (m : header_match) :
  In m (match_tables prev curr) ->
  exists d s h, In d prev /\ In s curr /\ In h (headers s) /\ In h (headers d) /\
                m = exact_match d s h.
Proof.
  unfold match_tables. intros H.
  apply in_flat_map in H. destruct H as (d & Hd & H).
  apply in_flat_map in H. destruct H as (s & Hs & H).
  apply match_pair_inv in H. destruct H as (h & H1 & H2 & H3).
  exists d, s, h. auto.
Qed.

Lemma length_filter_flat_map {A B : Type} (p : B -> bool) (f : A -> list B)
      (l : list A) :
  length (filter p (flat_map f l)) =
  list_sum (map (fun x => length (filter p (f x))) l).
Proof.
  induction l as [|x l IH]; simpl; [reflexivity|].
  rewrite filter_app, length_app, IH. reflexivity.
Qed.

Lemma list_sum_selected {A : Type} (dec : forall x y : A, {x = y} + {x <> y})
      (a : A) (c : nat) (l : list A) :
  list_sum (map (fun x => if dec x a then c else 0%nat) l) =
  (count_occ dec l a * c)%nat.
Proof.
  induction l as [|x l IH]; simpl; [reflexivity|].
  rewrite IH. destruct (dec x a); simpl; lia.
Qed.

Lemma is_match_for_exact (d s d' s' : table) (h h' : string) :
  is_match_for d s h (exact_match d' s' h') =
  (if table_eq_dec d' d then true else false)
  && (if table_eq_dec s' s then true else false)
  && String.eqb h' h.
Proof. reflexivity. Qed.

(** The matches one pair of tables contributes for a given triple. *)
Lemma matches_for_pair (d s d' s' : table) (h : string) :
  matches_for d s h (match_pair d' s') =
  if table_eq_dec d' d then
    if table_eq_dec s' s then
      if header_in h (headers d) then occurrences h (headers s) else 0%nat
    else 0%nat
  else 0%nat.
Proof.
  unfold matches_for, match_pair. rewrite length_filter_flat_map.
  assert (Hsum : forall hs,
    list_sum (map (fun x =>
                     length (filter (is_match_for d s h)
                               (if header_in x (headers d')
                                then [exact_match d' s' x] else []))) hs) =
    if table_eq_dec d' d then
      if table_eq_dec s' s then
        if header_in h (headers d') then occurrences h hs else 0%nat
      else 0%nat
    else 0%nat).
  { induction hs as [|x hs IH]; simpl.
    - destruct (table_eq_dec d' d), (table_eq_dec s' s),
        (header_in h (headers d')); reflexivity.
    - rewrite IH. clear IH.
      destruct (header_in x (headers d')) eqn:Hx; simpl.
      + rewrite is_match_for_exact.
        destruct (table_eq_dec d' d), (table_eq_dec s' s); simpl; try reflexivity.
        destruct (string_dec x h) as [->|Hne].
        * rewrite String.eqb_refl, Hx. reflexivity.
        * apply String.eqb_neq in Hne. rewrite Hne. reflexivity.
      + destruct (table_eq_dec d' d), (table_eq_dec s' s); simpl; try reflexivity.
        destruct (string_dec x h) as [->|Hne]; [|reflexivity].
        rewrite Hx. reflexivity. }
  rewrite Hsum.
  destruct (table_eq_dec d' d) as [->|]; [|reflexivity].
  destruct (table_eq_dec s' s) as [->|]; reflexivity.
Qed.

(** The multiplicity of a triple in the whole match list. *)
Lemma matches_for_tables (prev curr : list table) (d s : table) (h : string) :
  matches_for d s h (match_tables prev curr) =
  (count_occ table_eq_dec prev d * count_occ table_eq_dec curr s *
   (if header_in h (headers d) then occurrences h (headers s) else 0))%nat.
Proof.
  unfold match_tables.
  change (matches_for d s h ?l) with (length (filter (is_match_for d s h) l)).
  rewrite length_filter_flat_map.
  set (X := if header_in h (headers d) then occurrences h (headers s) else 0%nat).
  rewrite (map_ext _ (fun d' => if table_eq_dec d' d
                                then (count_occ table_eq_dec curr s * X)%nat
                                else 0%nat)).
  - rewrite list_sum_selected. lia.
  - intros d'. rewrite length_filter_flat_map.
    rewrite (map_ext _ (fun s' => if table_eq_dec s' s
                                  then (if table_eq_dec d' d then X else 0%nat)
                                  else 0%nat)).
    + rewrite list_sum_selected. destruct (table_eq_dec d' d); lia.
    + intros s'. fold (matches_for d s h (match_pair d' s')).
      rewrite matches_for_pair.
      destruct (table_eq_dec d' d), (table_eq_dec s' s); reflexivity.
Qed.

End MatchingFacts.

(** C1, as amended. In exact mode [match_headers] emits one match, with
    confidence 1.0 and the source header as destination header, for each
    destination table, each source table and each occurrence of a header in
    the source table's list whose string also appears in the destination
    table's list, and nothing else. So a triple of tables listed once and a
    header occurring once in the source list and present in the destination
    list has exactly one match; one source and one destination table that
    both hold "Revenue" once give exactly one match for it; header lists
    with nothing in common give the empty list. *)
Theorem match_headers_exact
        (range_boundaries : string -> result (Z * Z * Z * Z))
        (fs : Detection.filesystem) (previous_tables : list table)
        (current_file_path : string) :
  let current_tables :=
    Detection.find_tables range_boundaries fs current_file_path in
  let matches :=
    Matching.match_headers range_boundaries fs previous_tables current_file_path in
  (forall m, In m matches ->
     exists d s h,
       In d previous_tables /\ In s current_tables /\
       In h (headers s) /\ In h (headers d) /\
       m = Matching.exact_match d s h /\
       match_confidence m = 1.0%Q /\ from_header m = h /\ to_header m = h) /\
  (forall d s h,
     Matching.matches_for d s h matches =
     (count_occ Matching.table_eq_dec previous_tables d *
      count_occ Matching.table_eq_dec current_tables s *
      (if Matching.header_in h (headers d)
       then Matching.occurrences h (headers s) else 0))%nat) /\
  (forall d s h,
     count_occ Matching.table_eq_dec previous_tables d = 1%nat ->
     count_occ Matching.table_eq_dec current_tables s = 1%nat ->
     Matching.occurrences h (headers s) = 1%nat ->
     In h (headers d) ->
     Matching.matches_for d s h matches = 1%nat) /\
  (forall d s,
     previous_tables = [d] -> current_tables = [s] ->
     Matching.occurrences "Revenue" (headers d) = 1%nat ->
     Matching.occurrences "Revenue" (headers s) = 1%nat ->
     filter (fun m => String.eqb (from_header m) "Revenue") matches =
     [Matching.exact_match d s "Revenue"]) /\
  ((forall d s h, In d previous_tables -> In s current_tables ->
                  In h (headers s) -> ~ In h (headers d)) ->
   matches = []).
Proof.
  intros current_tables matches. subst matches.
  unfold Matching.match_headers. fold current_tables.
  split; [|split; [|split; [|split]]].
  - intros m Hm. apply match_tables_inv in Hm.
    destruct Hm as (d & s & h & Hd & Hs & H1 & H2 & ->).
    exists d, s, h. repeat split; auto.
  - intros d s h. apply matches_for_tables.
  - intros d s h Hd Hs Hh Hin. rewrite matches_for_tables, Hd, Hs, Hh.
    apply header_in_In in Hin. rewrite Hin. reflexivity.
  - intros d s -> -> Hd Hs. unfold Matching.match_tables. simpl.
    rewrite !app_nil_r. unfold Matching.match_pair.
    assert (Hin : Matching.header_in "Revenue" (headers d) = true).
    { apply header_in_In. apply (count_occ_In string_dec).
      unfold Matching.occurrences in Hd. lia. }
    unfold Matching.occurrences in Hs. clear Hd.
    induction (headers s) as [|x hs IH]; [discriminate Hs|].
    simpl in Hs. simpl flat_map. rewrite filter_app.
    destruct (string_dec x "Revenue") as [->|Hne].
    + rewrite Hin. simpl. f_equal.
      injection Hs as Hs.
      assert (Hnot : ~ In "Revenue" hs)
        by (apply (count_occ_not_In string_dec); exact Hs).
      clear IH Hs. induction hs as [|y hs IH]; [reflexivity|].
      simpl. rewrite filter_app, IH by (intros H; apply Hnot; right; exact H).
      rewrite app_nil_r.
      destruct (Matching.header_in y (headers d)); [|reflexivity].
      simpl. destruct (String.eqb y "Revenue") eqn:E; [|reflexivity].
      apply String.eqb_eq in E. exfalso. apply Hnot. left. exact E.
    + rewrite (IH Hs).
      destruct (Matching.header_in x (headers d)); [|reflexivity].
      simpl. apply String.eqb_neq in Hne. rewrite Hne. reflexivity.
  - intros Hdisjoint.
    destruct (Matching.match_tables previous_tables current_tables) as [|m l] eqn:E;
      [reflexivity|].
    exfalso.
    assert (Hm : In m (Matching.match_tables previous_tables current_tables))
      by (rewrite E; left; reflexivity).
    apply match_tables_inv in Hm.
    destruct Hm as (d & s & h & Hd & Hs & H1 & H2 & _).
    exact (Hdisjoint d s h Hd Hs H1 H2).
Qed.

Lemma match_headers_exact_witness :
  filter (fun m => String.eqb (from_header m) "Revenue")
         (Matching.match_headers plain_range_boundaries revenue_fs
                                 [revenue_table] "curr.xlsx") =
  [Matching.exact_match
     revenue_table
     (mk_table "PBC" heuristic 1 3 None None 0.95 "curr.xlsx"
               ["Account"; "Revenue"; "Cost"])
     "Revenue"] /\
  Matching.match_headers plain_range_boundaries revenue_fs
                         [quarter_table] "curr.xlsx" = [].
Proof.
  split.
  - apply (match_headers_exact plain_range_boundaries revenue_fs
                               [revenue_table] "curr.xlsx");
      reflexivity.
  - apply (match_headers_exact plain_range_boundaries revenue_fs
                               [quarter_table] "curr.xlsx").
    intros d s h [<-|[]] Hs Hh Hd.
    vm_compute in Hs. destruct Hs as [<-|[]].
    simpl in Hh, Hd.
    destruct Hd as [<-|[<-|[]]];
      destruct Hh as [H|[H|[H|[]]]]; discriminate H.
Defined.

(** C1 as stated fails when a header is repeated: against a destination
    table with headers Q1, Q2, a source table with headers Q1, Q1, Q2 gets
    three matches, two of them for "Q1", although "Q2" is the only header
    that occurs once in both lists. *)
Lemma match_headers_repeated_header_counterexample :
  Detection.find_tables plain_range_boundaries repeated_fs "curr.xlsx" =
  [mk_table "Data" heuristic 1 3 None None 0.95 "curr.xlsx" ["Q1"; "Q1"; "Q2"]] /\
  Matching.occurrences "Q1" ["Q1"; "Q1"; "Q2"] = 2%nat /\
  map from_header
      (Matching.match_headers plain_range_boundaries repeated_fs
                              [quarter_table] "curr.xlsx") =
  ["Q1"; "Q1"; "Q2"] /\
  Matching.matches_for
    quarter_table
    (mk_table "Data" heuristic 1 3 None None 0.95 "curr.xlsx" ["Q1"; "Q1"; "Q2"])
    "Q1"
    (Matching.match_headers plain_range_boundaries repeated_fs
                            [quarter_table] "curr.xlsx") = 2%nat.
Proof. vm_compute. repeat split; reflexivity. Qed.

(** ** RollforwardStatusTracker *)

Section TrackerFacts.

Import Tracker.

Variable successful_matches : list header_match.

Lemma existsb_In {A : Type} (p : A -> bool) (l : list A) :
  existsb p l = true <-> exists x, In x l /\ p x = true.
Proof. apply existsb_exists. Qed.

Lemma Z_eq_opt_true (o : option Z) (n : Z) : Z_eq_opt o n = true <-> o = Some n.
Proof.
  destruct o as [m|]; simpl.
  - rewrite Z.eqb_eq. split; [intros ->; reflexivity | intros [= ->]; reflexivity].
  - split; discriminate.
Qed.

Lemma string_eq_opt_true (o : option string) (s : string) :
  string_eq_opt o s = true <-> o = Some s.
Proof.
  destruct o as [t|]; simpl.
  - rewrite String.eqb_eq. split; [intros ->; reflexivity | intros [= ->]; reflexivity].
  - split; discriminate.
Qed.

Lemma provenance_hit_true (c : cell_info) (sheet_name : string) (m : header_match) :
  provenance_hit c sheet_name m = true <->
  from_sheet m = Some sheet_name /\ from_row m = Some (row c) /\
  from_col m = Some (col c).
Proof.
  unfold provenance_hit.
  rewrite !andb_true_iff, string_eq_opt_true, !Z_eq_opt_true. tauto.
Qed.

Lemma column_covered_true (c : cell_info) (sheet_name : string) (m : header_match) :
  column_covered c sheet_name m = true <->
  exists t, from_table m = Some t /\ sheet t = sheet_name /\
            col c <= len (headers t).
Proof.
  unfold column_covered. destruct (from_table m) as [t|].
  - rewrite andb_true_iff, String.eqb_eq, Z.leb_le. split.
    + intros [H1 H2]. exists t. auto.
    + intros (t' & [= <-] & H1 & H2). auto.
  - split; [discriminate | intros (t & H & _); discriminate].
Qed.

(** The verdict only reads the row and the column of the tracked cell. *)
Lemma check_set_status (c : cell_info) (s : status) (sheet_name : string) :
  _check_if_cell_was_updated (set_status c s) successful_matches sheet_name =
  _check_if_cell_was_updated c successful_matches sheet_name.
Proof. reflexivity. Qed.

Lemma update_cell_snd (ws : worksheet) (sheet_name : string) (acc : tally)
      (c : cell_info) :
  snd (update_cell ws sheet_name successful_matches acc c) =
  settled_cell ws sheet_name successful_matches c.
Proof.
  unfold settled_cell, update_cell.
  destruct (cell ws (row c) (col c)); [|reflexivity].
  destruct (_check_if_cell_was_updated c successful_matches sheet_name);
    [reflexivity|].
  destruct (coordinate (row c) (col c)); reflexivity.
Qed.

Lemma settled_cell_idempotent (ws : worksheet) (sheet_name : string) (c : cell_info) :
  settled_cell ws sheet_name successful_matches
               (settled_cell ws sheet_name successful_matches c) =
  settled_cell ws sheet_name successful_matches c.
Proof.
  unfold settled_cell at 2. unfold update_cell.
  destruct (cell ws (row c) (col c)) as [v|e] eqn:Hcell.
  - destruct (_check_if_cell_was_updated c successful_matches sheet_name) eqn:Hcheck.
    + simpl. unfold settled_cell, update_cell. simpl.
      rewrite Hcell, check_set_status, Hcheck. reflexivity.
    + destruct (coordinate (row c) (col c)) as [coord|e] eqn:Hcoord; simpl;
        unfold settled_cell, update_cell; simpl;
        rewrite Hcell, check_set_status, Hcheck, Hcoord; reflexivity.
  - simpl. unfold settled_cell, update_cell. rewrite Hcell. reflexivity.
Qed.

Lemma update_cells_snd (ws : worksheet) (sheet_name : string)
      (cells_list : list cell_info) :
  forall acc,
    snd (update_cells ws sheet_name successful_matches acc cells_list) =
    map (settled_cell ws sheet_name successful_matches) cells_list.
Proof.
  induction cells_list as [|c l IH]; intros acc; simpl; [reflexivity|].
  pose proof (update_cell_snd ws sheet_name acc c) as Hc.
  destruct (update_cell ws sheet_name successful_matches acc c) as [acc1 c1].
  simpl in Hc. subst c1.
  specialize (IH acc1).
  destruct (update_cells ws sheet_name successful_matches acc1 l) as [acc2 l2].
  simpl in IH. subst l2. reflexivity.
Qed.

Lemma update_sheets_snd (worksheets : list worksheet) (red_cells_info : red_cells) :
  forall acc,
    snd (update_sheets worksheets successful_matches acc red_cells_info) =
    map (settled_sheet worksheets successful_matches) red_cells_info.
Proof.
  induction red_cells_info as [|[sheet_name cells_list] rest IH]; intros acc; simpl;
    [reflexivity|].
  unfold settled_sheet at 1. simpl.
  destruct (find_sheet worksheets sheet_name) as [ws|].
  - pose proof (update_cells_snd ws sheet_name cells_list acc) as Hc.
    destruct (update_cells ws sheet_name successful_matches acc cells_list)
      as [acc1 l1].
    simpl in Hc. subst l1. specialize (IH acc1).
    destruct (update_sheets worksheets successful_matches acc1 rest) as [acc2 r2].
    simpl in IH. subst r2. reflexivity.
  - specialize (IH acc).
    destruct (update_sheets worksheets successful_matches acc rest) as [acc2 r2].
    simpl in IH. subst r2. reflexivity.
Qed.

Lemma settled_sheet_idempotent (worksheets : list worksheet)
      (entry : string * list cell_info) :
  settled_sheet worksheets successful_matches
                (settled_sheet worksheets successful_matches entry) =
  settled_sheet worksheets successful_matches entry.
Proof.
  destruct entry as [sheet_name cells_list]. unfold settled_sheet. simpl.
  destruct (find_sheet worksheets sheet_name) as [ws|] eqn:E; simpl; rewrite E;
    [|reflexivity].
  f_equal. rewrite map_map. apply map_ext. intros c.
  apply settled_cell_idempotent.
Qed.

End TrackerFacts.

Lemma column_covered_same_column (c c' : Tracker.cell_info) (sheet_name : string)
      (l : list header_match) :
  Tracker.col c' = Tracker.col c ->
  existsb (Tracker.column_covered c' sheet_name) l =
  existsb (Tracker.column_covered c sheet_name) l.
Proof.
  intros Hcol. induction l as [|m l IH]; simpl; [reflexivity|].
  rewrite IH. unfold Tracker.column_covered. rewrite Hcol. reflexivity.
Qed.

Lemma provenance_hit_absent (c : Tracker.cell_info) (sheet_name : string)
      (l : list header_match) :
  (forall m, In m l -> from_sheet m = None) ->
  existsb (Tracker.provenance_hit c sheet_name) l = false.
Proof.
  intros Hno. induction l as [|m l IH]; simpl; [reflexivity|].
  rewrite IH by (intros m' Hm'; apply Hno; right; exact Hm').
  unfold Tracker.provenance_hit. rewrite (Hno m) by (left; reflexivity).
  reflexivity.
Qed.

(** C3. A tracked cell is judged rolled forward exactly when (a) some
    successful match carries the cell's sheet, row and column as explicit
    provenance, or (b) some successful match has a source table on the
    cell's sheet with at least as many headers as the cell's column index.
    Rule (a) is tried first, and rule (b) does not look at the row: without
    explicit provenance, cells of one column get the same verdict. *)
Theorem check_if_cell_was_updated_rules
        (c : Tracker.cell_info) (successful_matches : list header_match)
        (sheet_name : string) :
  (Tracker._check_if_cell_was_updated c successful_matches sheet_name = true <->
   (exists m, In m successful_matches /\
              from_sheet m = Some sheet_name /\
              from_row m = Some (Tracker.row c) /\
              from_col m = Some (Tracker.col c)) \/
   (exists m t, In m successful_matches /\
                from_table m = Some t /\ sheet t = sheet_name /\
                Tracker.col c <= len (headers t))) /\
  Tracker._check_if_cell_was_updated c successful_matches sheet_name =
  (if existsb (Tracker.provenance_hit c sheet_name) successful_matches then true
   else existsb (Tracker.column_covered c sheet_name) successful_matches) /\
  (forall c',
     Tracker.col c' = Tracker.col c ->
     existsb (Tracker.column_covered c' sheet_name) successful_matches =
     existsb (Tracker.column_covered c sheet_name) successful_matches) /\
  (forall c',
     Tracker.col c' = Tracker.col c ->
     (forall m, In m successful_matches -> from_sheet m = None) ->
     Tracker._check_if_cell_was_updated c' successful_matches sheet_name =
     Tracker._check_if_cell_was_updated c successful_matches sheet_name).
Proof.
  split; [|split; [|split]].
  - unfold Tracker._check_if_cell_was_updated.
    destruct (existsb (Tracker.provenance_hit c sheet_name) successful_matches) eqn:Ea.
    + split; [intros _|reflexivity]. left.
      apply existsb_In in Ea. destruct Ea as (m & Hm & Hp).
      apply provenance_hit_true in Hp. exists m. tauto.
    + destruct (existsb (Tracker.column_covered c sheet_name) successful_matches) eqn:Eb.
      * split; [intros _|reflexivity]. right.
        apply existsb_In in Eb. destruct Eb as (m & Hm & Hp).
        apply column_covered_true in Hp. destruct Hp as (t & H1 & H2 & H3).
        exists m, t. auto.
      * split; [discriminate|]. intros [(m & Hm & Hp) | (m & t & Hm & H1 & H2 & H3)].
        -- assert (existsb (Tracker.provenance_hit c sheet_name) successful_matches = true)
             by (apply existsb_In; exists m; split; [exact Hm|];
                 apply provenance_hit_true; exact Hp).
           congruence.
        -- assert (existsb (Tracker.column_covered c sheet_name) successful_matches = true)
             by (apply existsb_In; exists m; split; [exact Hm|];
                 apply column_covered_true; exists t; auto).
           congruence.
  - unfold Tracker._check_if_cell_was_updated.
    destruct (existsb (Tracker.provenance_hit c sheet_name) successful_matches);
      [reflexivity|].
    destruct (existsb (Tracker.column_covered c sheet_name) successful_matches);
      reflexivity.
  - intros c' Hcol. apply column_covered_same_column. exact Hcol.
  - intros c' Hcol Hno. unfold Tracker._check_if_cell_was_updated.
    rewrite !provenance_hit_absent by exact Hno.
    rewrite (column_covered_same_column c c' sheet_name _ Hcol). reflexivity.
Qed.

Lemma check_if_cell_was_updated_rules_witness :
  Tracker._check_if_cell_was_updated (cell_A5 Tracker.pending)
                                     [one_column_match] "Sheet1" = true /\
  Tracker._check_if_cell_was_updated
    (Tracker.mk_cell_info 9 1 VNone Tracker.pending) [one_column_match] "Sheet1" =
  Tracker._check_if_cell_was_updated (cell_A5 Tracker.pending)
                                     [one_column_match] "Sheet1".
Proof.
  destruct (check_if_cell_was_updated_rules
              (cell_A5 Tracker.pending) [one_column_match] "Sheet1")
    as (Hiff & _ & _ & Hrow).
  split.
  - apply Hiff. right. exists one_column_match, one_column_table.
    repeat split; [left; reflexivity | vm_compute; discriminate].
  - apply Hrow; [reflexivity|].
    intros m [<-|[]]. reflexivity.
Defined.

(** The tracked cells a run leaves: those of the sheets found in the
    workbook are settled, the others are untouched. *)
Lemma update_rollforward_status_snd
      (fs : Detection.filesystem) (file_path : string)
      (red_cells_info : Tracker.red_cells)
      (successful_matches : list header_match) :
  snd (Tracker.update_rollforward_status fs file_path red_cells_info
                                         successful_matches) =
  match fs file_path with
  | Detection.Book worksheets =>
      map (Tracker.settled_sheet worksheets successful_matches) red_cells_info
  | _ => red_cells_info
  end.
Proof.
  unfold Tracker.update_rollforward_status.
  destruct red_cells_info as [|entry rest];
    [destruct (fs file_path); reflexivity|].
  destruct (fs file_path) as [| |worksheets]; try reflexivity.
  apply update_sheets_snd.
Qed.

(** C7. A second run of [update_rollforward_status] over the tracked cells
    the first run left, with the same successful matches, leaves all of
    them as they are: every cell keeps the status the first run gave it. *)
Theorem update_rollforward_status_terminal
        (fs : Detection.filesystem) (file_path : string)
        (red_cells_info : Tracker.red_cells)
        (successful_matches : list header_match) :
  let after_first :=
    snd (Tracker.update_rollforward_status fs file_path red_cells_info
                                           successful_matches) in
  snd (Tracker.update_rollforward_status fs file_path after_first
                                         successful_matches) = after_first.
Proof.
  intros after_first. subst after_first.
  rewrite !update_rollforward_status_snd.
  destruct (fs file_path) as [| |worksheets]; try reflexivity.
  rewrite map_map. apply map_ext. intros entry.
  apply settled_sheet_idempotent.
Qed.

(** C8. With a non-empty list of successful matches the report lists the
    failed cell and leaves out the completed one: for a completed cell at A5
    and a failed cell at B5 of Sheet1 it reports exactly "Sheet1!B5". With
    an empty list of successful matches the report is the all-succeeded
    message whatever the tracked cells are, also when the status update of
    the same run has just marked a cell failed and listed it for manual
    adjustment. *)
Theorem report_without_matches_claims_success :
  Tracker.reported_addresses
    prev_fs (Some "prev.xlsx")
    [("Sheet1", [cell_A5 Tracker.completed; cell_B5 Tracker.failed])]
    [one_column_match] = ["Sheet1!B5"] /\
  (forall fs previous_file red_cells_info,
      Tracker.generate_manual_adjustment_report fs previous_file red_cells_info [] =
      Tracker.all_succeeded_message) /\
  snd (Tracker.update_rollforward_status
         prev_fs "prev.xlsx" [("Sheet1", [cell_B5 Tracker.pending])] []) =
  [("Sheet1", [cell_B5 Tracker.failed])] /\
  map Tracker.cell_address
      (Tracker.manual_adjustment_needed
         (fst (Tracker.update_rollforward_status
                 prev_fs "prev.xlsx" [("Sheet1", [cell_B5 Tracker.pending])] []))) =
  ["Sheet1!B5"] /\
  Tracker.generate_manual_adjustment_report
    prev_fs (Some "prev.xlsx") [("Sheet1", [cell_B5 Tracker.failed])] [] =
  Tracker.all_succeeded_message /\
  Tracker.reported_addresses
    prev_fs (Some "prev.xlsx") [("Sheet1", [cell_B5 Tracker.failed])] [] = [].
Proof.
  split; [vm_compute; reflexivity|]. split.
  - intros fs previous_file red_cells_info.
    unfold Tracker.generate_manual_adjustment_report, Tracker.manual_adjustment_cells.
    destruct red_cells_info; reflexivity.
  - repeat split; vm_compute; reflexivity.
Qed.

(** * Further properties of the code *)

(** ** Addresses *)

Section AddressFacts.

Import Vocabulary.

Lemma span_spec (p : ascii -> bool) (s : string) :
  forall a b, span p s = (a, b) ->
              s = a ++ b /\ string_forallb p a = true /\ starts_with p b = false.
Proof.
  induction s as [|c s IH]; simpl; intros a b H.
  - injection H as <- <-. auto.
  - destruct (p c) eqn:Hc.
    + destruct (span p s) as [taken left]. injection H as <- <-.
      destruct (IH taken left eq_refl) as (-> & H1 & H2).
      simpl. rewrite Hc, H1. auto.
    + injection H as <- <-. simpl. rewrite Hc. auto.
Qed.

Lemma span_app (p : ascii -> bool) (a b : string) :
  string_forallb p a = true -> starts_with p b = false ->
  span p (a ++ b) = (a, b).
Proof.
  induction a as [|c a IH]; simpl; intros Ha Hb.
  - destruct b as [|d b]; [reflexivity|]. simpl in *. rewrite Hb. reflexivity.
  - apply andb_true_iff in Ha. destruct Ha as [Hc Ha].
    rewrite Hc, (IH Ha Hb). reflexivity.
Qed.

Lemma append_assoc (a b c : string) : (a ++ b) ++ c = a ++ (b ++ c).
Proof. induction a as [|x a IH]; simpl; [reflexivity | rewrite IH; reflexivity]. Qed.

End AddressFacts.

(** The strings [re.match(r'([A-Z]+)(\d+)', ...)] matches, with the groups. *)
Lemma parse_cell_reference_returns (cell_ref : string) (row col : Z) :
  RangeAddressing.parse_cell_reference cell_ref = Returned (row, col) <->
  exists letters numerals rest,
    cell_ref = letters ++ numerals ++ rest /\
    truthy letters = true /\ Vocabulary.capitals letters = true /\
    truthy numerals = true /\ Vocabulary.digits numerals = true /\
    Vocabulary.starts_with is_digit rest = false /\
    row = int numerals /\ col = RangeAddressing.column_loop 0 letters.
Proof.
  unfold RangeAddressing.parse_cell_reference, RangeAddressing.re_match_cell.
  split.
  - destruct (span is_upper cell_ref) as [letters after] eqn:E1.
    destruct (span is_digit after) as [numerals rest] eqn:E2.
    destruct (span_spec _ _ _ _ E1) as (-> & Hl & _).
    destruct (span_spec _ _ _ _ E2) as (-> & Hn & Hr).
    destruct (truthy letters) eqn:Tl; [|discriminate].
    destruct (truthy numerals) eqn:Tn; [|discriminate].
    simpl. intros [= <- <-].
    exists letters, numerals, rest. repeat split; auto.
  - intros (letters & numerals & rest & -> & Tl & Hl & Tn & Hn & Hr & -> & ->).
    assert (Hd : Vocabulary.starts_with is_upper (numerals ++ rest) = false).
    { destruct numerals as [|d numerals]; [discriminate|].
      simpl in *. apply andb_true_iff in Hn. destruct Hn as [Hd _].
      unfold is_digit in Hd. unfold is_upper.
      apply andb_true_iff in Hd. destruct Hd as [_ Hd]. apply Z.leb_le in Hd.
      destruct (65 <=? ord d) eqn:E; [|reflexivity].
      apply Z.leb_le in E. lia. }
    rewrite (span_app is_upper letters (numerals ++ rest) Hl Hd).
    rewrite (span_app is_digit numerals rest Hn Hr).
    rewrite Tl, Tn. reflexivity.
Qed.



Lemma split_single (sep : ascii) (s x : string) :
  split sep s = [x] -> x = s /\ contains sep s = false.
Proof.
  intros H. destruct (contains sep s) eqn:E.
  - destruct (split_with_sep sep s E) as (a & b & l & Hs). congruence.
  - rewrite (split_without_sep sep s E) in H. injection H as <-. auto.
Qed.

Lemma split_two (sep : ascii) (s : string) :
  forall a b, split sep s = [a; b] ->
              s = a ++ String sep b /\ contains sep a = false /\
              contains sep b = false.
Proof.
  induction s as [|c s IH]; simpl; intros a b H; [discriminate|].
  destruct (Ascii.eqb c sep) eqn:Hc.
  - injection H as <- Hs. apply Ascii.eqb_eq in Hc. subst c.
    apply split_single in Hs. destruct Hs as [-> Hb]. auto.
  - destruct (split sep s) as [|p ps] eqn:Es; [discriminate|].
    injection H as <- ->.
    destruct (IH p b eq_refl) as (-> & Hp & Hb).
    simpl. rewrite Hc, Hp. auto.
Qed.

(** X2. [parse_excel_range] returns a box exactly for the strings made of
    two cell references accepted by [parse_cell_reference] with a single
    colon between them, and the box holds their rows and columns; a string
    with a second colon is refused like one with none. *)
Theorem parse_excel_range_returns (range_str : string)
        (box : RangeAddressing.range_info) :
  RangeAddressing.parse_excel_range range_str = Returned box <->
  exists start_cell end_cell r1 c1 r2 c2,
    range_str = start_cell ++ String ":" end_cell /\
    contains ":" start_cell = false /\ contains ":" end_cell = false /\
    RangeAddressing.parse_cell_reference start_cell = Returned (r1, c1) /\
    RangeAddressing.parse_cell_reference end_cell = Returned (r2, c2) /\
    box = RangeAddressing.mk_range_info r1 r2 c1 c2.
Proof.
  split.
  - unfold RangeAddressing.parse_excel_range.
    destruct (negb (contains ":" range_str)); [discriminate|].
    destruct (split ":" range_str) as [|a [|b [|x l]]] eqn:Es; try discriminate.
    destruct (split_two _ _ _ _ Es) as (-> & Ha & Hb).
    destruct (RangeAddressing.parse_cell_reference a) as [[r1 c1]|e] eqn:Pa;
      [|discriminate].
    destruct (RangeAddressing.parse_cell_reference b) as [[r2 c2]|e] eqn:Pb;
      [|discriminate].
    simpl. intros [= <-].
    exists a, b, r1, c1, r2, c2. repeat split; auto.
  - intros (a & b & r1 & c1 & r2 & c2 & -> & Ha & Hb & Pa & Pb & ->).
    rewrite (parse_excel_range_two_sides a b Ha Hb), Pa. simpl.
    rewrite Pb. reflexivity.
Qed.

Lemma parse_excel_range_returns_witness :
  exists start_cell end_cell r1 c1 r2 c2,
    "B2:D9" = start_cell ++ String ":" end_cell /\
    contains ":" start_cell = false /\ contains ":" end_cell = false /\
    RangeAddressing.parse_cell_reference start_cell = Returned (r1, c1) /\
    RangeAddressing.parse_cell_reference end_cell = Returned (r2, c2) /\
    RangeAddressing.mk_range_info 2 9 2 4 = RangeAddressing.mk_range_info r1 r2 c1 c2.
Proof.
  apply (parse_excel_range_returns "B2:D9" (RangeAddressing.mk_range_info 2 9 2 4)).
  reflexivity.
Defined.

Section ColumnFacts.

Import Vocabulary.

Lemma column_loop_fold (s : string) :
  forall acc,
    RangeAddressing.column_loop acc s =
    fold_left column_step (list_ascii_of_string s) acc.
Proof. induction s as [|c s IH]; intros acc; simpl; [reflexivity | apply IH]. Qed.

Lemma capitals_list (s : string) :
  capitals s = true <-> Forall (fun c => is_upper c = true) (list_ascii_of_string s).
Proof.
  unfold capitals. induction s as [|c s IH]; simpl.
  - split; [constructor | reflexivity].
  - rewrite andb_true_iff, IH. split.
    + intros [H1 H2]. constructor; assumption.
    + intros H. inversion H. auto.
Qed.

Lemma is_upper_digit (c : ascii) :
  is_upper c = true -> 1 <= ord c - ord "A" + 1 <= 26.
Proof.
  unfold is_upper. rewrite andb_true_iff, !Z.leb_le.
  change (ord "A") with 65. lia.
Qed.

Lemma ord_inj (c d : ascii) : ord c = ord d -> c = d.
Proof.
  unfold ord. intros H. apply N2Z.inj in H.
  rewrite <- (ascii_N_embedding c), <- (ascii_N_embedding d), H. reflexivity.
Qed.

Lemma fold_capitals_nonneg (l : list ascii) :
  Forall (fun c => is_upper c = true) l -> 0 <= fold_left column_step l 0.
Proof.
  induction l as [|c l IH] using rev_ind; intros H; simpl; [lia|].
  rewrite fold_left_app. simpl. apply Forall_app in H. destruct H as [Hl Hc].
  inversion Hc as [|? ? Hu _]. subst.
  pose proof (is_upper_digit c Hu). specialize (IH Hl).
  unfold column_step at 1. lia.
Qed.

Lemma fold_capitals_inj (l : list ascii) :
  forall l',
    Forall (fun c => is_upper c = true) l ->
    Forall (fun c => is_upper c = true) l' ->
    fold_left column_step l 0 = fold_left column_step l' 0 -> l = l'.
Proof.
  induction l as [|c l IH] using rev_ind; intros l' Hl Hl' E.
  - destruct l' as [|c' l'] using rev_ind; [reflexivity|].
    exfalso. rewrite fold_left_app in E. simpl in E.
    apply Forall_app in Hl'. destruct Hl' as [H1 H2].
    inversion H2 as [|? ? Hu _]. subst.
    pose proof (is_upper_digit c' Hu). pose proof (fold_capitals_nonneg l' H1).
    unfold column_step at 1 in E. lia.
  - apply Forall_app in Hl. destruct Hl as [H1 H2].
    inversion H2 as [|? ? Hu _]. subst.
    pose proof (is_upper_digit c Hu) as Hd.
    destruct l' as [|c' l'] using rev_ind.
    + exfalso. rewrite fold_left_app in E. simpl in E.
      pose proof (fold_capitals_nonneg l H1).
      unfold column_step at 1 in E. lia.
    + apply Forall_app in Hl'. destruct Hl' as [H1' H2'].
      inversion H2' as [|? ? Hu' _]. subst.
      pose proof (is_upper_digit c' Hu') as Hd'.
      rewrite !fold_left_app in E. simpl in E. unfold column_step at 1 3 in E.
      assert (Ev : fold_left column_step l 0 = fold_left column_step l' 0) by lia.
      assert (Ec : ord c = ord c') by lia.
      rewrite (IH l' H1 H1' Ev), (ord_inj c c' Ec). reflexivity.
Qed.

End ColumnFacts.

(** X3. On column names (strings of capital letters)
    [column_string_to_number] is one-to-one, and it is at least 1 unless
    the name is empty: two different column names never get the same
    number. *)
Theorem column_string_to_number_injective (s t : string) (n : Z) :
  Vocabulary.capitals s = true -> Vocabulary.capitals t = true ->
  RangeAddressing.column_string_to_number s = Returned n ->
  RangeAddressing.column_string_to_number t = Returned n ->
  s = t /\ (truthy s = true -> 1 <= n).
Proof.
  unfold RangeAddressing.column_string_to_number.
  intros Hs Ht [= Es] [= Et].
  rewrite column_loop_fold in Es, Et.
  apply capitals_list in Hs. apply capitals_list in Ht.
  assert (El : list_ascii_of_string s = list_ascii_of_string t)
    by (apply fold_capitals_inj; auto; congruence).
  split.
  - rewrite <- (string_of_list_ascii_of_string s),
      <- (string_of_list_ascii_of_string t), El. reflexivity.
  - intros Hne. destruct s as [|c s]; [discriminate|].
    simpl in Es, Hs. inversion Hs as [|? ? Hu Hrest]. subst.
    destruct (list_ascii_of_string s) as [|d l] eqn:El' using rev_ind.
    + simpl. pose proof (is_upper_digit c Hu). unfold Vocabulary.column_step. lia.
    + clear IHl. simpl. rewrite fold_left_app. simpl.
      apply Forall_app in Hrest. destruct Hrest as [H1 H2].
      inversion H2 as [|? ? Hu' _]. subst.
      pose proof (is_upper_digit d Hu').
      assert (0 <= fold_left Vocabulary.column_step l (Vocabulary.column_step 0 c)).
      { change (fold_left Vocabulary.column_step l (Vocabulary.column_step 0 c))
          with (fold_left Vocabulary.column_step (c :: l) 0).
        apply fold_capitals_nonneg. constructor; assumption. }
      unfold Vocabulary.column_step at 1. lia.
Qed.

Lemma column_string_to_number_injective_witness :
  "AA" = "AA" /\ (truthy "AA" = true -> 1 <= 27).
Proof.
  apply (column_string_to_number_injective "AA" "AA" 27); reflexivity.
Defined.

Section DecimalFacts.

Import Vocabulary.

Lemma int_loop_of_uint_acc (d : Decimal.uint) :
  forall acc : positive,
    int_loop (Z.pos acc) (NilEmpty.string_of_uint d) = Z.pos (Pos.of_uint_acc d acc).
Proof.
  induction d; intros acc;
    cbn [NilEmpty.string_of_uint int_loop Pos.of_uint_acc]; try reflexivity;
    rewrite <- IHd; f_equal;
    match goal with |- context [ord ?c] =>
      let v := eval vm_compute in (ord c) in change (ord c) with v end;
    lia.
Qed.

Lemma int_loop_of_uint (d : Decimal.uint) :
  int_loop 0 (NilEmpty.string_of_uint d) = Z.of_uint d.
Proof.
  unfold Z.of_uint.
  induction d; cbn [NilEmpty.string_of_uint int_loop Pos.of_uint]; try reflexivity;
    match goal with |- context [ord ?c] =>
      let v := eval vm_compute in (ord c) in change (ord c) with v end;
    try exact IHd.
  all: change (Z.of_N (N.pos ?p)) with (Z.pos p);
    rewrite <- int_loop_of_uint_acc; reflexivity.
Qed.

Lemma digits_string_of_uint (d : Decimal.uint) :
  digits (NilEmpty.string_of_uint d) = true.
Proof. unfold digits. induction d; simpl; auto. Qed.

Lemma str_of_Z_reads_back (n : Z) :
  0 <= n ->
  int (str_of_Z n) = n /\ digits (str_of_Z n) = true /\ truthy (str_of_Z n) = true.
Proof.
  intros Hn. unfold str_of_Z, int.
  destruct n as [|p|p]; [repeat split; reflexivity | | lia].
  pose proof (DecimalZ.of_to (Z.pos p)) as Hp.
  change (Z.to_int (Z.pos p)) with (Decimal.Pos (Pos.to_uint p)) in *.
  change (Z.of_int (Decimal.Pos (Pos.to_uint p)))
    with (Z.of_uint (Pos.to_uint p)) in Hp.
  cbn [NilZero.string_of_int].
  remember (Pos.to_uint p) as d eqn:Ed. clear Ed.
  assert (Hd : NilZero.string_of_uint d = NilEmpty.string_of_uint d)
    by (destruct d; [discriminate Hp | reflexivity ..]).
  rewrite Hd. repeat split.
  - rewrite int_loop_of_uint. exact Hp.
  - apply digits_string_of_uint.
  - destruct d; [discriminate Hp | reflexivity ..].
Qed.

Lemma column_reads_back_all (idx : Z) :
  1 <= idx <= 18278 -> column_reads_back idx = true.
Proof.
  intros H.
  assert (Hall : forallb column_reads_back (py_range 1 18279) = true)
    by (vm_compute; reflexivity).
  rewrite forallb_forall in Hall. apply Hall. apply In_py_range. lia.
Qed.

End DecimalFacts.

(** X4. The address the status tracker prints for a tracked cell reads back
    through [parse_cell_reference]: for a row that is not negative and a
    column from 1 to 18278 the cell's coordinate (column letters followed by
    the row number) parses to that very row and column. *)
Theorem coordinate_parses_back (row col : Z) :
  0 <= row -> 1 <= col <= 18278 ->
  exists address,
    Tracker.coordinate row col = Returned address /\
    RangeAddressing.parse_cell_reference address = Returned (row, col).
Proof.
  intros Hrow Hcol.
  pose proof (column_reads_back_all col Hcol) as Hback.
  unfold Vocabulary.column_reads_back in Hback.
  unfold Tracker.coordinate.
  destruct (Tracker.get_column_letter col) as [letters|e]; [|discriminate].
  apply andb_true_iff in Hback. destruct Hback as [Hback Hvalue].
  apply andb_true_iff in Hback. destruct Hback as [Hne Hcap].
  apply Z.eqb_eq in Hvalue.
  destruct (str_of_Z_reads_back row Hrow) as (Hint & Hdig & Htr).
  simpl. exists (letters ++ str_of_Z row). split; [reflexivity|].
  apply parse_cell_reference_returns.
  exists letters, (str_of_Z row), EmptyString.
  assert (Hnil : forall s : string, s ++ EmptyString = s)
    by (induction s as [|c s IH]; simpl; congruence).
  rewrite Hnil. repeat split; auto.
Qed.

Lemma coordinate_parses_back_witness :
  exists address,
    Tracker.coordinate 5 2 = Returned address /\
    RangeAddressing.parse_cell_reference address = Returned (5, 2).
Proof. apply (coordinate_parses_back 5 2); lia. Defined.

(** ** Detection *)

Section OrderFacts.

Import Detection.
Local Open Scope Q_scope.

Lemma insert_at_front (t : table) (l : list table) :
  (forall u, In u l -> confidence u = confidence t) ->
  insert_by_confidence t l = t :: l.
Proof.
  destruct l as [|u l]; [reflexivity|]. intros H. simpl.
  rewrite (H u) by (left; reflexivity).
  replace (Qle_bool (confidence t) (confidence t)) with true; [reflexivity|].
  symmetry. apply Qle_bool_iff. apply Qle_refl.
Qed.

Lemma sort_same_confidence (q : Q) (l : list table) :
  (forall u, In u l -> confidence u = q) -> sort_by_confidence l = l.
Proof.
  induction l as [|t l IH]; intros H; simpl; [reflexivity|].
  rewrite IH by (intros u Hu; apply H; right; exact Hu).
  apply insert_at_front. intros u Hu.
  rewrite (H u) by (right; exact Hu). rewrite (H t) by (left; reflexivity).
  reflexivity.
Qed.

Lemma insert_after_higher (a : table) (hs ls : list table) :
  confidence a = 0.8 ->
  (forall u, In u hs -> confidence u = 0.95) ->
  (forall u, In u ls -> confidence u = 0.8) ->
  insert_by_confidence a (hs ++ ls) = (hs ++ a :: ls)%list.
Proof.
  intros Ha Hh Hl. induction hs as [|h hs IH]; simpl.
  - apply insert_at_front. intros u Hu. rewrite Ha. apply Hl. exact Hu.
  - rewrite (Hh h) by (left; reflexivity). rewrite Ha.
    change (Qle_bool 0.95 0.8) with false. cbv iota.
    rewrite IH by (intros u Hu; apply Hh; right; exact Hu). reflexivity.
Qed.

Lemma sort_two_levels (ls hs : list table) :
  (forall u, In u ls -> confidence u = 0.8) ->
  (forall u, In u hs -> confidence u = 0.95) ->
  sort_by_confidence (ls ++ hs) = (hs ++ ls)%list.
Proof.
  intros Hl Hh. induction ls as [|a ls IH]; simpl.
  - rewrite app_nil_r. apply (sort_same_confidence 0.95). exact Hh.
  - change (fold_right insert_by_confidence [] (ls ++ hs))
      with (sort_by_confidence (ls ++ hs)).
    rewrite IH by (intros u Hu; apply Hl; right; exact Hu).
    apply insert_after_higher.
    + apply Hl. left. reflexivity.
    + exact Hh.
    + intros u Hu. apply Hl. right. exact Hu.
Qed.

Variable range_boundaries : string -> result (Z * Z * Z * Z).

Lemma heuristic_tables_confidence (path : string) (ws : worksheet) (t : table) :
  In t (heuristic_tables range_boundaries path ws) -> confidence t = 0.95.
Proof.
  intros H. apply heuristic_tables_inv in H.
  destruct H as (_ & _ & c & Hc & _ & _ & ->).
  apply heuristic_candidate_inv in Hc.
  destruct Hc as (_ & _ & _ & text_ratio & count & _ & _ & Hr & Hcount & _ & ->).
  unfold heuristic_confidence. apply Qmin_cap.
  apply Qle_trans with 1.1; [discriminate|].
  apply emission_sum_bound; assumption.
Qed.

End OrderFacts.

(** X5. [find_tables] returns first all heuristic tables, sheet after
    sheet, then all filter-range tables, sheet after sheet: the stable sort
    by confidence puts every heuristic table (0.95) before every
    filter-range table (0.8) and changes nothing else. A missing or
    unreadable file gives the empty list. *)
Theorem find_tables_order
        (range_boundaries : string -> result (Z * Z * Z * Z))
        (fs : Detection.filesystem) (path : string) :
  Detection.find_tables range_boundaries fs path =
  match fs path with
  | Detection.Book worksheets =>
      (flat_map (Detection.heuristic_tables range_boundaries path) worksheets
       ++ flat_map (Detection.autofilter_table range_boundaries path) worksheets)%list
  | _ => []
  end.
Proof.
  unfold Detection.find_tables. destruct (fs path) as [| |worksheets]; try reflexivity.
  apply sort_two_levels.
  - intros u Hu. apply in_flat_map in Hu. destruct Hu as (ws & _ & Hu).
    apply autofilter_table_inv in Hu. tauto.
  - intros u Hu. apply in_flat_map in Hu. destruct Hu as (ws & _ & Hu).
    apply (heuristic_tables_confidence range_boundaries path ws). exact Hu.
Qed.

Section StripFacts.

Lemma lstrip_head (s : string) :
  match lstrip s with
  | EmptyString => True
  | String c _ => is_space c = false
  end.
Proof.
  induction s as [|c s IH]; simpl; [exact I|].
  destruct (is_space c) eqn:E; [exact IH | exact E].
Qed.

Lemma lstrip_fixed (s : string) :
  match s with
  | EmptyString => True
  | String c _ => is_space c = false
  end -> lstrip s = s.
Proof. destruct s as [|c s]; simpl; [reflexivity | intros ->; reflexivity]. Qed.

Lemma rstrip_idempotent (s : string) : rstrip (rstrip s) = rstrip s.
Proof.
  induction s as [|c s IH]; simpl; [reflexivity|].
  destruct (rstrip s) as [|d kept] eqn:E.
  - destruct (is_space c) eqn:Hc; simpl; [reflexivity | rewrite Hc; reflexivity].
  - simpl. simpl in IH. destruct (rstrip kept) as [|d' kept'] eqn:E'.
    + destruct (is_space d); [discriminate IH | rewrite IH; reflexivity].
    + rewrite IH. reflexivity.
Qed.

Lemma rstrip_head (s : string) :
  match s with
  | EmptyString => True
  | String c _ => is_space c = false
  end ->
  match rstrip s with
  | EmptyString => True
  | String c _ => is_space c = false
  end.
Proof.
  destruct s as [|c s]; simpl; [auto|]. intros Hc.
  destruct (rstrip s); [rewrite Hc|]; exact Hc.
Qed.

Lemma strip_idempotent (s : string) : strip (strip s) = strip s.
Proof.
  unfold strip.
  rewrite (lstrip_fixed (rstrip (lstrip s))).
  - apply rstrip_idempotent.
  - apply rstrip_head. apply lstrip_head.
Qed.

Lemma is_text_has_data (v : value) : is_text v = true -> has_data v = true.
Proof. destruct v; simpl; auto; discriminate. Qed.

Lemma has_data_truthy (v : value) :
  has_data v = true -> truthy (strip (py_str v)) = true.
Proof. destruct v; simpl; auto; discriminate. Qed.

End StripFacts.

Section CandidateFacts.

Import Detection.

Lemma len_py_range (a b : Z) : len (py_range a b) = Z.max 0 (b - a).
Proof. unfold len, py_range. rewrite length_map, length_seq. lia. Qed.

Lemma count_data_rows_bound (ws : worksheet) (min_col scan_max_cols total : Z)
      (rows : list Z) :
  forall count,
    count <= count_data_rows ws min_col scan_max_cols total rows count
    <= count + len rows.
Proof.
  unfold len. induction rows as [|r rows IH]; intros count; simpl; [lia|].
  destruct (iter_row ws r min_col scan_max_cols).
  - destruct (Qle_bool _ _); [specialize (IH (count + 1))|]; lia.
  - lia.
  - specialize (IH count). lia.
Qed.

Lemma count_text_le_data (row : list value) :
  count_if is_text row <= len (stripped_values row).
Proof.
  unfold count_if, stripped_values, len. rewrite length_map.
  induction row as [|v row IH]; simpl; [lia|].
  destruct (is_text v) eqn:E.
  - rewrite (is_text_has_data v E). simpl. lia.
  - destruct (has_data v); simpl; lia.
Qed.

Lemma stripped_values_inv (row : list value) (h : string) :
  In h (stripped_values row) ->
  exists v, In v row /\ has_data v = true /\ h = strip (py_str v).
Proof.
  unfold stripped_values. intros H. apply in_map_iff in H.
  destruct H as (v & <- & Hv). apply filter_In in Hv. destruct Hv as [Hin Hd].
  exists v. auto.
Qed.

(** The shape of a candidate appended for a header row. *)
Lemma header_candidate_shape (ws : worksheet) (min_col scan_max_rows scan_max_cols : Z)
      (start_row : Z) (row_data : list value) (c : candidate) :
  In c (header_candidate ws min_col scan_max_rows scan_max_cols start_row row_data) ->
  2 <= c_end_row c - c_start_row c <= 15 /\
  c_end_row c <= Z.max (c_start_row c) scan_max_rows /\
  3 <= len (c_headers c) /\
  c_headers c = stripped_values row_data.
Proof.
  unfold header_candidate.
  destruct (count_if is_text row_data <? 3) eqn:Ht; [intros []|].
  destruct (Qltb _ 0.9); [intros []|].
  match goal with |- context [(2 <=? ?n)] => set (count := n) end.
  destruct (2 <=? count) eqn:Hc; [|intros []].
  intros [<-|[]]. simpl.
  apply Z.leb_le in Hc. apply Z.ltb_ge in Ht.
  pose proof (count_data_rows_bound ws min_col scan_max_cols (len row_data)
                (py_range (start_row + 1) (Z.min (start_row + 16) (scan_max_rows + 1)))
                0) as Hb.
  fold count in Hb. rewrite len_py_range in Hb.
  pose proof (count_text_le_data row_data).
  repeat split; try lia.
Qed.

End CandidateFacts.

(** X6. Every heuristic table returned by [find_tables] has between 2 and
    15 data rows ([end_row - start_row]), at least 3 headers, and headers
    that are non-empty and carry no whitespace at either end; the keys
    [start_col] and [end_col] are absent. *)
Theorem heuristic_table_shape
        (range_boundaries : string -> result (Z * Z * Z * Z))
        (fs : Detection.filesystem) (path : string) (t : table) :
  In t (Detection.find_tables range_boundaries fs path) ->
  type t = heuristic ->
  2 <= end_row t - start_row t <= 15 /\
  3 <= len (headers t) /\
  (forall h, In h (headers t) -> truthy h = true /\ strip h = h) /\
  start_col t = None /\ end_col t = None.
Proof.
  intros H Hty. apply find_tables_inv in H. destruct H as (ws & [H|H]).
  - apply autofilter_table_inv in H. destruct H as (H & _). congruence.
  - unfold Detection.heuristic_tables in H. apply in_map_iff in H.
    destruct H as (c & <- & Hc). simpl.
    assert (Hscan : exists min_col scan_max_rows scan_max_cols rows,
               In c (Detection.scan_header_rows ws min_col scan_max_rows
                                                scan_max_cols rows)).
    { unfold Detection.find_tabular_ranges_by_heuristics_optimized,
        Detection.scan_window in Hc.
      destruct (calculate_dimension ws) as [dimension|e]; [|eauto].
      destruct (negb (truthy dimension)); [destruct Hc|].
      destruct (range_boundaries dimension) as [[[[a b] d] e']|e']; eauto. }
    destruct Hscan as (min_col & scan_max_rows & scan_max_cols & rows & Hin).
    apply scan_header_rows_inv in Hin.
    destruct Hin as (start_row & row_data & _ & Hin).
    apply header_candidate_shape in Hin.
    destruct Hin as (Hrows & _ & Hlen & Hheaders).
    repeat split; try lia.
    + rewrite Hheaders in H. apply stripped_values_inv in H.
      destruct H as (v & _ & Hv & ->). apply has_data_truthy. exact Hv.
    + rewrite Hheaders in H. apply stripped_values_inv in H.
      destruct H as (v & _ & _ & ->). apply strip_idempotent.
Qed.

Lemma heuristic_table_shape_witness :
  2 <= 3 - 1 <= 15 /\
  3 <= len ["ID"; "Name"; "Amount"] /\
  (forall h, In h ["ID"; "Name"; "Amount"] -> truthy h = true /\ strip h = h) /\
  @None Z = None /\ @None Z = None.
Proof.
  apply (heuristic_table_shape plain_range_boundaries filtered_fs "curr.xlsx"
           (mk_table "Sheet1" heuristic 1 3 None None 0.95 "curr.xlsx"
                     ["ID"; "Name"; "Amount"])).
  - vm_compute. left. reflexivity.
  - reflexivity.
Defined.

Section HeaderFacts.

Import Detection Vocabulary.

Lemma present_value_has_data (c : header_cell) (v : value) :
  present_value c = Some v -> truthy (strip (py_str v)) = true ->
  c = Some v /\ has_data v = true.
Proof.
  destruct c as [[]|]; simpl; intros [= <-] H; split; auto.
Qed.

Lemma collect_headers_inv (header_cells : list header_cell) (todo : list header_cell) :
  forall i last_valid_header h,
    (forall c, In c todo -> In c header_cells) ->
    (forall l, last_valid_header = Some l -> read_from header_cells l) ->
    In h (collect_headers header_cells i todo last_valid_header) ->
    h = EmptyString \/ read_from header_cells h.
Proof.
  induction todo as [|c todo IH]; intros i last h Hsub Hlast; simpl; [intros []|].
  assert (Hreuse : forall merged,
             reuse_header last merged = EmptyString \/
             read_from header_cells (reuse_header last merged)).
  { intros merged. unfold reuse_header. destruct last as [l|]; [|auto].
    destruct (truthy l && merged); [right; apply Hlast; reflexivity | auto]. }
  assert (Hrest : forall c', In c' todo -> In c' header_cells)
    by (intros c' Hc'; apply Hsub; right; exact Hc').
  destruct (present_value c) as [v|] eqn:Ep.
  - destruct (truthy (strip (py_str v))) eqn:Et.
    + destruct (present_value_has_data c v Ep Et) as [-> Hv].
      assert (Hr : read_from header_cells (strip (py_str v))).
      { exists v. split; [apply Hsub; left; reflexivity | auto]. }
      intros [<-|H]; [right; exact Hr|].
      apply (IH (S i) (Some (strip (py_str v))) h Hrest); [|exact H].
      intros l [= <-]. exact Hr.
    + intros [<-|H]; [apply Hreuse|].
      apply (IH (S i) last h Hrest Hlast H).
  - intros [<-|H]; [apply Hreuse|].
    apply (IH (S i) last h Hrest Hlast H).
Qed.

Lemma collect_headers_full (header_cells : list header_cell) (values : list value) :
  forall i last_valid_header,
    Forall (fun v => has_data v = true) values ->
    collect_headers header_cells i (map Some values) last_valid_header =
    map (fun v => strip (py_str v)) values.
Proof.
  induction values as [|v values IH]; intros i last H; [reflexivity|].
  cbn [map collect_headers].
  inversion H as [|? ? Hv Hrest]. subst.
  assert (Ep : present_value (Some v) = Some v)
    by (destruct v; [discriminate Hv | reflexivity ..]).
  rewrite Ep, (has_data_truthy v Hv), IH by exact Hrest. reflexivity.
Qed.

End HeaderFacts.

(** X7. [extract_headers_from_range] never invents a header and never
    returns a blank one: every header it returns is non-empty, carries no
    whitespace at either end, and is the stripped text of a cell holding
    data in the first row of the range (read cell by cell, or by the row
    read of the fallback). When the range does not parse it returns the
    empty list. *)
Theorem extract_headers_from_range_sound
        (range_boundaries : string -> result (Z * Z * Z * Z))
        (ws : worksheet) (range_ref : string) :
  (forall h,
     In h (Detection.extract_headers_from_range range_boundaries ws range_ref) ->
     truthy h = true /\ strip h = h /\
     exists min_col min_row max_col max_row v,
       range_boundaries range_ref = Returned (min_col, min_row, max_col, max_row) /\
       has_data v = true /\ h = strip (py_str v) /\
       ((exists col, min_col <= col <= max_col /\
                     cell ws min_row col = Returned v) \/
        (exists row, iter_row ws min_row min_col max_col = RowValues row /\
                     In v row))) /\
  (raises (range_boundaries range_ref) ->
   Detection.extract_headers_from_range range_boundaries ws range_ref = []).
Proof.
  unfold Detection.extract_headers_from_range. split.
  - intros h.
    destruct (range_boundaries range_ref)
      as [[[[min_col min_row] max_col] max_row]|e]; [|intros []].
    set (header_cells := map _ (py_range min_col (max_col + 1))).
    assert (Hsound : forall v, has_data v = true ->
               truthy (strip (py_str v)) = true /\
               strip (strip (py_str v)) = strip (py_str v))
      by (intros v Hv; split; [apply has_data_truthy; exact Hv | apply strip_idempotent]).
    destruct (filter _ (Detection.collect_headers header_cells 0 header_cells None))
      as [|h0 valid] eqn:Ev.
    + destruct (iter_row ws min_row min_col max_col) as [row| |] eqn:Er;
        try intros [].
      intros H. apply stripped_values_inv in H. destruct H as (v & Hin & Hv & ->).
      destruct (Hsound v Hv) as [H1 H2]. split; [exact H1|]. split; [exact H2|].
      exists min_col, min_row, max_col, max_row, v.
      repeat split; auto. right. exists row. auto.
    + rewrite <- Ev. intros H. apply filter_In in H. destruct H as [H Ht].
      apply (collect_headers_inv header_cells header_cells 0 None h) in H;
        [|auto|discriminate].
      destruct H as [->|(v & Hin & Hv & ->)]; [discriminate Ht|].
      destruct (Hsound v Hv) as [H1 H2]. split; [exact H1|]. split; [exact H2|].
      exists min_col, min_row, max_col, max_row, v.
      repeat split; auto. left.
      subst header_cells. apply in_map_iff in Hin. destruct Hin as (col & Hc & Hcol).
      apply In_py_range in Hcol. exists col. split; [lia|].
      destruct (cell ws min_row col) as [v'|e']; [|discriminate].
      injection Hc as ->. reflexivity.
  - intros [e ->]. reflexivity.
Qed.

Lemma extract_headers_from_range_sound_witness :
  truthy "Name" = true /\ strip "Name" = "Name" /\
  exists min_col min_row max_col max_row v,
    plain_range_boundaries "A1:C3" = Returned (min_col, min_row, max_col, max_row) /\
    has_data v = true /\ "Name" = strip (py_str v) /\
    ((exists col, min_col <= col <= max_col /\
                  cell filtered_sheet min_row col = Returned v) \/
     (exists row, iter_row filtered_sheet min_row min_col max_col = RowValues row /\
                  In v row)).
Proof.
  apply (extract_headers_from_range_sound plain_range_boundaries filtered_sheet "A1:C3").
  vm_compute. right. left. reflexivity.
Defined.

(** X8. When every cell of the first row of a range holds data,
    [extract_headers_from_range] returns exactly the stripped texts of those
    cells, in column order: one header per column of the range, with no
    continuation inference and no fallback. *)
Theorem extract_headers_from_range_full_row
        (range_boundaries : string -> result (Z * Z * Z * Z))
        (ws : worksheet) (range_ref : string)
        (min_col min_row max_col max_row : Z) (values : list value) :
  range_boundaries range_ref = Returned (min_col, min_row, max_col, max_row) ->
  map (cell ws min_row) (py_range min_col (max_col + 1)) = map Returned values ->
  values <> [] ->
  Forall (fun v => has_data v = true) values ->
  Detection.extract_headers_from_range range_boundaries ws range_ref =
  map (fun v => strip (py_str v)) values /\
  len (Detection.extract_headers_from_range range_boundaries ws range_ref) =
  max_col - min_col + 1.
Proof.
  intros Hrange Hcells Hne Hdata.
  assert (Hlen : len values = max_col - min_col + 1).
  { assert (E : len (map (cell ws min_row) (py_range min_col (max_col + 1))) =
                len (map (@Returned value) values)) by (rewrite Hcells; reflexivity).
    unfold len in E. rewrite !length_map in E. fold (len values) in E.
    fold (len (py_range min_col (max_col + 1))) in E.
    rewrite len_py_range in E.
    destruct values as [|v values]; [contradiction|].
    unfold len in *. simpl length in *. lia. }
  assert (Hresult :
    Detection.extract_headers_from_range range_boundaries ws range_ref =
    map (fun v => strip (py_str v)) values).
  { unfold Detection.extract_headers_from_range. rewrite Hrange.
    assert (Hcollected :
      map (fun col => match cell ws min_row col with
                      | Returned v => Some v
                      | Raised _ => None
                      end) (py_range min_col (max_col + 1)) = map Some values).
    { rewrite <- (map_map (cell ws min_row)
                          (fun r => match r with
                                    | Returned v => Some v
                                    | Raised _ => None
                                    end)).
      rewrite Hcells, map_map. reflexivity. }
    rewrite Hcollected.
    rewrite (collect_headers_full (map Some values) values 0 None Hdata).
    assert (Hkeep : filter (fun h => truthy (strip h))
                           (map (fun v => strip (py_str v)) values) =
                    map (fun v => strip (py_str v)) values).
    { clear -Hdata. induction Hdata as [|v values Hv _ IH]; simpl; [reflexivity|].
      rewrite strip_idempotent, (has_data_truthy v Hv), IH. reflexivity. }
    rewrite Hkeep.
    destruct values as [|v values]; [contradiction | reflexivity]. }
  split; [exact Hresult|].
  rewrite Hresult. unfold len in *. rewrite length_map. exact Hlen.
Qed.

Lemma extract_headers_from_range_full_row_witness :
  Detection.extract_headers_from_range plain_range_boundaries filtered_sheet "A1:C3" =
  ["ID"; "Name"; "Amount"] /\
  len (Detection.extract_headers_from_range plain_range_boundaries filtered_sheet "A1:C3")
  = 3 - 1 + 1.
Proof.
  apply (extract_headers_from_range_full_row
           plain_range_boundaries filtered_sheet "A1:C3" 1 1 3 3
           [VStr "ID"; VStr "Name"; VStr "Amount"]).
  - reflexivity.
  - reflexivity.
  - discriminate.
  - repeat constructor.
Defined.

(** ** Table extent *)

Section ScanFacts.

Import Dimension.
Variable ws : worksheet.
Variable n limit : Z.

Lemma row_blank_iff (row_num : Z) :
  row_has_data ws row_num (py_range 1 (n + 1)) = false <-> row_blank ws row_num n.
Proof.
  split; [|apply row_blank_scan].
  intros H col v Hcol Hcell. destruct (has_data v) eqn:Hv; [|reflexivity].
  assert (Ht : row_has_data ws row_num (py_range 1 (n + 1)) = true).
  { apply row_has_data_true. exists col, v. rewrite In_py_range.
    repeat split; auto; lia. }
  congruence.
Qed.

Lemma row_nonblank_iff (row_num : Z) :
  row_has_data ws row_num (py_range 1 (n + 1)) = true <-> row_nonblank ws row_num n.
Proof.
  split; [|apply row_nonblank_scan].
  intros H. apply row_has_data_true in H. destruct H as (c & v & Hin & H1 & H2).
  apply In_py_range in Hin. exists c, v. repeat split; auto; lia.
Qed.

(** What the scan returns, started below row [a] with the rows since the
    last data row all blank. *)
Lemma scan_rows_result (k : nat) :
  forall a b amr streak,
    Z.of_nat k = b - a -> amr < a -> streak = a - 1 - amr -> streak < limit ->
    (forall r, amr < r < a -> row_blank ws r n) ->
    let result := scan_rows ws (py_range 1 (n + 1)) limit (py_range a b) amr streak in
    amr <= result < b /\
    (result = amr \/ row_nonblank ws result n) /\
    (forall j, 1 <= j <= limit -> result + j < b -> row_blank ws (result + j) n).
Proof.
  induction k as [|k IH]; intros a b amr streak Hk Hamr Hs Hlim Hblank.
  - rewrite (py_range_nil a b) by lia. simpl. repeat split; try lia; auto.
    intros j Hj Hb. apply Hblank. lia.
  - rewrite (py_range_cons a b) by lia. rewrite scan_rows_cons.
    destruct (row_has_data ws a (py_range 1 (n + 1))) eqn:Ha.
    + destruct (IH (a + 1) b a 0) as (H1 & H2 & H3); try lia.
      cbv zeta in H1, H2, H3. repeat split; try lia.
      * right. destruct H2 as [->|H2]; [apply row_nonblank_iff; exact Ha | exact H2].
      * exact H3.
    + apply row_blank_iff in Ha.
      assert (Hblank' : forall r, amr < r < a + 1 -> row_blank ws r n).
      { intros r Hr. destruct (Z.eq_dec r a) as [->|Hne]; [exact Ha|].
        apply Hblank. lia. }
      destruct (limit <=? streak + 1) eqn:E.
      * apply Z.leb_le in E. repeat split; try lia; auto.
        intros j Hj Hb. apply Hblank'. lia.
      * apply Z.leb_gt in E.
        destruct (IH (a + 1) b amr (streak + 1)) as (H1 & H2 & H3); try lia.
        -- exact Hblank'.
        -- cbv zeta in H1, H2, H3. repeat split; try lia; auto.
Qed.

Lemma scan_rows_floor (limit' floor : Z) (rows : list Z) :
  forall amr streak,
    floor <= amr -> (forall r, In r rows -> floor <= r) ->
    floor <= scan_rows ws (py_range 1 (n + 1)) limit' rows amr streak.
Proof.
  induction rows as [|r rows IH]; intros amr streak Hamr Hrows; simpl; [exact Hamr|].
  assert (Hrest : forall r', In r' rows -> floor <= r')
    by (intros r' Hr'; apply Hrows; right; exact Hr').
  destruct (row_has_data ws r (py_range 1 (n + 1))).
  - apply IH; [apply Hrows; left; reflexivity | exact Hrest].
  - destruct (limit' <=? streak + 1); [exact Hamr | apply IH; assumption].
Qed.

(** A larger limit never ends the table earlier. *)
Lemma scan_rows_le (limit' : Z) (k : nat) :
  limit <= limit' ->
  forall a b amr streak,
    Z.of_nat k = b - a -> amr < a ->
    scan_rows ws (py_range 1 (n + 1)) limit (py_range a b) amr streak <=
    scan_rows ws (py_range 1 (n + 1)) limit' (py_range a b) amr streak.
Proof.
  intros Hle. induction k as [|k IH]; intros a b amr streak Hk Hamr.
  - rewrite (py_range_nil a b) by lia. simpl. lia.
  - rewrite (py_range_cons a b) by lia. rewrite !scan_rows_cons.
    destruct (row_has_data ws a (py_range 1 (n + 1))).
    + apply IH; lia.
    + destruct (limit <=? streak + 1) eqn:E; destruct (limit' <=? streak + 1) eqn:E'.
      * lia.
      * apply scan_rows_floor; [lia|].
        intros r Hr. apply In_py_range in Hr. lia.
      * apply Z.leb_le in E'. apply Z.leb_gt in E. lia.
      * apply IH; lia.
Qed.

End ScanFacts.

Lemma effective_limit_range (empty_streak_limit : Z) :
  1 <= Vocabulary.effective_limit empty_streak_limit <= 10.
Proof.
  unfold Vocabulary.effective_limit.
  destruct (1 <=? empty_streak_limit) eqn:E1;
    destruct (empty_streak_limit <=? 10) eqn:E2; simpl; lia.
Qed.

(** X9. What [calculate_table_dimension] returns: the column count is the
    number of headers; the row lies between the header row and 1000 rows
    below it; unless it is the header row itself it holds data in the
    table's columns; and the rows after it are blank there, as many as the
    limit asks for (2 when the given limit is outside 1..10) or as the
    1000-row window still holds. *)
Theorem calculate_table_dimension_result
        (ws : worksheet) (t : table) (empty_streak_limit : Z) :
  let '(actual_max_row, max_col) :=
    Dimension.calculate_table_dimension ws t empty_streak_limit in
  max_col = len (headers t) /\
  start_row t <= actual_max_row <= start_row t + 1000 /\
  (actual_max_row = start_row t \/
   Dimension.row_nonblank ws actual_max_row (len (headers t))) /\
  (forall j, 1 <= j <= Vocabulary.effective_limit empty_streak_limit ->
             actual_max_row + j <= start_row t + 1000 ->
             Dimension.row_blank ws (actual_max_row + j) (len (headers t))).
Proof.
  unfold Dimension.calculate_table_dimension, Dimension.max_scan_rows.
  fold (Vocabulary.effective_limit empty_streak_limit).
  pose proof (effective_limit_range empty_streak_limit) as Hl.
  destruct (scan_rows_result ws (len (headers t))
              (Vocabulary.effective_limit empty_streak_limit) 1000
              (start_row t + 1) (start_row t + 1 + 1000) (start_row t) 0)
    as (H1 & H2 & H3); try lia.
  cbv zeta in H1, H2, H3.
  split; [reflexivity|]. split; [lia|]. split; [exact H2|].
  intros j Hj Hb. apply H3; lia.
Qed.

(** X10. A more tolerant limit never shortens the table: for limits
    between 1 and 10, the larger one gives a last data row at least as far
    down. *)
Theorem calculate_table_dimension_monotone
        (ws : worksheet) (t : table) (limit1 limit2 : Z) :
  1 <= limit1 -> limit1 <= limit2 -> limit2 <= 10 ->
  fst (Dimension.calculate_table_dimension ws t limit1) <=
  fst (Dimension.calculate_table_dimension ws t limit2).
Proof.
  intros H1 H12 H2.
  unfold Dimension.calculate_table_dimension, Dimension.max_scan_rows. simpl fst.
  replace ((1 <=? limit1) && (limit1 <=? 10)) with true
    by (symmetry; apply andb_true_iff; split; apply Z.leb_le; lia).
  replace ((1 <=? limit2) && (limit2 <=? 10)) with true
    by (symmetry; apply andb_true_iff; split; apply Z.leb_le; lia).
  apply (scan_rows_le ws (len (headers t)) limit1 limit2 1000); lia.
Qed.

Lemma calculate_table_dimension_monotone_witness :
  fst (Dimension.calculate_table_dimension small_sheet small_table 1) <=
  fst (Dimension.calculate_table_dimension small_sheet small_table 3).
Proof. apply calculate_table_dimension_monotone; lia. Defined.

Lemma calculate_table_dimension_result_witness :
  3 = len (headers small_table) /\
  start_row small_table <= 3 <= start_row small_table + 1000 /\
  (3 = start_row small_table \/
   Dimension.row_nonblank small_sheet 3 (len (headers small_table))) /\
  (forall j, 1 <= j <= Vocabulary.effective_limit 2 ->
             3 + j <= start_row small_table + 1000 ->
             Dimension.row_blank small_sheet (3 + j) (len (headers small_table))).
Proof. exact (calculate_table_dimension_result small_sheet small_table 2). Defined.

(** The extent lies within the window of 1000 rows below the header. *)
Lemma dimension_bounds (ws : worksheet) (t : table) (empty_streak_limit : Z) :
  snd (Dimension.calculate_table_dimension ws t empty_streak_limit) =
  len (headers t) /\
  start_row t <= fst (Dimension.calculate_table_dimension ws t empty_streak_limit)
  <= start_row t + 1000.
Proof.
  unfold Dimension.calculate_table_dimension, Dimension.max_scan_rows.
  cbn [fst snd].
  fold (Vocabulary.effective_limit empty_streak_limit).
  pose proof (effective_limit_range empty_streak_limit) as Hl.
  pose proof (scan_rows_result ws (len (headers t))
                (Vocabulary.effective_limit empty_streak_limit) 1000
                (start_row t + 1) (start_row t + 1 + 1000) (start_row t) 0)
    as H.
  cbv zeta in H. split; [reflexivity|].
  assert (Hb : forall r, start_row t < r < start_row t + 1 ->
                         Dimension.row_blank ws r (len (headers t)))
    by (intros r Hr; lia).
  destruct (H ltac:(lia) ltac:(lia) ltac:(lia) ltac:(lia) Hb) as (H1 & _ & _).
  lia.
Qed.

Section ClearFacts.

Import Dimension DataAccess Vocabulary.

Lemma blanked_twice (r : result value) : blanked (blanked r) = blanked r.
Proof. destruct r; reflexivity. Qed.

Lemma clear_cell_cell (ws : worksheet) (row_num col_num r c : Z) :
  cell (clear_cell ws row_num col_num) r c =
  if (r =? row_num) && (c =? col_num) then blanked (cell ws r c) else cell ws r c.
Proof.
  unfold clear_cell, write_cell.
  destruct ((r =? row_num) && (c =? col_num)) eqn:E.
  - apply andb_true_iff in E. destruct E as [Er Ec].
    apply Z.eqb_eq in Er. apply Z.eqb_eq in Ec. subst.
    destruct (cell ws row_num col_num) eqn:Hc; simpl.
    + rewrite !Z.eqb_refl. reflexivity.
    + rewrite Hc. reflexivity.
  - destruct (cell ws row_num col_num); simpl; [rewrite E|]; reflexivity.
Qed.

Lemma clear_row_cell (row_num : Z) (cols : list Z) :
  forall ws r c,
    cell (clear_row ws row_num cols) r c =
    if (r =? row_num) && Z_in c cols then blanked (cell ws r c) else cell ws r c.
Proof.
  unfold clear_row.
  induction cols as [|col cols IH]; intros ws r c; simpl.
  - rewrite andb_false_r. reflexivity.
  - rewrite IH, clear_cell_cell.
    destruct (r =? row_num); simpl; [|reflexivity].
    destruct (c =? col); simpl.
    + destruct (Z_in c cols); [apply blanked_twice | reflexivity].
    + reflexivity.
Qed.

Lemma clear_rows_cell (rows cols : list Z) :
  forall ws r c,
    cell (clear_rows ws rows cols) r c =
    if Z_in r rows && Z_in c cols then blanked (cell ws r c) else cell ws r c.
Proof.
  unfold clear_rows.
  induction rows as [|row rows IH]; intros ws r c; simpl; [reflexivity|].
  rewrite IH, clear_row_cell.
  destruct (r =? row); simpl.
  - destruct (Z_in c cols); simpl.
    + destruct (Z_in r rows); [apply blanked_twice | reflexivity].
    + rewrite andb_false_r. reflexivity.
  - reflexivity.
Qed.

Lemma Z_in_range (x a b : Z) : Z_in x (py_range a b) = (a <=? x) && (x <? b).
Proof.
  unfold Z_in. destruct (existsb (Z.eqb x) (py_range a b)) eqn:E.
  - apply existsb_exists in E. destruct E as (y & Hy & Exy).
    apply Z.eqb_eq in Exy. subst y. apply In_py_range in Hy.
    symmetry. apply andb_true_iff. split; [apply Z.leb_le | apply Z.ltb_lt]; lia.
  - destruct ((a <=? x) && (x <? b)) eqn:E'; [|reflexivity].
    apply andb_true_iff in E'. destruct E' as [H1 H2].
    apply Z.leb_le in H1. apply Z.ltb_lt in H2.
    assert (Ht : existsb (Z.eqb x) (py_range a b) = true).
    { apply existsb_exists. exists x. split; [apply In_py_range; lia | apply Z.eqb_refl]. }
    congruence.
Qed.

(** Rows of the sheet [ws'] that agree with [ws] read the same. *)
Lemma row_has_data_ext (ws ws' : worksheet) (row_num : Z) (cols : list Z) :
  (forall c, In c cols -> cell ws' row_num c = cell ws row_num c) ->
  row_has_data ws' row_num cols = row_has_data ws row_num cols.
Proof.
  induction cols as [|c cols IH]; intros H; simpl; [reflexivity|].
  rewrite (H c) by (left; reflexivity).
  rewrite IH by (intros c' Hc'; apply H; right; exact Hc'). reflexivity.
Qed.

Lemma row_has_data_blanked (ws ws' : worksheet) (row_num : Z) (cols : list Z) :
  (forall c, In c cols -> cell ws' row_num c = blanked (cell ws row_num c)) ->
  row_has_data ws' row_num cols = false.
Proof.
  induction cols as [|c cols IH]; intros H; simpl; [reflexivity|].
  rewrite (H c) by (left; reflexivity).
  rewrite IH by (intros c' Hc'; apply H; right; exact Hc').
  destruct (cell ws row_num c); reflexivity.
Qed.

(** On a sheet whose rows up to the old result are blank and whose later
    rows are as before, the scan finds no data. *)
Lemma scan_rows_after_clear (ws ws' : worksheet) (n limit : Z) (k : nat) :
  forall a b amr streak amr' streak',
    Z.of_nat k = b - a -> 0 <= streak <= streak' ->
    (forall r, a <= r < b ->
               row_has_data ws' r (py_range 1 (n + 1)) =
               row_has_data ws r (py_range 1 (n + 1))
               && (scan_rows ws (py_range 1 (n + 1)) limit (py_range a b) amr streak
                   <? r)) ->
    scan_rows ws' (py_range 1 (n + 1)) limit (py_range a b) amr' streak' = amr'.
Proof.
  induction k as [|k IH]; intros a b amr streak amr' streak' Hk Hs Hrows.
  - rewrite (py_range_nil a b) by lia. reflexivity.
  - pose proof (Hrows a ltac:(lia)) as Ha.
    rewrite (py_range_cons a b) in Hrows, Ha by lia.
    rewrite (py_range_cons a b) by lia.
    rewrite scan_rows_cons. rewrite scan_rows_cons in Ha.
    destruct (row_has_data ws a (py_range 1 (n + 1))) eqn:Ea.
    + assert (Hge : a <= scan_rows ws (py_range 1 (n + 1)) limit
                                   (py_range (a + 1) b) a 0).
      { apply scan_rows_floor; [lia|].
        intros r Hr. apply In_py_range in Hr. lia. }
      replace (_ <? a) with false in Ha by (symmetry; apply Z.ltb_ge; exact Hge).
      rewrite Ha. simpl.
      destruct (limit <=? streak' + 1); [reflexivity|].
      apply (IH (a + 1) b a 0 amr' (streak' + 1)); try lia.
      intros r Hr. rewrite (Hrows r) by lia.
      rewrite scan_rows_cons, Ea. reflexivity.
    + rewrite Ha. simpl.
      destruct (limit <=? streak' + 1) eqn:E'; [reflexivity|].
      apply Z.leb_gt in E'.
      apply (IH (a + 1) b amr (streak + 1) amr' (streak' + 1)); try lia.
      intros r Hr. rewrite (Hrows r) by lia.
      rewrite scan_rows_cons, Ea.
      replace (limit <=? streak + 1) with false by (symmetry; apply Z.leb_gt; lia).
      reflexivity.
Qed.

End ClearFacts.

(** X11. [clear_table_data_area_dynamic] reports success and leaves a table
    without data: computing the table's extent again gives the header row.
    It empties exactly the cells of the table's columns in the rows from
    below the header to the last data row (those it cannot reach stay as
    they are) and touches no other cell. *)
Theorem clear_table_data_area_dynamic_empties
        (ws : worksheet) (t : table) (empty_streak_limit : Z) :
  let '(success, ws') :=
    DataAccess.clear_table_data_area_dynamic ws t empty_streak_limit in
  let actual_max_row :=
    fst (Dimension.calculate_table_dimension ws t empty_streak_limit) in
  success = true /\
  Dimension.calculate_table_dimension ws' t empty_streak_limit =
  (start_row t, len (headers t)) /\
  (forall r c,
     cell ws' r c =
     if (start_row t <? r) && (r <=? actual_max_row)
        && (1 <=? c) && (c <=? len (headers t))
     then Vocabulary.blanked (cell ws r c) else cell ws r c).
Proof.
  unfold DataAccess.clear_table_data_area_dynamic.
  pose proof (dimension_bounds ws t empty_streak_limit) as Hres.
  destruct (Dimension.calculate_table_dimension ws t empty_streak_limit)
    as [actual_max_row max_col] eqn:Ecalc.
  simpl in Hres. destruct Hres as (-> & Hrange). simpl fst.
  set (ws' := if actual_max_row - (start_row t + 1) + 1 <=? 0 then ws
              else DataAccess.clear_rows
                     ws (py_range (start_row t + 1) (actual_max_row + 1))
                     (py_range 1 (len (headers t) + 1))).
  assert (Hcell : forall r c,
             cell ws' r c =
             if (start_row t <? r) && (r <=? actual_max_row)
                && (1 <=? c) && (c <=? len (headers t))
             then Vocabulary.blanked (cell ws r c) else cell ws r c).
  { intros r c. subst ws'.
    destruct (actual_max_row - (start_row t + 1) + 1 <=? 0) eqn:E.
    - apply Z.leb_le in E.
      replace ((start_row t <? r) && (r <=? actual_max_row)) with false;
        [reflexivity|].
      symmetry. apply andb_false_iff.
      destruct (start_row t <? r) eqn:E1; [right|left; reflexivity].
      apply Z.ltb_lt in E1. apply Z.leb_gt. lia.
    - rewrite clear_rows_cell, !Z_in_range.
      replace ((start_row t + 1 <=? r) && (r <? actual_max_row + 1))
        with ((start_row t <? r) && (r <=? actual_max_row)).
      + replace ((1 <=? c) && (c <? len (headers t) + 1))
          with ((1 <=? c) && (c <=? len (headers t))).
        * rewrite andb_assoc. reflexivity.
        * f_equal. destruct (c <=? len (headers t)) eqn:E1.
          -- apply Z.leb_le in E1. symmetry. apply Z.ltb_lt. lia.
          -- apply Z.leb_gt in E1. symmetry. apply Z.ltb_ge. lia.
      + f_equal.
        * destruct (start_row t <? r) eqn:E1.
          -- apply Z.ltb_lt in E1. symmetry. apply Z.leb_le. lia.
          -- apply Z.ltb_ge in E1. symmetry. apply Z.leb_gt. lia.
        * destruct (r <=? actual_max_row) eqn:E1.
          -- apply Z.leb_le in E1. symmetry. apply Z.ltb_lt. lia.
          -- apply Z.leb_gt in E1. symmetry. apply Z.ltb_ge. lia. }
  assert (Hgoal : Dimension.calculate_table_dimension ws' t empty_streak_limit =
                  (start_row t, len (headers t))).
  { unfold Dimension.calculate_table_dimension, Dimension.max_scan_rows in *.
    injection Ecalc as Escan. f_equal.
    fold (Vocabulary.effective_limit empty_streak_limit) in *.
    pose proof (effective_limit_range empty_streak_limit) as Hl.
    apply (scan_rows_after_clear ws ws' (len (headers t)) _ 1000
             (start_row t + 1) (start_row t + 1 + 1000) (start_row t) 0);
      try lia.
    intros r Hr. rewrite Escan.
    destruct (r <=? actual_max_row) eqn:E.
    - apply Z.leb_le in E.
      replace (actual_max_row <? r) with false by (symmetry; apply Z.ltb_ge; lia).
      rewrite andb_false_r.
      apply (row_has_data_blanked ws). intros c Hc. apply In_py_range in Hc.
      rewrite Hcell.
      replace (start_row t <? r) with true by (symmetry; apply Z.ltb_lt; lia).
      replace (r <=? actual_max_row) with true by (symmetry; apply Z.leb_le; lia).
      replace (1 <=? c) with true by (symmetry; apply Z.leb_le; lia).
      replace (c <=? len (headers t)) with true by (symmetry; apply Z.leb_le; lia).
      reflexivity.
    - apply Z.leb_gt in E.
      replace (actual_max_row <? r) with true by (symmetry; apply Z.ltb_lt; lia).
      rewrite andb_true_r.
      apply row_has_data_ext. intros c Hc. rewrite Hcell.
      replace (r <=? actual_max_row) with false by (symmetry; apply Z.leb_gt; lia).
      rewrite andb_false_r. reflexivity. }
  destruct (actual_max_row - (start_row t + 1) + 1 <=? 0); subst ws';
    repeat split; assumption.
Qed.

(** ** Reading table data *)

Section ReadFacts.

Import Detection Dimension DataAccess.


Lemma read_row_inv (ws : worksheet) (row : Z) (cols : list Z) :
  forall row_data empty_count,
    read_row ws row cols = (row_data, empty_count) ->
    len row_data = len cols /\
    empty_count = len (filter (fun v => negb (has_data v)) row_data).
Proof.
  unfold len. induction cols as [|c cols IH]; simpl; intros row_data empty_count H.
  - injection H as <- <-. auto.
  - destruct (read_row ws row cols) as [rest e].
    destruct (IH rest e eq_refl) as [Hlen He].
    destruct (cell ws row c) as [v|].
    + destruct (has_data v) eqn:Hv; injection H as <- <-; simpl; rewrite ?Hv; simpl;
        split; lia.
    + injection H as <- <-. simpl. split; lia.
Qed.

Lemma mostly_filled_true (empty_count header_count : Z) :
  mostly_filled empty_count header_count = true -> 2 * empty_count < header_count.
Proof.
  unfold mostly_filled, Qltb. intros H. apply negb_true_iff in H.
  destruct (Z_lt_le_dec (2 * empty_count) header_count) as [Hlt|Hge]; [exact Hlt|].
  exfalso.
  assert (Hq : Qle_bool (inject_Z header_count / 2) (inject_Z empty_count) = true).
  { apply Qle_bool_iff. unfold Qle, Qdiv, Qmult, Qinv, inject_Z. simpl. lia. }
  congruence.
Qed.

End ReadFacts.


(** X13. [get_actual_data_from_table] returns at most 1000 rows; each has
    exactly one entry per header, and fewer than half as many blank entries
    as the table has headers. *)
Theorem get_actual_data_from_table_rows
        (fs : Detection.filesystem) (t : table) (source_file : string)
        (empty_streak_limit : Z) :
  let data_rows :=
    DataAccess.get_actual_data_from_table fs t source_file empty_streak_limit in
  len data_rows <= 1000 /\
  (forall row_data, In row_data data_rows ->
     len row_data = len (headers t) /\
     2 * len (filter (fun v => negb (has_data v)) row_data) < len (headers t)).
Proof.
  unfold DataAccess.get_actual_data_from_table. cbv zeta.
  destruct (fs source_file) as [| |worksheets];
    try (split; [unfold len; simpl; lia | intros row []]).
  destruct (DataAccess.sheet_named worksheets (sheet t)) as [ws|];
    [|split; [unfold len; simpl; lia | intros row []]].
  pose proof (dimension_bounds ws t empty_streak_limit) as Hb.
  destruct (Dimension.calculate_table_dimension ws t empty_streak_limit)
    as [actual_max_row table_col_count].
  simpl in Hb. destruct Hb as [-> Hrange].
  split.
  - assert (Hlen : forall rows,
               len (flat_map
                      (fun row =>
                         let (row_data, empty_count) :=
                           DataAccess.read_row ws row (py_range 1 (len (headers t) + 1)) in
                         if DataAccess.mostly_filled empty_count (len (headers t))
                         then [row_data] else []) rows) <= len rows).
    { unfold len. induction rows as [|r rows IH]; simpl; [lia|].
      rewrite length_app.
      destruct (DataAccess.read_row ws r (py_range 1 (Z.of_nat (length (headers t)) + 1)))
        as [row_data e].
      destruct (DataAccess.mostly_filled e (Z.of_nat (length (headers t)))); simpl; lia. }
    specialize (Hlen (py_range (start_row t + 1) (actual_max_row + 1))).
    rewrite len_py_range in Hlen. lia.
  - intros row_data Hin. apply in_flat_map in Hin. destruct Hin as (r & _ & Hin).
    destruct (DataAccess.read_row ws r (py_range 1 (len (headers t) + 1)))
      as [row_data' e] eqn:Er.
    destruct (DataAccess.mostly_filled e (len (headers t))) eqn:Em; [|destruct Hin].
    destruct Hin as [<-|[]].
    apply read_row_inv in Er. destruct Er as [Hlen He].
    rewrite len_py_range in Hlen. apply mostly_filled_true in Em.
    unfold len in *. split; lia.
Qed.

(** ** Similarity matching *)

Section SimilarityFacts.

Import Similarity.
Local Open Scope Q_scope.

Lemma ratio_range (a b : Z) :
  (0 <= a)%Z -> (a <= b)%Z -> (0 < b)%Z ->
  0 <= inject_Z a / inject_Z b /\ inject_Z a / inject_Z b <= 1.
Proof.
  intros Ha Hab Hb.
  assert (Hbq : 0 < inject_Z b)
    by (change (inject_Z 0 < inject_Z b); rewrite <- Zlt_Qlt; exact Hb).
  split.
  - apply Qle_shift_div_l; [exact Hbq|].
    rewrite Qmult_0_l. change (inject_Z 0 <= inject_Z a).
    rewrite <- Zle_Qle. exact Ha.
  - apply Qle_shift_div_r; [exact Hbq|].
    rewrite Qmult_1_l. rewrite <- Zle_Qle. exact Hab.
Qed.

Lemma intersection_length_le (l1 l2 : list string) :
  (length (intersection l1 l2) <= length l1)%nat.
Proof. unfold intersection. apply filter_length_le. Qed.

Lemma word_in_true (w : string) (l : list string) : word_in w l = true <-> In w l.
Proof.
  unfold word_in. destruct (in_dec string_dec w l); split; auto; discriminate.
Qed.

Lemma intersection_length_sym (l1 l2 : list string) :
  NoDup l1 -> NoDup l2 ->
  length (intersection l1 l2) = length (intersection l2 l1).
Proof.
  intros H1 H2. apply Permutation.Permutation_length.
  apply Permutation.NoDup_Permutation.
  - apply NoDup_filter. exact H1.
  - apply NoDup_filter. exact H2.
  - intros w. unfold intersection. rewrite !filter_In, !word_in_true. tauto.
Qed.

End SimilarityFacts.

Lemma similarity_bounds (header1 header2 : string) :
  (0 <= Similarity.simple_similarity_match header1 header2)%Q /\
  (Similarity.simple_similarity_match header1 header2 <= 1)%Q.
Proof.
  unfold Similarity.simple_similarity_match.
  destruct (String.eqb _ _); [split; discriminate|].
  destruct (_ || _); [split; discriminate|].
  set (w1 := Similarity.word_set _). set (w2 := Similarity.word_set _).
  pose proof (intersection_length_le w1 w2) as Hle.
  destruct (Similarity.intersection w1 w2) as [|c cs]; [split; discriminate|].
  apply ratio_range; unfold len; simpl length in *; lia.
Qed.

(** X14. [simple_similarity_match] is a score between 0 and 1 that does
    not depend on the order of its two arguments. *)
Theorem simple_similarity_match_symmetric_bounded (header1 header2 : string) :
  (0 <= Similarity.simple_similarity_match header1 header2)%Q /\
  (Similarity.simple_similarity_match header1 header2 <= 1)%Q /\
  Similarity.simple_similarity_match header1 header2 =
  Similarity.simple_similarity_match header2 header1.
Proof.
  destruct (similarity_bounds header1 header2) as [H0 H1].
  split; [exact H0|]. split; [exact H1|]. clear H0 H1.
  unfold Similarity.simple_similarity_match.
  set (h1 := strip (Similarity.lower header1)).
  set (h2 := strip (Similarity.lower header2)).
  rewrite (String.eqb_sym h2 h1).
  rewrite (orb_comm (Similarity.is_substring h2 h1)).
  destruct (String.eqb h1 h2); [reflexivity|].
  destruct (Similarity.is_substring h1 h2 || Similarity.is_substring h2 h1);
    [reflexivity|].
  set (w1 := Similarity.word_set (Similarity.py_split h1)).
  set (w2 := Similarity.word_set (Similarity.py_split h2)).
  assert (N1 : NoDup w1) by apply NoDup_nodup.
  assert (N2 : NoDup w2) by apply NoDup_nodup.
  pose proof (intersection_length_sym w1 w2 N1 N2) as Hsym.
  assert (Hlen : len (Similarity.intersection w1 w2) =
                 len (Similarity.intersection w2 w1))
    by (unfold len; rewrite Hsym; reflexivity).
  destruct (Similarity.intersection w1 w2) as [|c cs] eqn:E12;
    destruct (Similarity.intersection w2 w1) as [|d ds] eqn:E21;
    try discriminate Hsym; [reflexivity|].
  rewrite Hlen, (Z.max_comm (len w2)). reflexivity.
Qed.

Section EnhancedFacts.

Import Similarity Detection.
Local Open Scope Q_scope.

Lemma Qltb_true (x y : Q) : Qltb x y = true <-> x < y.
Proof.
  unfold Qltb. rewrite negb_true_iff. split.
  - intros H. apply Qnot_le_lt. intros Hle. apply Qle_bool_iff in Hle. congruence.
  - intros H. destruct (Qle_bool y x) eqn:E; [|reflexivity].
    apply Qle_bool_iff in E. exfalso. exact (Qlt_not_le _ _ H E).
Qed.

Lemma Qltb_false (x y : Q) : Qltb x y = false <-> y <= x.
Proof.
  unfold Qltb. rewrite negb_false_iff. apply Qle_bool_iff.
Qed.

Variable threshold : Q.
Variable prev_header : string.

Lemma best_candidate_inv (curr_headers : list string) :
  forall best score best' score',
    best_candidate threshold prev_header curr_headers best score = (best', score') ->
    (best' = best /\ score' = score) \/
    (exists c, best' = Some c /\ In c curr_headers /\
               score' = simple_similarity_match prev_header c /\
               threshold <= score' /\ score < score').
Proof.
  induction curr_headers as [|c rest IH]; simpl; intros best score best' score' H.
  - injection H as <- <-. auto.
  - destruct (Qle_bool threshold (simple_similarity_match prev_header c)
              && Qltb score (simple_similarity_match prev_header c)) eqn:E.
    + apply andb_true_iff in E. destruct E as [E1 E2].
      apply Qle_bool_iff in E1. apply Qltb_true in E2.
      right. destruct (IH _ _ _ _ H) as [[-> ->]|(c' & -> & Hin & -> & Ht & Hs)].
      * exists c. auto 10.
      * exists c'. repeat split; auto.
        apply Qlt_trans with (simple_similarity_match prev_header c); assumption.
    + destruct (IH _ _ _ _ H) as [?|(c' & -> & Hin & -> & Ht & Hs)]; [auto|].
      right. exists c'. auto 10.
Qed.

Lemma best_candidate_max (curr_headers : list string) :
  forall best score best' score',
    best_candidate threshold prev_header curr_headers best score = (best', score') ->
    score <= score' /\
    (forall c, In c curr_headers ->
               threshold <= simple_similarity_match prev_header c ->
               simple_similarity_match prev_header c <= score').
Proof.
  induction curr_headers as [|c rest IH]; simpl; intros best score best' score' H.
  - injection H as <- <-. split; [apply Qle_refl | intros c []].
  - destruct (Qle_bool threshold (simple_similarity_match prev_header c)) eqn:E1;
      destruct (Qltb score (simple_similarity_match prev_header c)) eqn:E2;
      simpl in H; destruct (IH _ _ _ _ H) as [Hs Hrest].
    + apply Qltb_true in E2. split.
      * apply Qle_trans with (simple_similarity_match prev_header c);
          [apply Qlt_le_weak; exact E2 | exact Hs].
      * intros c' [<-|Hin] Ht; [exact Hs | apply Hrest; assumption].
    + apply Qltb_false in E2. split; [exact Hs|].
      intros c' [<-|Hin] Ht; [|apply Hrest; assumption].
      apply Qle_trans with score; assumption.
    + split; [exact Hs|]. intros c' [<-|Hin] Ht; [|apply Hrest; assumption].
      exfalso. apply Qle_bool_iff in Ht. congruence.
    + split; [exact Hs|]. intros c' [<-|Hin] Ht; [|apply Hrest; assumption].
      exfalso. apply Qle_bool_iff in Ht. congruence.
Qed.

End EnhancedFacts.

Lemma enhanced_match_inv (threshold : Q) (p s : table) (h : string) (m : header_match) :
  In m (Similarity.enhanced_match threshold p s h) ->
  from_table m = Some p /\ to_table m = s /\ from_header m = h /\
  In (to_header m) (headers s) /\ truthy (to_header m) = true /\
  match_confidence m = Similarity.simple_similarity_match h (to_header m) /\
  (threshold <= match_confidence m)%Q /\ (0 < match_confidence m)%Q.
Proof.
  unfold Similarity.enhanced_match.
  destruct (Similarity.best_candidate threshold h (headers s) None 0.0)
    as [[best|] score] eqn:E; [|intros []].
  destruct (truthy best) eqn:Ht; [|intros []].
  intros [<-|[]]. simpl.
  apply best_candidate_inv in E.
  destruct E as [[H _]|(c & [= ->] & Hin & -> & Hth & Hpos)]; [discriminate|].
  repeat split; auto.
  apply Qle_lt_trans with 0.0%Q; [discriminate | exact Hpos].
Qed.

(** X16. Every match of [enhanced_match_headers] goes from a header of a
    previous table to a non-empty header of a table found in the current
    file, its confidence is the similarity score of the two headers, and
    that score is at least the threshold, above 0 and at most 1. *)
Theorem enhanced_match_headers_sound
        (range_boundaries : string -> result (Z * Z * Z * Z))
        (fs : Detection.filesystem) (previous_tables : list table)
        (current_file_path : string) (threshold : Q) (m : header_match) :
  In m (Similarity.enhanced_match_headers range_boundaries fs previous_tables
                                          current_file_path threshold) ->
  exists p s,
    In p previous_tables /\
    In s (Detection.find_tables range_boundaries fs current_file_path) /\
    from_table m = Some p /\ to_table m = s /\
    In (from_header m) (headers p) /\ In (to_header m) (headers s) /\
    truthy (to_header m) = true /\
    match_confidence m =
    Similarity.simple_similarity_match (from_header m) (to_header m) /\
    (threshold <= match_confidence m)%Q /\
    (0 < match_confidence m)%Q /\ (match_confidence m <= 1)%Q.
Proof.
  unfold Similarity.enhanced_match_headers, Similarity.enhanced_match_tables.
  intros H. apply in_flat_map in H. destruct H as (p & Hp & H).
  apply in_flat_map in H. destruct H as (s & Hs & H).
  apply in_flat_map in H. destruct H as (h & Hh & H).
  apply enhanced_match_inv in H.
  destruct H as (H1 & H2 & H3 & H4 & H5 & H6 & H7 & H8).
  exists p, s. subst h. repeat split; auto.
  rewrite H6.
  destruct (similarity_bounds (from_header m) (to_header m)) as (_ & Hle).
  exact Hle.
Qed.

Section BlankFacts.

Import Similarity.

Lemma is_substring_empty (s : string) : is_substring EmptyString s = true.
Proof. destruct s; reflexivity. Qed.

Lemma similarity_same (h : string) : simple_similarity_match h h = 1.0%Q.
Proof. unfold simple_similarity_match. rewrite String.eqb_refl. reflexivity. Qed.

Lemma similarity_with_blank (blank h : string) :
  strip (lower blank) = EmptyString -> truthy (strip (lower h)) = true ->
  simple_similarity_match blank h = 0.8%Q /\
  simple_similarity_match h blank = 0.8%Q.
Proof.
  intros Hb Hh. unfold simple_similarity_match. rewrite Hb.
  destruct (strip (lower h)) as [|c s] eqn:E; [discriminate|].
  simpl String.eqb. rewrite is_substring_empty, orb_true_r. simpl. auto.
Qed.

Lemma truthy_of_stripped (h : string) :
  truthy (strip (lower h)) = true -> truthy h = true.
Proof. destruct h; [discriminate | reflexivity]. Qed.

Lemma best_candidate_settled (threshold : Q) (blank : string) (rest : list string)
      (c : string) :
  strip (lower blank) = EmptyString ->
  (forall x, In x rest -> truthy (strip (lower x)) = true) ->
  best_candidate threshold blank rest (Some c) 0.8%Q = (Some c, 0.8%Q).
Proof.
  intros Hb. induction rest as [|x rest IH]; intros Hrest; simpl; [reflexivity|].
  destruct (similarity_with_blank blank x Hb (Hrest x (or_introl eq_refl))) as [-> _].
  change (Detection.Qltb 0.8%Q 0.8%Q) with false. rewrite andb_false_r.
  apply IH. intros y Hy. apply Hrest. right. exact Hy.
Qed.

End BlankFacts.

(** X15. A blank header of a previous table does get matched: when the
    threshold is at most 0.8 and the current table's headers are all
    non-blank, [enhanced_match_headers] pairs the blank header with the
    first header of the current table, with confidence 0.8, because the
    empty string is contained in every string. *)
Theorem enhanced_match_blank_header
        (threshold : Q) (p s : table) (blank first : string) (rest : list string) :
  (threshold <= 0.8)%Q ->
  strip (Similarity.lower blank) = EmptyString ->
  headers s = first :: rest ->
  (forall x, In x (first :: rest) -> truthy (strip (Similarity.lower x)) = true) ->
  Similarity.enhanced_match threshold p s blank =
  [ {| from_table := Some p;
       to_table := s;
       from_header := blank;
       to_header := first;
       match_confidence := 0.8%Q;
       from_sheet := None;
       from_row := None;
       from_col := None |} ].
Proof.
  intros Hth Hb Hs Hall. unfold Similarity.enhanced_match. rewrite Hs.
  simpl Similarity.best_candidate.
  destruct (similarity_with_blank blank first Hb (Hall first (or_introl eq_refl)))
    as [-> _].
  replace (Qle_bool threshold 0.8%Q) with true
    by (symmetry; apply Qle_bool_iff; exact Hth).
  change (Detection.Qltb 0.0%Q 0.8%Q) with true. simpl andb. cbv iota.
  rewrite (best_candidate_settled threshold blank rest first Hb)
    by (intros x Hx; apply Hall; right; exact Hx).
  rewrite (truthy_of_stripped first (Hall first (or_introl eq_refl))).
  reflexivity.
Qed.

Lemma enhanced_match_blank_header_witness :
  Similarity.enhanced_match 0.7%Q small_table revenue_table " " =
  [ {| from_table := Some small_table;
       to_table := revenue_table;
       from_header := " ";
       to_header := "Name";
       match_confidence := 0.8%Q;
       from_sheet := None;
       from_row := None;
       from_col := None |} ].
Proof.
  apply (enhanced_match_blank_header 0.7%Q small_table revenue_table " " "Name"
                                     ["Revenue"]).
  - discriminate.
  - reflexivity.
  - reflexivity.
  - intros x [<-|[<-|[]]]; reflexivity.
Defined.

(** X17. Similarity matching finds what exact matching finds: for a
    threshold of at most 1, a non-blank header that occurs in a previous
    table and in a table of the current file gets a match from the previous
    table to the current one with confidence equal to 1. *)
Theorem enhanced_match_headers_complete
        (range_boundaries : string -> result (Z * Z * Z * Z))
        (fs : Detection.filesystem) (previous_tables : list table)
        (current_file_path : string) (threshold : Q)
        (p s : table) (h : string) :
  (threshold <= 1)%Q ->
  In p previous_tables ->
  In s (Detection.find_tables range_boundaries fs current_file_path) ->
  In h (headers p) -> In h (headers s) ->
  truthy (strip (Similarity.lower h)) = true ->
  exists m,
    In m (Similarity.enhanced_match_headers range_boundaries fs previous_tables
                                            current_file_path threshold) /\
    from_table m = Some p /\ to_table m = s /\ from_header m = h /\
    In (to_header m) (headers s) /\
    (match_confidence m == 1)%Q.
Proof.
  intros Hth Hp Hs Hhp Hhs Hne.
  assert (Hm : exists m,
             In m (Similarity.enhanced_match threshold p s h) /\
             from_table m = Some p /\ to_table m = s /\ from_header m = h /\
             In (to_header m) (headers s) /\ (match_confidence m == 1)%Q).
  { unfold Similarity.enhanced_match.
    destruct (Similarity.best_candidate threshold h (headers s) None 0.0)
      as [best score] eqn:E.
    pose proof (best_candidate_max threshold h (headers s) _ _ _ _ E) as [_ Hmax].
    specialize (Hmax h Hhs). rewrite similarity_same in Hmax.
    assert (H1 : (1 <= score)%Q)
      by (apply Qle_trans with 1.0%Q; [discriminate | apply Hmax];
          apply Qle_trans with 1%Q; [exact Hth | discriminate]).
    apply best_candidate_inv in E.
    destruct E as [[-> ->]|(c & -> & Hin & Hscore & _ & _)];
      [exfalso; apply H1; reflexivity|].
    assert (Hle : (score <= 1)%Q) by (rewrite Hscore; apply similarity_bounds).
    destruct (truthy c) eqn:Hc.
    - eexists. split; [left; reflexivity|]. simpl. repeat split; auto.
      apply Qle_antisym; assumption.
    - exfalso. destruct c; [|discriminate].
      destruct (similarity_with_blank EmptyString h eq_refl Hne) as [_ H08].
      rewrite H08 in Hscore. rewrite Hscore in H1. apply H1. reflexivity. }
  destruct Hm as (m & Hin & H).
  exists m. split; [|exact H].
  unfold Similarity.enhanced_match_headers, Similarity.enhanced_match_tables.
  apply in_flat_map. exists p. split; [exact Hp|].
  apply in_flat_map. exists s. split; [exact Hs|].
  apply in_flat_map. exists h. split; [exact Hhp | exact Hin].
Qed.

(** ** Marking, updating and reporting *)

Section MarkFacts.

Import Detection Tracker Marking Vocabulary.

Lemma mark_row_inv (ws : worksheet) (row_num : Z) (cols : list Z) (c : cell_info) :
  In c (fst (fst (mark_row ws row_num cols))) ->
  cell_status c = pending /\ row c = row_num /\ In (col c) cols /\
  cell ws (row c) (col c) = Returned (value c) /\ has_data (value c) = true.
Proof.
  induction cols as [|col_num cols IH]; simpl; [intros []|].
  destruct (mark_row ws row_num cols) as [[cells e] d]. simpl in IH.
  destruct (cell ws row_num col_num) as [v|] eqn:Hc.
  - destruct (has_data v) eqn:Hv; simpl.
    + intros [<-|H]; simpl; [auto 10|].
      destruct (IH H) as (H1 & H2 & H3 & H4 & H5). auto 10.
    + intros H. destruct (IH H) as (H1 & H2 & H3 & H4 & H5). auto 10.
  - simpl. intros H. destruct (IH H) as (H1 & H2 & H3 & H4 & H5). auto 10.
Qed.

Lemma mark_rows_inv (ws : worksheet) (header_count : Z) (cols rows : list Z)
      (c : cell_info) :
  forall k,
    In c (fst (mark_rows ws header_count cols rows k)) ->
    cell_status c = pending /\ In (row c) rows /\ In (col c) cols /\
    cell ws (row c) (col c) = Returned (value c) /\ has_data (value c) = true.
Proof.
  induction rows as [|r rows IH]; intros k; simpl; [intros []|].
  pose proof (mark_row_inv ws r cols c) as Hrow.
  destruct (mark_row ws r cols) as [[cells e] d]. simpl in Hrow.
  assert (Hhere : In c cells ->
            cell_status c = pending /\ In (row c) (r :: rows) /\ In (col c) cols /\
            cell ws (row c) (col c) = Returned (value c) /\
            has_data (value c) = true).
  { intros H. destruct (Hrow H) as (H1 & H2 & H3 & H4 & H5).
    repeat split; auto. left. auto. }
  assert (Hlater : forall k',
            In c (fst (mark_rows ws header_count cols rows k')) ->
            cell_status c = pending /\ In (row c) (r :: rows) /\ In (col c) cols /\
            cell ws (row c) (col c) = Returned (value c) /\
            has_data (value c) = true).
  { intros k' H. destruct (IH k' H) as (H1 & H2 & H3 & H4 & H5).
    repeat split; auto. right. auto. }
  destruct ((header_count <=? e) || negb d).
  - destruct (5 <=? k + 1); [exact Hhere|].
    specialize (Hlater (k + 1)).
    destruct (mark_rows ws header_count cols rows (k + 1)) as [more final].
    simpl in *. intros H. apply in_app_or in H. tauto.
  - specialize (Hlater 0).
    destruct (mark_rows ws header_count cols rows 0) as [more final].
    simpl in *. intros H. apply in_app_or in H. tauto.
Qed.

Lemma mark_tables_inv (ws : worksheet) (sheet_tables : list table) (c : cell_info) :
  forall k,
    In c (fst (mark_tables ws sheet_tables k)) ->
    exists t, In t sheet_tables /\
      cell_status c = pending /\
      start_row t < row c <= start_row t + 1000 /\
      1 <= col c <= len (headers t) /\
      cell ws (row c) (col c) = Returned (value c) /\ has_data (value c) = true.
Proof.
  induction sheet_tables as [|t rest IH]; intros k; simpl; [intros []|].
  pose proof (mark_rows_inv ws (len (headers t)) (py_range 1 (len (headers t) + 1))
                (py_range (start_row t + 1) (start_row t + 1 + 1000)) c k) as Ht.
  unfold mark_table.
  destruct (mark_rows ws (len (headers t)) (py_range 1 (len (headers t) + 1))
              (py_range (start_row t + 1) (start_row t + 1 + 1000)) k)
    as [cells k1].
  specialize (IH k1).
  destruct (mark_tables ws rest k1) as [more final]. simpl in *.
  intros H. apply in_app_or in H. destruct H as [H|H].
  - destruct (Ht H) as (H1 & H2 & H3 & H4 & H5).
    apply In_py_range in H2. apply In_py_range in H3.
    exists t. repeat split; auto; lia.
  - destruct (IH H) as (t' & Hin & Hrest). exists t'. auto.
Qed.

Lemma dict_set_inv (d : red_cells) (sheet_name name : string)
      (cells found : list cell_info) :
  In (name, found) (dict_set d sheet_name cells) ->
  (name = sheet_name /\ found = cells) \/ In (name, found) d.
Proof.
  induction d as [|[k v] d IH]; simpl.
  - intros [[= <- <-]|[]]. auto.
  - destruct (String.eqb k sheet_name) eqn:E.
    + apply String.eqb_eq in E. subst k.
      intros [[= <- <-]|H]; auto.
    + intros [H|H]; [auto|]. destruct (IH H); auto.
Qed.

(** The entries [mark_sheets] adds to the dictionary. *)
Lemma mark_sheets_inv (worksheets : list worksheet) (tables_info : list table)
      (names : list string) :
  forall d k name cells,
    In (name, cells) (fst (mark_sheets worksheets tables_info names d k)) ->
    In (name, cells) d \/
    (In name names /\
     exists ws, find_sheet worksheets name = Some ws /\
       forall c, In c cells ->
         exists t, In t tables_info /\ sheet t = name /\
           cell_status c = pending /\
           start_row t < row c <= start_row t + 1000 /\
           1 <= col c <= len (headers t) /\
           cell ws (row c) (col c) = Returned (value c) /\
           has_data (value c) = true).
Proof.
  induction names as [|sheet_name names IH]; intros d k name cells; simpl; [auto|].
  destruct (find_sheet worksheets sheet_name) as [ws|] eqn:Ef.
  - pose proof (fun c => mark_tables_inv ws
                  (filter (fun t => String.eqb (sheet t) sheet_name) tables_info)
                  c (k sheet_name)) as Hcells.
    destruct (mark_tables ws _ (k sheet_name)) as [marked final]. simpl in Hcells.
    intros H. apply IH in H. destruct H as [H|(Hin & H)]; [|right; split; auto].
    apply dict_set_inv in H. destruct H as [[-> ->]|H]; [|auto].
    right. split; [left; reflexivity|]. exists ws. split; [exact Ef|].
    intros c Hc. destruct (Hcells c Hc) as (t & Ht & Hrest).
    apply filter_In in Ht. destruct Ht as [Ht Hs]. apply String.eqb_eq in Hs.
    exists t. auto.
  - intros H. apply IH in H. destruct H as [H|(Hin & H)]; [auto|right; split; auto].
Qed.

End MarkFacts.

(** X18. Every cell that [mark_back_data_red] records is pending and is a
    cell holding data of a requested sheet of the workbook: it lies in the
    columns of a table of that sheet (1 to the number of headers) and in
    the 1000 rows below that table's header, and the recorded value is the
    cell's value. *)
Theorem mark_back_data_red_cells
        (fs : Detection.filesystem) (k : Marking.counters) (file_path : string)
        (back_data_worksheets : list string) (tables_info : list table)
        (sheet_name : string) (cells : list Tracker.cell_info)
        (c : Tracker.cell_info) :
  In (sheet_name, cells)
     (fst (Marking.mark_back_data_red fs k file_path back_data_worksheets
                                      tables_info)) ->
  In c cells ->
  exists worksheets ws t,
    fs file_path = Detection.Book worksheets /\
    In sheet_name back_data_worksheets /\
    Tracker.find_sheet worksheets sheet_name = Some ws /\
    In t tables_info /\ sheet t = sheet_name /\
    Tracker.cell_status c = Tracker.pending /\
    start_row t < Tracker.row c <= start_row t + 1000 /\
    1 <= Tracker.col c <= len (headers t) /\
    cell ws (Tracker.row c) (Tracker.col c) = Returned (Tracker.value c) /\
    has_data (Tracker.value c) = true.
Proof.
  unfold Marking.mark_back_data_red.
  destruct back_data_worksheets as [|n0 names]; [intros []|].
  destruct (fs file_path) as [| |worksheets]; try intros [].
  intros H Hc. apply mark_sheets_inv in H. destruct H as [[]|(Hin & ws & Hf & Hcells)].
  destruct (Hcells c Hc) as (t & H1 & H2 & H3 & H4 & H5 & H6 & H7).
  exists worksheets, ws, t. repeat split; auto; lia.
Qed.

Lemma mark_back_data_red_cells_witness :
  exists worksheets ws t,
    prev_fs "prev.xlsx" = Detection.Book worksheets /\
    In "Sheet1" ["Sheet1"] /\
    Tracker.find_sheet worksheets "Sheet1" = Some ws /\
    In t [one_column_table] /\ sheet t = "Sheet1" /\
    Tracker.cell_status (cell_A5 Tracker.pending) = Tracker.pending /\
    start_row t < 5 <= start_row t + 1000 /\
    1 <= 1 <= len (headers t) /\
    cell ws 5 1 = Returned (VInt 11) /\
    has_data (VInt 11) = true.
Proof.
  apply (mark_back_data_red_cells
           prev_fs Marking.no_counters "prev.xlsx" ["Sheet1"] [one_column_table]
           "Sheet1"
           [ Tracker.mk_cell_info 2 1 (VInt 1) Tracker.pending;
             Tracker.mk_cell_info 3 1 (VInt 1) Tracker.pending;
             Tracker.mk_cell_info 4 1 (VInt 1) Tracker.pending;
             cell_A5 Tracker.pending ]
           (cell_A5 Tracker.pending)).
  - vm_compute. left. reflexivity.
  - vm_compute. auto.
Defined.

Section StatusFacts.

Import Detection Tracker Marking Vocabulary.


Lemma len_app {A : Type} (l l' : list A) : len (l ++ l') = len l + len l'.
Proof. unfold len. rewrite length_app. lia. Qed.

Lemma len_cons {A : Type} (x : A) (l : list A) : len (x :: l) = 1 + len l.
Proof. unfold len. simpl length. lia. Qed.

Lemma len_map {A B : Type} (f : A -> B) (l : list A) : len (map f l) = len l.
Proof. unfold len. rewrite length_map. reflexivity. Qed.














End StatusFacts.







(** ** Grouping the report by worksheet *)

Section GroupFacts.

Import Tracker.

Lemma group_insert_keys (a : adjustment) (by_sheet : list (string * list adjustment))
      (s : string) :
  In s (map fst (group_insert a by_sheet)) <->
  s = adj_sheet a \/ In s (map fst by_sheet).
Proof.
  induction by_sheet as [|[s1 c1] rest IH]; simpl.
  - split; [intros [<-|[]]; left; reflexivity|intros [->|[]]; left; reflexivity].
  - destruct (String.eqb s1 (adj_sheet a)) eqn:E; simpl.
    + apply String.eqb_eq in E. subst s1. split; [intros H; right; exact H|].
      intros [->|H]; [left; reflexivity|exact H].
    + rewrite IH. tauto.
Qed.

Lemma group_insert_NoDup (a : adjustment) (by_sheet : list (string * list adjustment)) :
  NoDup (map fst by_sheet) -> NoDup (map fst (group_insert a by_sheet)).
Proof.
  induction by_sheet as [|[s1 c1] rest IH]; simpl; intros Hnd.
  - constructor; [intros []|constructor].
  - destruct (String.eqb s1 (adj_sheet a)) eqn:E; simpl; [exact Hnd|].
    inversion Hnd as [|? ? Hnot Hnd']; subst.
    constructor; [|apply IH; exact Hnd'].
    rewrite group_insert_keys. intros [Heq|Hin]; [|contradiction].
    rewrite Heq, String.eqb_refl in E. discriminate.
Qed.

Lemma group_insert_entry (a : adjustment) (by_sheet : list (string * list adjustment))
      (s : string) (g : list adjustment) :
  NoDup (map fst by_sheet) ->
  In (s, g) (group_insert a by_sheet) ->
  (s = adj_sheet a /\
   ((g = [a] /\ ~ In s (map fst by_sheet)) \/
    exists g0, In (s, g0) by_sheet /\ g = (g0 ++ [a])%list)) \/
  (s <> adj_sheet a /\ In (s, g) by_sheet).
Proof.
  induction by_sheet as [|[s1 c1] rest IH]; simpl; intros Hnd Hin.
  - destruct Hin as [[= <- <-]|[]].
    left. split; [reflexivity|]. left. split; [reflexivity|intros []].
  - inversion Hnd as [|? ? Hnot Hnd']; subst.
    destruct (String.eqb s1 (adj_sheet a)) eqn:E.
    + apply String.eqb_eq in E. destruct Hin as [[= <- <-]|Hin].
      * left. split; [exact E|]. right. exists c1.
        split; [left; reflexivity|reflexivity].
      * right. split; [|right; exact Hin].
        intros ->. apply Hnot. rewrite E. apply in_map_iff.
        exists (adj_sheet a, g). split; [reflexivity|exact Hin].
    + apply String.eqb_neq in E. destruct Hin as [[= <- <-]|Hin].
      * right. split; [exact E|left; reflexivity].
      * destruct (IH Hnd' Hin) as [[-> [[-> Hno]|(g0 & Hg0 & ->)]]|[Hne Hin']].
        -- left. split; [reflexivity|]. left. split; [reflexivity|].
           intros [Heq|H]; [congruence|contradiction].
        -- left. split; [reflexivity|]. right. exists g0.
           split; [right; exact Hg0|reflexivity].
        -- right. split; [exact Hne|right; exact Hin'].
Qed.

Lemma group_insert_perm (a : adjustment) (by_sheet : list (string * list adjustment)) :
  Permutation.Permutation (flat_map snd (group_insert a by_sheet))
                          (flat_map snd by_sheet ++ [a])%list.
Proof.
  induction by_sheet as [|[s1 c1] rest IH]; simpl.
  - apply Permutation.Permutation_refl.
  - destruct (String.eqb s1 (adj_sheet a)); simpl.
    + rewrite <- !app_assoc. apply Permutation.Permutation_app_head.
      apply Permutation.Permutation_app_comm.
    + rewrite <- app_assoc. apply Permutation.Permutation_app_head. exact IH.
Qed.

Lemma group_by_sheet_snoc (cells : list adjustment) (a : adjustment) :
  group_by_sheet (cells ++ [a]) = group_insert a (group_by_sheet cells).
Proof. unfold group_by_sheet. rewrite fold_left_app. reflexivity. Qed.

Lemma filter_none {A : Type} (f : A -> bool) (l : list A) :
  (forall x, In x l -> f x = false) -> filter f l = [].
Proof.
  induction l as [|x l IH]; simpl; intros H; [reflexivity|].
  rewrite (H x (or_introl eq_refl)). apply IH. intros y Hy. apply H. right. exact Hy.
Qed.

Lemma group_by_sheet_spec (cells : list adjustment) :
  NoDup (map fst (group_by_sheet cells)) /\
  (forall s, In s (map fst (group_by_sheet cells)) <-> In s (map adj_sheet cells)) /\
  (forall s g,
      In (s, g) (group_by_sheet cells) ->
      g <> [] /\ g = filter (fun a => String.eqb (adj_sheet a) s) cells) /\
  Permutation.Permutation (flat_map snd (group_by_sheet cells)) cells.
Proof.
  induction cells as [|a cells IH] using rev_ind.
  - simpl. repeat split; try tauto; try constructor; intros s g [].
  - destruct IH as (Hnd & Hkeys & Hgroups & Hperm).
    rewrite group_by_sheet_snoc. split; [|split; [|split]].
    + apply group_insert_NoDup. exact Hnd.
    + intros s. rewrite group_insert_keys, map_app, in_app_iff, Hkeys. simpl. 
      split; [intros [->|H]; auto|intros [H|[<-|[]]]; auto].
    + intros s g Hin. rewrite filter_app. simpl.
      apply group_insert_entry in Hin; [|exact Hnd].
      destruct Hin as [[-> [[-> Hno]|(g0 & Hg0 & ->)]]|[Hne Hin]].
      * split; [discriminate|]. rewrite String.eqb_refl.
        rewrite filter_none; [reflexivity|].
        intros x Hx. apply String.eqb_neq. intros Heq. apply Hno.
        apply Hkeys. apply in_map_iff. exists x. split; [exact Heq|exact Hx].
      * rewrite String.eqb_refl. destruct (Hgroups _ _ Hg0) as [_ <-].
        split; [|reflexivity]. destruct g0; discriminate.
      * destruct (Hgroups _ _ Hin) as [Hne' <-].
        split; [exact Hne'|].
        assert (E : String.eqb (adj_sheet a) s = false)
          by (apply String.eqb_neq; congruence).
        rewrite E, app_nil_r. reflexivity.
    + eapply Permutation.perm_trans; [apply group_insert_perm|].
      apply Permutation.Permutation_app_tail. exact Hperm.
Qed.

End GroupFacts.

(** X22. The report groups the cells to adjust by worksheet: each worksheet
    that has such a cell gets exactly one group, a group is never empty and
    holds exactly the cells of its worksheet in the order in which they
    were collected, and every cell is listed in exactly one group. *)
Theorem report_groups_by_worksheet (cells : list Tracker.adjustment) :
  NoDup (map fst (Tracker.group_by_sheet cells)) /\
  (forall s, In s (map fst (Tracker.group_by_sheet cells)) <->
             In s (map Tracker.adj_sheet cells)) /\
  (forall s g,
      In (s, g) (Tracker.group_by_sheet cells) ->
      g <> [] /\
      g = filter (fun a => String.eqb (Tracker.adj_sheet a) s) cells) /\
  Permutation.Permutation (flat_map snd (Tracker.group_by_sheet cells)) cells /\
  len (Tracker.report_lines cells) =
  9 + len (Tracker.group_by_sheet cells) + len cells.
Proof.
  destruct (group_by_sheet_spec cells) as (Hnd & Hkeys & Hgroups & Hperm).
  repeat (split; [assumption|]).
  unfold Tracker.report_lines, Tracker.heading_lines, Tracker.checklist_lines.
  rewrite !len_app.
  assert (Hlines : forall groups : list (string * list Tracker.adjustment),
             len (flat_map Tracker.sheet_lines groups) =
             len groups + len (flat_map snd groups)).
  { induction groups as [|[s g] groups IH]; [reflexivity|].
    cbn [flat_map snd]. unfold Tracker.sheet_lines at 1. cbn [snd].
    rewrite !len_app, IH, !len_cons, len_map. lia. }
  rewrite Hlines.
  unfold len at 4.
  rewrite (Permutation.Permutation_length Hperm).
  unfold len. simpl length. lia.
Qed.

Lemma report_groups_by_worksheet_witness :
  [ Tracker.mk_adjustment "Back" 2 1 "Back!A2" (VInt 1);
    Tracker.mk_adjustment "Back" 3 1 "Back!A3" (VInt 2) ] =
  filter (fun a => String.eqb (Tracker.adj_sheet a) "Back")
         [ Tracker.mk_adjustment "Back" 2 1 "Back!A2" (VInt 1);
           Tracker.mk_adjustment "Notes" 2 1 "Notes!A2" (VStr "n");
           Tracker.mk_adjustment "Back" 3 1 "Back!A3" (VInt 2) ].
Proof.
  destruct (report_groups_by_worksheet
              [ Tracker.mk_adjustment "Back" 2 1 "Back!A2" (VInt 1);
                Tracker.mk_adjustment "Notes" 2 1 "Notes!A2" (VStr "n");
                Tracker.mk_adjustment "Back" 3 1 "Back!A3" (VInt 2) ])
    as (_ & _ & Hgroups & _).
  apply (Hgroups "Back"). vm_compute. left. reflexivity.
Defined.


Lemma get_actual_data_from_table_rows_witness :
  len [VInt 1; VStr "a"; VInt 10] = len (headers small_table) /\
  2 * len (filter (fun v => negb (has_data v)) [VInt 1; VStr "a"; VInt 10]) <
  len (headers small_table).
Proof.
  pose proof (get_actual_data_from_table_rows filtered_fs small_table "curr.xlsx" 2)
    as H.
  cbv zeta in H. destruct H as (_ & Hrows).
  apply Hrows. vm_compute. left. reflexivity.
Defined.

Lemma enhanced_match_headers_sound_witness :
  match Similarity.enhanced_match_headers plain_range_boundaries revenue_fs
                                          [revenue_table] "curr.xlsx" 0.7 with
  | m :: _ => (0.7 <= match_confidence m)%Q /\ In (from_header m) ["Name"; "Revenue"]
  | [] => False
  end.
Proof.
  pose proof (enhanced_match_headers_sound plain_range_boundaries revenue_fs
                [revenue_table] "curr.xlsx" 0.7) as H.
  destruct (Similarity.enhanced_match_headers plain_range_boundaries revenue_fs
                                              [revenue_table] "curr.xlsx" 0.7)
    as [|m rest] eqn:E; [vm_compute in E; discriminate|].
  destruct (H m (or_introl eq_refl))
    as (p & s & [<-|[]] & _ & _ & _ & Hfrom & _ & _ & _ & Hth & _).
  split; [exact Hth|exact Hfrom].
Defined.

Lemma enhanced_match_headers_complete_witness :
  exists m,
    In m (Similarity.enhanced_match_headers plain_range_boundaries revenue_fs
                                            [revenue_table] "curr.xlsx" 0.7) /\
    from_header m = "Revenue" /\ (match_confidence m == 1)%Q.
Proof.
  destruct (Detection.find_tables plain_range_boundaries revenue_fs "curr.xlsx")
    as [|s rest] eqn:E; [vm_compute in E; discriminate|].
  destruct (enhanced_match_headers_complete
              plain_range_boundaries revenue_fs [revenue_table] "curr.xlsx" 0.7
              revenue_table s "Revenue")
    as (m & Hin & _ & _ & Hfrom & _ & Hconf).
  - vm_compute. discriminate.
  - left. reflexivity.
  - rewrite E. left. reflexivity.
  - right. left. reflexivity.
  - vm_compute in E. injection E as <- _. right. left. reflexivity.
  - reflexivity.
  - exists m. auto.
Defined.
